(** * CONSIM: the consciousness-lattice simulation engine

    A shallow embedding of [src/lattice.py] (the NumPy engine served by
    [src/server.py]) and of its standard-library twin [src/lattice_demo.py]
    (served by [demo_server.py] and [consim_launcher.py]), followed by the
    properties of the engine stated in the specification and by further
    properties of the code.

    Conventions of the embedding.
    - A Python [float] is a real number: [+ - * /], [sqrt], [sin], [cos],
      [exp] are those of the reals, so rounding, infinities and NaN are out
      of the model.  Where rounding decides a property (the reduction of the
      phase by [%]), the statements concerned are embedded a second time
      on binary64 floats, in [Float64].
    - A Python [int] is a [Z].
    - Node objects are shared by reference between [lattice.nodes],
      [universe.nodes] and [cluster['nodes']]; a reference is a location
      [loc] of an object store [Heap], and every list of nodes is a list of
      locations.
    - [np.random.*], [random.*] and [time.time()] read an explicit
      [World.t], threaded through every function that calls them.
    - Each class is a module of the same name; what [lattice_demo.py]
      writes differently lives in [Demo]. *)

From Stdlib Require Import Reals Lra Lia ZArith List Permutation
  FunctionalExtensionality.
From Stdlib Require Floats.
From stdpp Require Import gmap strings.

Local Open Scope R_scope.

(** ** Python numerics over the reals *)

Module Py.

#[global] Instance Rlt_decision (a b : R) : Decision (a < b) := Rlt_dec a b.
#[global] Instance Rgt_decision (a b : R) : Decision (a > b) := Rgt_dec a b.
#[global] Instance Rle_decision (a b : R) : Decision (a <= b) := Rle_dec a b.
#[global] Instance Rge_decision (a b : R) : Decision (a >= b) := Rge_dec a b.
#[global] Instance Req_decision : EqDecision R := Req_dec_T.

(** [a % b] over the reals: the remainder takes the sign of the divisor,
    [a - b * floor (a / b)].  This is the exact value; the float that
    Python returns is [Float64.float_rem], which rounds it. *)
Definition float_mod (a b : R) : R := a - b * IZR (Int_part (a / b)).

(** [np.arctan2(y, x)] / [math.atan2(y, x)]; both return [0] at [(0, 0)]. *)
Definition arctan2 (y x : R) : R :=
  if decide (0 < x) then atan (y / x)
  else if decide (x < 0) then
    (if decide (0 <= y) then atan (y / x) + PI else atan (y / x) - PI)
  else if decide (0 < y) then PI / 2
  else if decide (y < 0) then - (PI / 2)
  else 0.

(** [a ** b] on floats with a non-negative base.  For a positive base it is
    [exp (b * ln a)]; [0 ** 0] is [1] and [0 ** b] is [0] for [b > 0].
    (A negative base, or [0] raised to a negative power, leaves the real
    floats in Python; the engine's only use is [friction ** (dt * 60)].) *)
Definition float_pow (a b : R) : R :=
  if decide (0 < a) then Rpower a b
  else if decide (b = 0) then 1 else 0.

(** [np.clip(v, lo, hi)] is [minimum(maximum(v, lo), hi)]. *)
Definition clip (v lo hi : R) : R := Rmin (Rmax v lo) hi.

End Py.

(** ** Python numerics on binary64 floats

    The float operations as Python computes them, on the kernel's binary64
    floats: [+ - * /] are the IEEE operations, rounded to nearest. *)

Module Float64.

Import Floats.
Local Open Scope float_scope.

(** C's [fmod(a, b)], which [%] calls: the remainder of [a / b] truncated
    towards zero.  It has the sign of [a] and is exact. *)
Definition fmod (a b : float) : float :=
  match Prim2SF a, Prim2SF b with
  | S754_nan, _ | _, S754_nan | S754_infinity _, _ | _, S754_zero _ => nan
  | S754_zero _, _ | _, S754_infinity _ => a
  | S754_finite sa ma ea, S754_finite _ mb eb =>
      let e := Z.min ea eb in
      let r := Z.rem (Z.pos ma * 2 ^ (ea - e)) (Z.pos mb * 2 ^ (eb - e)) in
      if (r =? 0)%Z then (if sa then neg_zero else zero)
      else
        SF2Prim (binary_normalize prec emax (if sa then - r else r)%Z e false)
  end.

(** [a % b] on floats: [fmod(a, b)], to which [b] is added when its sign is
    not that of [b]; the addition rounds.  [ZeroDivisionError] is [None]. *)
Definition float_rem (a b : float) : option float :=
  if b =? 0 then None
  else
    let mod_ := fmod a b in
    Some (if mod_ =? 0 then (if get_sign b then neg_zero else zero)
          else if Bool.eqb (b <? 0) (mod_ <? 0) then mod_
          else mod_ + b).

(** [np.pi] / [math.pi] *)
Definition pi : float := 0x1.921fb54442d18p+1.

(** The statements of [ConsciousnessNode.update] that write the phase:
    [delta_time *= params.get('time_dilation', 1.0)], then the advance and
    its reduction.  [time_dilation] is the value read from [params]. *)
Definition oscillate_phase (phase frequency delta_time time_dilation : float)
    : option float :=
  let delta_time := delta_time * time_dilation in
  let phase := phase + frequency * delta_time * 2 * pi / 1000 in
  float_rem phase (2 * pi).

End Float64.

(** ** The environment: random draws and the wall clock

    [floats] feeds [random()], [uniform] and [gamma], [ints] feeds
    [randint], [clock] feeds [time.time()].  The streams are arbitrary, so
    whatever is proved for every [World.t] holds for every run. *)

Module World.

Record t : Type := mk {
  floats : nat -> R;
  ints : nat -> Z;
  clock : nat -> R;
  drawn : nat;
  ticks : nat
}.

Definition advance (w : t) : t :=
  mk (floats w) (ints w) (clock w) (S (drawn w)) (ticks w).

(** [np.random.random()] / [random.random()] *)
Definition random (w : t) : R * t := (floats w (drawn w), advance w).

(** [np.random.uniform(lo, hi)] / [random.uniform(lo, hi)]:
    [lo + (hi - lo) * random()] *)
Definition uniform (lo hi : R) (w : t) : R * t :=
  let '(u, w') := random w in (lo + (hi - lo) * u, w').

(** [np.random.gamma(shape, 1)]: one draw of the float stream *)
Definition gamma (shape scale : R) (w : t) : R * t := random w.

(** [np.random.randint(lo, hi)], a draw in [lo, hi); [ValueError] ([None])
    when the range is empty.  [random.randint(lo, hi - 1)] is the same. *)
Definition randint (lo hi : Z) (w : t) : option (Z * t) :=
  if decide (lo < hi)%Z
  then Some ((lo + ints w (drawn w) `mod` (hi - lo))%Z, advance w)
  else None.

(** [time.time()] *)
Definition time_time (w : t) : R * t :=
  (clock w (ticks w),
   mk (floats w) (ints w) (clock w) (drawn w) (S (ticks w))).

End World.

(** ** The pointer record sent by the client

    A JSON object read with [.get(key, default)]: every key may be absent. *)

Module MouseInfluence.

Record t : Type := mk {
  x : option R;
  y : option R;
  mode : option string;
  active : option bool
}.

(** Truth value of the dict in [if mouse_influence:]: false when empty. *)
Definition truthy (m : t) : bool :=
  bool_decide (is_Some (x m)) || bool_decide (is_Some (y m))
  || bool_decide (is_Some (mode m)) || bool_decide (is_Some (active m)).

End MouseInfluence.

(** ** [class UniverseMode(Enum)] *)

Inductive UniverseMode : Type :=
  | CONSCIOUSNESS | ATTENTION | FREQUENCY | TEMPORAL | MULTIVERSE.

(** The members, in definition order. *)
Definition UniverseMode_members : list UniverseMode :=
  [CONSCIOUSNESS; ATTENTION; FREQUENCY; TEMPORAL; MULTIVERSE].

(** [mode.value] *)
Definition UniverseMode_value (mode : UniverseMode) : string :=
  match mode with
  | CONSCIOUSNESS => "consciousness"
  | ATTENTION => "attention"
  | FREQUENCY => "frequency"
  | TEMPORAL => "temporal"
  | MULTIVERSE => "multiverse"
  end.

(** [UniverseMode(value)]: the first member with that value; [ValueError]
    ([None]) when no member has it. *)
Definition UniverseMode_call (value : string) : option UniverseMode :=
  find (fun mode => String.eqb (UniverseMode_value mode) value)
    UniverseMode_members.

(** Physics parameters: [Dict[str, float]] *)
Abbreviation Params := (gmap string R).

(** [params.get(key, default)] *)
Definition get (params : Params) (key : string) (dflt : R) : R :=
  default dflt (params !! key).

(** [params[key]]: [KeyError] when the key is absent.  The constructor
    installs the five keys and [update_params] only adds or overrides
    (lemma [keys_kept]), so the value chosen for an absent key is never
    observed. *)
Definition getitem (params : Params) (key : string) : R :=
  default 0 (params !! key).

(** ** The [dict] returned by [ConsciousnessNode.to_dict] *)

Module NodeDict.

Record t : Type := mk {
  x : R;
  y : R;
  radius : R;
  frequency : R;
  phase : R;
  attention : R;
  consciousness_re : R;
  consciousness_im : R;
  universe_id : Z;
  cluster_id : Z;
  consciousness_depth : R;
  self_awareness : R;
  thought_intensity : R;
  recursion_level : Z
}.

End NodeDict.

(** ** [@dataclass class ConsciousnessNode] *)

Module ConsciousnessNode.

Record t : Type := mk {
  x : R;
  y : R;
  vx : R;
  vy : R;
  radius : R;
  base_radius : R;
  frequency : R;
  base_frequency : R;
  phase : R;
  attention : R;
  consciousness_re : R;
  consciousness_im : R;
  universe_id : Z;
  resonance_coeff : R;
  mass : R;
  logic_tensor : R * R;
  memory_tensor : R * R;
  processing_tensor : R * R;
  creativity_tensor : R * R;
  social_tensor : R * R;
  consciousness_depth : R;
  self_awareness : R;
  adaptive_capacity : R;
  collective_intelligence : R;
  cluster_id : Z;
  thought_intensity : R;
  recursion_level : Z
}.

Definition set_x (v : R) (n : t) : t :=
  mk v (y n) (vx n) (vy n) (radius n) (base_radius n) (frequency n)
    (base_frequency n) (phase n) (attention n) (consciousness_re n)
    (consciousness_im n) (universe_id n) (resonance_coeff n) (mass n)
    (logic_tensor n) (memory_tensor n) (processing_tensor n)
    (creativity_tensor n) (social_tensor n) (consciousness_depth n)
    (self_awareness n) (adaptive_capacity n) (collective_intelligence n)
    (cluster_id n) (thought_intensity n) (recursion_level n).

Definition set_y (v : R) (n : t) : t :=
  mk (x n) v (vx n) (vy n) (radius n) (base_radius n) (frequency n)
    (base_frequency n) (phase n) (attention n) (consciousness_re n)
    (consciousness_im n) (universe_id n) (resonance_coeff n) (mass n)
    (logic_tensor n) (memory_tensor n) (processing_tensor n)
    (creativity_tensor n) (social_tensor n) (consciousness_depth n)
    (self_awareness n) (adaptive_capacity n) (collective_intelligence n)
    (cluster_id n) (thought_intensity n) (recursion_level n).

Definition set_vx (v : R) (n : t) : t :=
  mk (x n) (y n) v (vy n) (radius n) (base_radius n) (frequency n)
    (base_frequency n) (phase n) (attention n) (consciousness_re n)
    (consciousness_im n) (universe_id n) (resonance_coeff n) (mass n)
    (logic_tensor n) (memory_tensor n) (processing_tensor n)
    (creativity_tensor n) (social_tensor n) (consciousness_depth n)
    (self_awareness n) (adaptive_capacity n) (collective_intelligence n)
    (cluster_id n) (thought_intensity n) (recursion_level n).

Definition set_vy (v : R) (n : t) : t :=
  mk (x n) (y n) (vx n) v (radius n) (base_radius n) (frequency n)
    (base_frequency n) (phase n) (attention n) (consciousness_re n)
    (consciousness_im n) (universe_id n) (resonance_coeff n) (mass n)
    (logic_tensor n) (memory_tensor n) (processing_tensor n)
    (creativity_tensor n) (social_tensor n) (consciousness_depth n)
    (self_awareness n) (adaptive_capacity n) (collective_intelligence n)
    (cluster_id n) (thought_intensity n) (recursion_level n).

Definition set_radius (v : R) (n : t) : t :=
  mk (x n) (y n) (vx n) (vy n) v (base_radius n) (frequency n)
    (base_frequency n) (phase n) (attention n) (consciousness_re n)
    (consciousness_im n) (universe_id n) (resonance_coeff n) (mass n)
    (logic_tensor n) (memory_tensor n) (processing_tensor n)
    (creativity_tensor n) (social_tensor n) (consciousness_depth n)
    (self_awareness n) (adaptive_capacity n) (collective_intelligence n)
    (cluster_id n) (thought_intensity n) (recursion_level n).

Definition set_frequency (v : R) (n : t) : t :=
  mk (x n) (y n) (vx n) (vy n) (radius n) (base_radius n) v
    (base_frequency n) (phase n) (attention n) (consciousness_re n)
    (consciousness_im n) (universe_id n) (resonance_coeff n) (mass n)
    (logic_tensor n) (memory_tensor n) (processing_tensor n)
    (creativity_tensor n) (social_tensor n) (consciousness_depth n)
    (self_awareness n) (adaptive_capacity n) (collective_intelligence n)
    (cluster_id n) (thought_intensity n) (recursion_level n).

Definition set_phase (v : R) (n : t) : t :=
  mk (x n) (y n) (vx n) (vy n) (radius n) (base_radius n) (frequency n)
    (base_frequency n) v (attention n) (consciousness_re n)
    (consciousness_im n) (universe_id n) (resonance_coeff n) (mass n)
    (logic_tensor n) (memory_tensor n) (processing_tensor n)
    (creativity_tensor n) (social_tensor n) (consciousness_depth n)
    (self_awareness n) (adaptive_capacity n) (collective_intelligence n)
    (cluster_id n) (thought_intensity n) (recursion_level n).

Definition set_attention (v : R) (n : t) : t :=
  mk (x n) (y n) (vx n) (vy n) (radius n) (base_radius n) (frequency n)
    (base_frequency n) (phase n) v (consciousness_re n)
    (consciousness_im n) (universe_id n) (resonance_coeff n) (mass n)
    (logic_tensor n) (memory_tensor n) (processing_tensor n)
    (creativity_tensor n) (social_tensor n) (consciousness_depth n)
    (self_awareness n) (adaptive_capacity n) (collective_intelligence n)
    (cluster_id n) (thought_intensity n) (recursion_level n).

Definition set_consciousness_re (v : R) (n : t) : t :=
  mk (x n) (y n) (vx n) (vy n) (radius n) (base_radius n) (frequency n)
    (base_frequency n) (phase n) (attention n) v (consciousness_im n)
    (universe_id n) (resonance_coeff n) (mass n) (logic_tensor n)
    (memory_tensor n) (processing_tensor n) (creativity_tensor n)
    (social_tensor n) (consciousness_depth n) (self_awareness n)
    (adaptive_capacity n) (collective_intelligence n) (cluster_id n)
    (thought_intensity n) (recursion_level n).

Definition set_consciousness_im (v : R) (n : t) : t :=
  mk (x n) (y n) (vx n) (vy n) (radius n) (base_radius n) (frequency n)
    (base_frequency n) (phase n) (attention n) (consciousness_re n) v
    (universe_id n) (resonance_coeff n) (mass n) (logic_tensor n)
    (memory_tensor n) (processing_tensor n) (creativity_tensor n)
    (social_tensor n) (consciousness_depth n) (self_awareness n)
    (adaptive_capacity n) (collective_intelligence n) (cluster_id n)
    (thought_intensity n) (recursion_level n).

Definition set_logic_tensor (v : R * R) (n : t) : t :=
  mk (x n) (y n) (vx n) (vy n) (radius n) (base_radius n) (frequency n)
    (base_frequency n) (phase n) (attention n) (consciousness_re n)
    (consciousness_im n) (universe_id n) (resonance_coeff n) (mass n) v
    (memory_tensor n) (processing_tensor n) (creativity_tensor n)
    (social_tensor n) (consciousness_depth n) (self_awareness n)
    (adaptive_capacity n) (collective_intelligence n) (cluster_id n)
    (thought_intensity n) (recursion_level n).

Definition set_memory_tensor (v : R * R) (n : t) : t :=
  mk (x n) (y n) (vx n) (vy n) (radius n) (base_radius n) (frequency n)
    (base_frequency n) (phase n) (attention n) (consciousness_re n)
    (consciousness_im n) (universe_id n) (resonance_coeff n) (mass n)
    (logic_tensor n) v (processing_tensor n) (creativity_tensor n)
    (social_tensor n) (consciousness_depth n) (self_awareness n)
    (adaptive_capacity n) (collective_intelligence n) (cluster_id n)
    (thought_intensity n) (recursion_level n).

Definition set_processing_tensor (v : R * R) (n : t) : t :=
  mk (x n) (y n) (vx n) (vy n) (radius n) (base_radius n) (frequency n)
    (base_frequency n) (phase n) (attention n) (consciousness_re n)
    (consciousness_im n) (universe_id n) (resonance_coeff n) (mass n)
    (logic_tensor n) (memory_tensor n) v (creativity_tensor n)
    (social_tensor n) (consciousness_depth n) (self_awareness n)
    (adaptive_capacity n) (collective_intelligence n) (cluster_id n)
    (thought_intensity n) (recursion_level n).

Definition set_creativity_tensor (v : R * R) (n : t) : t :=
  mk (x n) (y n) (vx n) (vy n) (radius n) (base_radius n) (frequency n)
    (base_frequency n) (phase n) (attention n) (consciousness_re n)
    (consciousness_im n) (universe_id n) (resonance_coeff n) (mass n)
    (logic_tensor n) (memory_tensor n) (processing_tensor n) v
    (social_tensor n) (consciousness_depth n) (self_awareness n)
    (adaptive_capacity n) (collective_intelligence n) (cluster_id n)
    (thought_intensity n) (recursion_level n).

Definition set_social_tensor (v : R * R) (n : t) : t :=
  mk (x n) (y n) (vx n) (vy n) (radius n) (base_radius n) (frequency n)
    (base_frequency n) (phase n) (attention n) (consciousness_re n)
    (consciousness_im n) (universe_id n) (resonance_coeff n) (mass n)
    (logic_tensor n) (memory_tensor n) (processing_tensor n)
    (creativity_tensor n) v (consciousness_depth n) (self_awareness n)
    (adaptive_capacity n) (collective_intelligence n) (cluster_id n)
    (thought_intensity n) (recursion_level n).

Definition set_consciousness_depth (v : R) (n : t) : t :=
  mk (x n) (y n) (vx n) (vy n) (radius n) (base_radius n) (frequency n)
    (base_frequency n) (phase n) (attention n) (consciousness_re n)
    (consciousness_im n) (universe_id n) (resonance_coeff n) (mass n)
    (logic_tensor n) (memory_tensor n) (processing_tensor n)
    (creativity_tensor n) (social_tensor n) v (self_awareness n)
    (adaptive_capacity n) (collective_intelligence n) (cluster_id n)
    (thought_intensity n) (recursion_level n).

Definition set_self_awareness (v : R) (n : t) : t :=
  mk (x n) (y n) (vx n) (vy n) (radius n) (base_radius n) (frequency n)
    (base_frequency n) (phase n) (attention n) (consciousness_re n)
    (consciousness_im n) (universe_id n) (resonance_coeff n) (mass n)
    (logic_tensor n) (memory_tensor n) (processing_tensor n)
    (creativity_tensor n) (social_tensor n) (consciousness_depth n) v
    (adaptive_capacity n) (collective_intelligence n) (cluster_id n)
    (thought_intensity n) (recursion_level n).

Definition set_cluster_id (v : Z) (n : t) : t :=
  mk (x n) (y n) (vx n) (vy n) (radius n) (base_radius n) (frequency n)
    (base_frequency n) (phase n) (attention n) (consciousness_re n)
    (consciousness_im n) (universe_id n) (resonance_coeff n) (mass n)
    (logic_tensor n) (memory_tensor n) (processing_tensor n)
    (creativity_tensor n) (social_tensor n) (consciousness_depth n)
    (self_awareness n) (adaptive_capacity n) (collective_intelligence n) v
    (thought_intensity n) (recursion_level n).

Definition set_thought_intensity (v : R) (n : t) : t :=
  mk (x n) (y n) (vx n) (vy n) (radius n) (base_radius n) (frequency n)
    (base_frequency n) (phase n) (attention n) (consciousness_re n)
    (consciousness_im n) (universe_id n) (resonance_coeff n) (mass n)
    (logic_tensor n) (memory_tensor n) (processing_tensor n)
    (creativity_tensor n) (social_tensor n) (consciousness_depth n)
    (self_awareness n) (adaptive_capacity n) (collective_intelligence n)
    (cluster_id n) v (recursion_level n).
Section Methods.

Variable params : Params.

(** [_apply_mouse_interaction(self, mouse_influence, delta_time, params)] *)
Definition _apply_mouse_interaction
    (mouse_influence : MouseInfluence.t) (delta_time : R)
    (w : World.t) (n : t) : t * World.t :=
  let mouse_x := default 0 (MouseInfluence.x mouse_influence) in
  let mouse_y := default 0 (MouseInfluence.y mouse_influence) in
  let interaction_mode :=
    default "push"%string (MouseInfluence.mode mouse_influence) in
  let is_active := default false (MouseInfluence.active mouse_influence) in
  if negb is_active then (n, w) else
  let dx_mouse := mouse_x - x n in
  let dy_mouse := mouse_y - y n in
  let distance_mouse := sqrt (dx_mouse ^ 2 + dy_mouse ^ 2) in
  let max_distance := 200 * get params "field_strength" 1 in
  if decide (distance_mouse < max_distance) then
    let angle := Py.arctan2 dy_mouse dx_mouse in
    let force := (max_distance - distance_mouse) / max_distance in
    let force := force * get params "field_strength" 1 in
    if String.eqb interaction_mode "push" then
      let n := set_vx (vx n - cos angle * force * 0.4 * delta_time * 60) n in
      let n := set_vy (vy n - sin angle * force * 0.4 * delta_time * 60) n in
      (n, w)
    else if String.eqb interaction_mode "pull" then
      let n := set_vx (vx n + cos angle * force * 0.4 * delta_time * 60) n in
      let n := set_vy (vy n + sin angle * force * 0.4 * delta_time * 60) n in
      (n, w)
    else if String.eqb interaction_mode "vortex" then
      let tangential_angle := angle + PI / 2 in
      let n :=
        set_vx (vx n + cos tangential_angle * force * 0.5 * delta_time * 60) n in
      let n :=
        set_vy (vy n + sin tangential_angle * force * 0.5 * delta_time * 60) n in
      (n, w)
    else if String.eqb interaction_mode "wave" then
      let '(now, w) := World.time_time w in
      let time_factor := now * 10 in
      let wave_force := sin (distance_mouse * 0.05 - time_factor) * force in
      let n := set_vx (vx n + cos angle * wave_force * 0.5 * delta_time * 60) n in
      let n := set_vy (vy n + sin angle * wave_force * 0.5 * delta_time * 60) n in
      (n, w)
    else (n, w)
  else (n, w).

Definition world_bounds_x : R := 1000.
Definition world_bounds_y : R := 1000.

(** The first half of [_apply_physics]: gravity, position, friction. *)
Definition integrate (delta_time : R) (n : t) : t :=
  let n :=
    if decide (get params "gravity" 0 > 0) then
      let dx := 0 - x n in
      let dy := 0 - y n in
      let dist_center := sqrt (dx ^ 2 + dy ^ 2) in
      if decide (dist_center > 10) then
        let gravity_force := getitem params "gravity" * 0.001 * delta_time * 60 in
        let n := set_vx (vx n + (dx / dist_center) * gravity_force) n in
        set_vy (vy n + (dy / dist_center) * gravity_force) n
      else n
    else n in
  let n := set_x (x n + vx n * delta_time * 60) n in
  let n := set_y (y n + vy n * delta_time * 60) n in
  let friction := Py.float_pow (get params "friction" 0.99) (delta_time * 60) in
  let n := set_vx (vx n * friction) n in
  set_vy (vy n * friction) n.

(** The boundary test on the x axis, with quantum tunnelling. *)
Definition bound_x (w : World.t) (n : t) : t * World.t :=
  if decide (x n < - world_bounds_x / 2 \/ x n > world_bounds_x / 2) then
    let '(r, w) := World.random w in
    if decide (r < 0.05) then
      let n :=
        set_x (if decide (x n < - world_bounds_x / 2)
               then world_bounds_x / 2 else - world_bounds_x / 2) n in
      (set_vx (vx n * -0.5) n, w)
    else
      let n := set_vx (vx n * (-0.8 * get params "elasticity" 0.8)) n in
      (set_x (Py.clip (x n) (- world_bounds_x / 2) (world_bounds_x / 2)) n, w)
  else (n, w).

(** The same test on the y axis. *)
Definition bound_y (w : World.t) (n : t) : t * World.t :=
  if decide (y n < - world_bounds_y / 2 \/ y n > world_bounds_y / 2) then
    let '(r, w) := World.random w in
    if decide (r < 0.05) then
      let n :=
        set_y (if decide (y n < - world_bounds_y / 2)
               then world_bounds_y / 2 else - world_bounds_y / 2) n in
      (set_vy (vy n * -0.5) n, w)
    else
      let n := set_vy (vy n * (-0.8 * get params "elasticity" 0.8)) n in
      (set_y (Py.clip (y n) (- world_bounds_y / 2) (world_bounds_y / 2)) n, w)
  else (n, w).

(** [_apply_physics(self, delta_time, params)] *)
Definition _apply_physics (delta_time : R) (w : World.t) (n : t)
    : t * World.t :=
  let n := integrate delta_time n in
  let '(n, w) := bound_x w n in
  bound_y w n.

(** [_update_intelligence_tensors(self, delta_time, params)] *)
Definition _update_intelligence_tensors (delta_time : R) (n : t) : t :=
  let evolution_rate := 0.02 * get params "time_dilation" 1 in
  let n :=
    set_memory_tensor
      (fst (memory_tensor n) + fst (logic_tensor n) * evolution_rate * 0.1,
       snd (memory_tensor n) + snd (logic_tensor n) * evolution_rate * 0.1) n in
  let n :=
    set_processing_tensor
      (fst (processing_tensor n) + fst (memory_tensor n) * evolution_rate * 0.15,
       snd (processing_tensor n) + snd (memory_tensor n) * evolution_rate * 0.15)
      n in
  let logic_magnitude :=
    sqrt (fst (logic_tensor n) ^ 2 + snd (logic_tensor n) ^ 2) in
  let memory_magnitude :=
    sqrt (fst (memory_tensor n) ^ 2 + snd (memory_tensor n) ^ 2) in
  let processing_magnitude :=
    sqrt (fst (processing_tensor n) ^ 2 + snd (processing_tensor n) ^ 2) in
  let n :=
    set_consciousness_depth
      (Rmin 1 ((logic_magnitude + memory_magnitude + processing_magnitude) / 3))
      n in
  let n :=
    set_self_awareness
      (Rmin 1 (logic_magnitude * 0.8 + thought_intensity n * 0.2)) n in
  set_thought_intensity (Rmax 0 (thought_intensity n - delta_time * 0.5)) n.

(** The oscillation part of [update]: the complex value, then the phase. *)
Definition oscillate (delta_time : R) (n : t) : t :=
  let cos_tau := cos (phase n) in
  let sin_tau := sin (phase n) in
  let n := set_consciousness_re (attention n * frequency n * cos_tau) n in
  let n := set_consciousness_im (attention n * frequency n * sin_tau) n in
  let n := set_phase (phase n + frequency n * delta_time * 2 * PI / 1000) n in
  set_phase (Py.float_mod (phase n) (2 * PI)) n.

(** The last statement of [update]: the radius follows [|C|]. *)
Definition resize (n : t) : t :=
  let consciousness_magnitude :=
    sqrt (consciousness_re n ^ 2 + consciousness_im n ^ 2) in
  set_radius (base_radius n + consciousness_magnitude * 0.1) n.

(** [update(self, delta_time, params, mouse_influence=None)] *)
Definition update (delta_time : R) (mouse_influence : option MouseInfluence.t)
    (w : World.t) (n : t) : t * World.t :=
  let delta_time := delta_time * get params "time_dilation" 1 in
  let n := oscillate delta_time n in
  let '(n, w) :=
    match mouse_influence with
    | Some m =>
        if MouseInfluence.truthy m
        then _apply_mouse_interaction m delta_time w n
        else (n, w)
    | None => (n, w)
    end in
  let '(n, w) := _apply_physics delta_time w n in
  let n := _update_intelligence_tensors delta_time n in
  (resize n, w).

End Methods.

(** [calculate_attention_density(self)] *)
Definition calculate_attention_density (n : t) : R :=
  let sigma := 200 in
  let d_sq := x n ^ 2 + y n ^ 2 in
  exp (- d_sq / (2 * sigma ^ 2)).

(** [node.attention = node.calculate_attention_density()] *)
Definition weigh (n : t) : t :=
  set_attention (calculate_attention_density n) n.

(** [ConsciousnessNode(x=x, y=y, frequency=f, phase=p, universe_id=u,
    resonance_coeff=c)]: the other fields take the dataclass defaults. *)
Definition new (x0 y0 frequency0 phase0 : R) (universe_id0 : Z)
    (resonance_coeff0 : R) : t :=
  mk x0 y0 0 0 3 3 frequency0 40 phase0 0 0 0 universe_id0 resonance_coeff0 1
    (0.5, 0.5) (0.5, 0.5) (0.5, 0.5) (0.5, 0.5) (0.5, 0.5) 0 0 0 0 (-1) 0 0.

(** [to_dict(self)] *)
Definition to_dict (n : t) : NodeDict.t :=
  NodeDict.mk (x n) (y n) (radius n) (frequency n) (phase n) (attention n)
    (consciousness_re n) (consciousness_im n) (universe_id n) (cluster_id n)
    (consciousness_depth n) (self_awareness n) (thought_intensity n)
    (recursion_level n).

End ConsciousnessNode.

Abbreviation Node := ConsciousnessNode.t.

(** ** The object store *)

Definition loc : Type := nat.

Definition Heap : Type := loc -> Node.

Definition heap_set (h : Heap) (l : loc) (n : Node) : Heap :=
  fun l' => if decide (l' = l) then n else h l'.

(** In-place mutation of the object at [l]. *)
Definition heap_upd (f : Node -> Node) (l : loc) (h : Heap) : Heap :=
  heap_set h l (f (h l)).

Definition empty_heap : Heap := fun _ => ConsciousnessNode.new 0 0 0 0 0 0.

(** ** Python lists *)

#[global] Instance R_inhabited : Inhabited R := populate 0.

(** [enumerate(l)] *)
Fixpoint enumerate_from {A : Type} (k : nat) (l : list A) : list (nat * A) :=
  match l with
  | [] => []
  | a :: l => (k, a) :: enumerate_from (S k) l
  end.

Definition enumerate {A : Type} (l : list A) : list (nat * A) :=
  enumerate_from 0 l.

(** The position that the subscript [i] designates in a list of length
    [len]; negative subscripts count from the end, [IndexError] is [None]. *)
Definition position (len : nat) (i : Z) : option nat :=
  if decide (0 <= i < Z.of_nat len)%Z then Some (Z.to_nat i)
  else if decide (- Z.of_nat len <= i < 0)%Z
       then Some (Z.to_nat (Z.of_nat len + i))
       else None.

(** [l[i]] *)
Definition index {A : Type} (l : list A) (i : Z) : option A :=
  k ← position (length l) i; l !! k.

(** [sum(l)] *)
Definition sum (l : list R) : R := fold_left Rplus l 0.

(** [l.remove(v)] for a [v] known to be in [l]: drops the first element
    that [same] accepts. *)
Fixpoint remove_first {A : Type} (same : A -> bool) (l : list A) : list A :=
  match l with
  | [] => []
  | a :: l => if same a then l else a :: remove_first same l
  end.

(** A [for] loop whose body may raise. *)
Fixpoint for_each {A St : Type} (l : list A) (body : St -> A -> option St)
    (s : St) : option St :=
  match l with
  | [] => Some s
  | a :: l => s' ← body s a; for_each l body s'
  end.

(** ** The [dict] returned by [Universe.to_dict] *)

Module UniverseDict.

Record t : Type := mk {
  id : Z;
  center_x : R;
  center_y : R;
  radius : R;
  resonance_coeff : R;
  node_count : Z
}.

End UniverseDict.

(** ** [@dataclass class Universe] *)

Module Universe.

Record t : Type := mk {
  id : Z;
  center_x : R;
  center_y : R;
  radius : R;
  resonance_coeff : R;
  nodes : list loc
}.

Definition set_nodes (v : list loc) (u : t) : t :=
  mk (id u) (center_x u) (center_y u) (radius u) (resonance_coeff u) v.

(** [_contains_node(self, node)] *)
Definition _contains_node (u : t) (node : Node) : bool :=
  let dist :=
    sqrt ((ConsciousnessNode.x node - center_x u) ^ 2
          + (ConsciousnessNode.y node - center_y u) ^ 2) in
  bool_decide (dist < radius u).

(** The assignment in the body of [update]. *)
Definition modulate (u : t) (time_factor : R) (node : Node) : Node :=
  ConsciousnessNode.set_frequency
    (ConsciousnessNode.base_frequency node
     * (1 + resonance_coeff u * 0.2 * sin (time_factor * 0.05))) node.

(** [update(self, time_factor)]: the loop runs over [self.nodes], the list
    filled when the nodes were created. *)
Definition update (u : t) (time_factor : R) (h : Heap) : Heap :=
  fold_left
    (fun h node =>
       if _contains_node u (h node)
       then heap_upd (modulate u time_factor) node h
       else h)
    (nodes u) h.

(** [to_dict(self)] *)
Definition to_dict (u : t) : UniverseDict.t :=
  UniverseDict.mk (id u) (center_x u) (center_y u) (radius u)
    (resonance_coeff u) (Z.of_nat (length (nodes u))).

End Universe.

(** ** A cluster record: the [dict] built by [_update_clusters] *)

Module Cluster.

Record t : Type := mk {
  id : Z;
  nodes : list loc;
  center_x : R;
  center_y : R;
  recursion_depth : Z;
  complexity_score : Z
}.

End Cluster.

(** ** The [dict] returned by [_calculate_global_consciousness] *)

Module Stats.

Record t : Type := mk {
  consciousness_magnitude : R;
  global_resonance : R;
  average_attention : R;
  average_phase_degrees : R;
  node_count : Z;
  cluster_count : Z;
  time : R
}.

End Stats.

(** ** The [dict] returned by [get_state_for_transmission] *)

Module State.

Record t : Type := mk {
  nodes : list NodeDict.t;
  universes : list UniverseDict.t;
  clusters : list Cluster.t;
  global_stats : Stats.t;
  mode : string;
  params : gmap string R;
  lambdas : list R;
  time : R
}.

End State.

(** ** [class ConsciousnessLattice] of [lattice.py] *)

Module ConsciousnessLattice.

(** The attributes of the instance, with the store of its node objects
    ([heap]) and the next free location ([next_loc]). *)
Record t : Type := mk {
  grid_size : Z;
  universe_count : Z;
  time : R;
  nodes : list loc;
  universes : list Universe.t;
  clusters : list Cluster.t;
  mouse_influence_queue : list MouseInfluence.t;
  lambdas : list R;
  params : gmap string R;
  last_update_time : R;
  current_mode : option UniverseMode;
  heap : Heap;
  next_loc : loc
}.

Definition set_time (v : R) (n : t) : t :=
  mk (grid_size n) (universe_count n) v (nodes n) (universes n)
    (clusters n) (mouse_influence_queue n) (lambdas n) (params n)
    (last_update_time n) (current_mode n) (heap n) (next_loc n).

Definition set_nodes (v : list loc) (n : t) : t :=
  mk (grid_size n) (universe_count n) (time n) v (universes n) (clusters n)
    (mouse_influence_queue n) (lambdas n) (params n) (last_update_time n)
    (current_mode n) (heap n) (next_loc n).

Definition set_universes (v : list Universe.t) (n : t) : t :=
  mk (grid_size n) (universe_count n) (time n) (nodes n) v (clusters n)
    (mouse_influence_queue n) (lambdas n) (params n) (last_update_time n)
    (current_mode n) (heap n) (next_loc n).

Definition set_clusters (v : list Cluster.t) (n : t) : t :=
  mk (grid_size n) (universe_count n) (time n) (nodes n) (universes n) v
    (mouse_influence_queue n) (lambdas n) (params n) (last_update_time n)
    (current_mode n) (heap n) (next_loc n).

Definition set_mouse_influence_queue (v : list MouseInfluence.t) (n : t) : t :=
  mk (grid_size n) (universe_count n) (time n) (nodes n) (universes n)
    (clusters n) v (lambdas n) (params n) (last_update_time n)
    (current_mode n) (heap n) (next_loc n).

Definition set_params (v : gmap string R) (n : t) : t :=
  mk (grid_size n) (universe_count n) (time n) (nodes n) (universes n)
    (clusters n) (mouse_influence_queue n) (lambdas n) v
    (last_update_time n) (current_mode n) (heap n) (next_loc n).

Definition set_last_update_time (v : R) (n : t) : t :=
  mk (grid_size n) (universe_count n) (time n) (nodes n) (universes n)
    (clusters n) (mouse_influence_queue n) (lambdas n) (params n) v
    (current_mode n) (heap n) (next_loc n).

Definition set_current_mode (v : option UniverseMode) (n : t) : t :=
  mk (grid_size n) (universe_count n) (time n) (nodes n) (universes n)
    (clusters n) (mouse_influence_queue n) (lambdas n) (params n)
    (last_update_time n) v (heap n) (next_loc n).

Definition set_heap (v : Heap) (n : t) : t :=
  mk (grid_size n) (universe_count n) (time n) (nodes n) (universes n)
    (clusters n) (mouse_influence_queue n) (lambdas n) (params n)
    (last_update_time n) (current_mode n) v (next_loc n).

Definition set_next_loc (v : loc) (n : t) : t :=
  mk (grid_size n) (universe_count n) (time n) (nodes n) (universes n)
    (clusters n) (mouse_influence_queue n) (lambdas n) (params n)
    (last_update_time n) (current_mode n) (heap n) v.
Definition default_params : Params :=
  {[ "gravity"%string := 1; "friction"%string := 0.99;
     "elasticity"%string := 0.8; "time_dilation"%string := 1;
     "field_strength"%string := 1 ]}.

(** Two node objects are equal ([==], as [in] and [list.remove] test it)
    when all their fields are. *)
#[global] Instance Node_eq_dec : EqDecision Node.
Proof. solve_decision. Defined.

(** [_sample_dirichlet(self, alpha)]: [ZeroDivisionError] when the samples
    sum to zero. *)
Definition _sample_dirichlet (alpha : list R) (w : World.t)
    : option (list R * World.t) :=
  let '(samples, w) :=
    fold_left
      (fun '(samples, w) a =>
         let '(s, w) := World.gamma a 1 w in (samples ++ [s], w))
      alpha ([], w) in
  let total := sum samples in
  if bool_decide (samples <> [] /\ total = 0) then None
  else Some (map (fun s => s / total) samples, w).

(** [_initialize_universes(self)] *)
Definition _initialize_universes (self : t) (w : World.t)
    : option (t * World.t) :=
  for_each (seqZ 0 (universe_count self))
    (fun '(self, w) i =>
       let '(cx, w) := World.uniform (-400) 400 w in
       let '(cy, w) := World.uniform (-400) 400 w in
       let '(r, w) := World.uniform 150 250 w in
       lam ← index (lambdas self) i;
       let universe := Universe.mk i cx cy r lam [] in
       Some (set_universes (universes self ++ [universe]) self, w))
    (set_universes [] self, w).

(** [self.universes[universe_id].nodes.append(node)] *)
Definition join_universe (node : loc) (universe_id : Z) (self : t)
    : option t :=
  k ← position (length (universes self)) universe_id;
  Some (set_universes
          (alter (fun u => Universe.set_nodes (Universe.nodes u ++ [node]) u)
             k (universes self))
          self).

(** Allocates a fresh node object. *)
Definition alloc (n : Node) (self : t) : loc * t :=
  let l := next_loc self in
  (l, set_next_loc (S l) (set_heap (heap_set (heap self) l n) self)).

(** The body of the loop of [_initialize_nodes]. *)
Definition spawn (self : t) (w : World.t) : option (t * World.t) :=
  let '(x, w) := World.uniform (-500) 500 w in
  let '(y, w) := World.uniform (-500) 500 w in
  '(universe_id, w) ← World.randint 0 (universe_count self) w;
  let '(df, w) := World.uniform (-5) 5 w in
  let '(ph, w) := World.uniform 0 (2 * PI) w in
  lam ← index (lambdas self) universe_id;
  let node := ConsciousnessNode.new x y (40 + df) ph universe_id lam in
  let '(a, w) := World.random w in
  let '(b, w) := World.random w in
  let node := ConsciousnessNode.set_logic_tensor (a, b) node in
  let '(a, w) := World.random w in
  let '(b, w) := World.random w in
  let node := ConsciousnessNode.set_memory_tensor (a, b) node in
  let '(a, w) := World.random w in
  let '(b, w) := World.random w in
  let node := ConsciousnessNode.set_processing_tensor (a, b) node in
  let '(a, w) := World.random w in
  let '(b, w) := World.random w in
  let node := ConsciousnessNode.set_creativity_tensor (a, b) node in
  let '(a, w) := World.random w in
  let '(b, w) := World.random w in
  let node := ConsciousnessNode.set_social_tensor (a, b) node in
  let '(l, self) := alloc node self in
  let self := set_nodes (nodes self ++ [l]) self in
  self ← join_universe l universe_id self;
  Some (self, w).

(** [_initialize_nodes(self)] *)
Definition _initialize_nodes (self : t) (w : World.t)
    : option (t * World.t) :=
  for_each (seqZ 0 (grid_size self))
    (fun '(self, w) _ => spawn self w)
    (set_nodes [] self, w).

(** The body of the first loop of [_normalize_attention_field]: the node
    takes its raw density, which is added to the running total. *)
Definition measure_step (s : Heap * R) (node : loc) : Heap * R :=
  let '(h, total_attention) := s in
  let h := heap_upd ConsciousnessNode.weigh node h in
  (h, total_attention + ConsciousnessNode.attention (h node)).

(** The first loop. *)
Definition measure (nodes : list loc) (h : Heap) : Heap * R :=
  fold_left measure_step nodes (h, 0).

(** The second loop: [node.attention /= total_attention]. *)
Definition rescale (total_attention : R) (nodes : list loc) (h : Heap)
    : Heap :=
  fold_left
    (fun h node =>
       heap_upd
         (fun n =>
            ConsciousnessNode.set_attention
              (ConsciousnessNode.attention n / total_attention) n)
         node h)
    nodes h.

(** [_normalize_attention_field(self)] *)
Definition _normalize_attention_field (self : t) : t :=
  let '(h, total_attention) := measure (nodes self) (heap self) in
  if decide (total_attention > 0)
  then set_heap (rescale total_attention (nodes self) h) self
  else set_heap h self.

(** [__init__(self, grid_size=128, universe_count=3)] *)
Definition __init__ (grid_size universe_count : Z) (w : World.t)
    : option (t * World.t) :=
  '(lambdas, w) ← _sample_dirichlet (replicate (Z.to_nat universe_count) 1) w;
  let self :=
    mk grid_size universe_count 0 [] [] [] [] lambdas default_params 0 None
      empty_heap 0%nat in
  '(self, w) ← _initialize_universes self w;
  '(self, w) ← _initialize_nodes self w;
  let self := _normalize_attention_field self in
  let '(now, w) := World.time_time w in
  Some (set_last_update_time now self, w).

(** The body of the inner loop of [_update_nodes_with_interactions]: what
    [other_node] adds to the repulsion accumulated for [node]. *)
Definition repel (params : Params) (delta_time : R) (node other_node : Node)
    (repulsion : R * R) : R * R :=
  let dx := ConsciousnessNode.x other_node - ConsciousnessNode.x node in
  let dy := ConsciousnessNode.y other_node - ConsciousnessNode.y node in
  let distance := sqrt (dx ^ 2 + dy ^ 2) in
  let min_distance :=
    ConsciousnessNode.radius node + ConsciousnessNode.radius other_node + 10 in
  if decide (distance < min_distance /\ distance > 0) then
    let force := (min_distance - distance) / min_distance in
    let angle := Py.arctan2 dy dx in
    let repulsion_strength :=
      0.5 * delta_time * 60 * getitem params "elasticity" in
    (fst repulsion - cos angle * force * repulsion_strength,
     snd repulsion - sin angle * force * repulsion_strength)
  else repulsion.

(** The inner loop: the repulsion on the [i]-th node from all the others. *)
Definition repulsion_on (params : Params) (delta_time : R) (h : Heap)
    (nodes : list loc) (i : nat) (node : loc) : R * R :=
  fold_left
    (fun repulsion '(j, other_node) =>
       if decide (i = j) then repulsion
       else repel params delta_time (h node) (h other_node) repulsion)
    (enumerate nodes) (0, 0).

(** The first loop: the list [forces], all from the same store. *)
Definition compute_forces (params : Params) (delta_time : R) (h : Heap)
    (nodes : list loc) : list (R * R) :=
  map (fun '(i, node) => repulsion_on params delta_time h nodes i node)
    (enumerate nodes).

(** The body of the second loop: the repulsion is added to the velocity,
    then the node updates itself. *)
Definition push_and_update (params : Params) (delta_time : R)
    (mouse_influence : option MouseInfluence.t) (force : R * R)
    (node : loc) (hw : Heap * World.t) : Heap * World.t :=
  let '(h, w) := hw in
  let n := h node in
  let n := ConsciousnessNode.set_vx (ConsciousnessNode.vx n + fst force) n in
  let n := ConsciousnessNode.set_vy (ConsciousnessNode.vy n + snd force) n in
  let '(n, w) :=
    ConsciousnessNode.update params delta_time mouse_influence w n in
  (heap_set h node n, w).

(** [_update_nodes_with_interactions(self, delta_time, mouse_influence)] *)
Definition _update_nodes_with_interactions (delta_time : R)
    (mouse_influence : option MouseInfluence.t) (w : World.t) (self : t)
    : t * World.t :=
  let forces :=
    compute_forces (params self) delta_time (heap self) (nodes self) in
  let '(h, w) :=
    fold_left
      (fun hw '(i, node) =>
         push_and_update (params self) delta_time mouse_influence
           (forces !!! i) node hw)
      (enumerate (nodes self)) (heap self, w) in
  (set_heap h self, w).

(** The test in the innermost loop of [_update_clusters]: proximity, then
    phase and frequency alignment. *)
Definition linked (current_node candidate : Node) : bool :=
  let dx := ConsciousnessNode.x candidate - ConsciousnessNode.x current_node in
  let dy := ConsciousnessNode.y candidate - ConsciousnessNode.y current_node in
  let distance := sqrt (dx ^ 2 + dy ^ 2) in
  if decide (distance < 80) then
    let phase_diff :=
      Rabs (sin (ConsciousnessNode.phase current_node
                 - ConsciousnessNode.phase candidate)) in
    let phase_compatible := bool_decide (phase_diff < 0.5) in
    let freq_ratio :=
      Rmin (ConsciousnessNode.frequency current_node)
           (ConsciousnessNode.frequency candidate)
      / Rmax (Rmax (ConsciousnessNode.frequency current_node)
                   (ConsciousnessNode.frequency candidate)) 0.001 in
    let freq_compatible := bool_decide (freq_ratio > 0.7) in
    phase_compatible && freq_compatible
  else false.

(** The state of one breadth-first traversal: [cluster_nodes], [queue],
    [processed]. *)
Definition Traversal : Type := list loc * list nat * gset nat.

(** The [for j, candidate] loop run for one dequeued node. *)
Definition scan (h : Heap) (nodes : list loc) (current_node : Node)
    (s : Traversal) : Traversal :=
  fold_left
    (fun '(cluster_nodes, queue, processed) '(j, candidate) =>
       if decide (j ∈ processed) then (cluster_nodes, queue, processed)
       else if linked current_node (h candidate)
            then (cluster_nodes ++ [candidate], queue ++ [j],
                  {[j]} ∪ processed)
            else (cluster_nodes, queue, processed))
    (enumerate nodes) s.

(** [while queue and safety_counter < max_iterations]: [fuel] is what is
    left of [max_iterations]. *)
Fixpoint traverse (fuel : nat) (h : Heap) (nodes : list loc) (s : Traversal)
    : Traversal :=
  match fuel with
  | O => s
  | S fuel =>
      let '(cluster_nodes, queue, processed) := s in
      match queue with
      | [] => s
      | current_idx :: queue =>
          let current_node := h (nodes !!! current_idx) in
          traverse fuel h nodes
            (scan h nodes current_node (cluster_nodes, queue, processed))
      end
  end.

(** The body of the [for i, node] loop of [_update_clusters]. *)
Definition grow (nodes : list loc) (s : Heap * list Cluster.t * gset nat)
    (i : nat) (node : loc) : Heap * list Cluster.t * gset nat :=
  let '(h, clusters, processed) := s in
  if decide (i ∈ processed) then s else
  let max_iterations := (length nodes * 2)%nat in
  let '(cluster_nodes, _, processed) :=
    traverse max_iterations h nodes ([node], [i], {[i]} ∪ processed) in
  if decide (3 <= length cluster_nodes)%nat then
    let cluster_id := Z.of_nat (length clusters) in
    let cluster :=
      Cluster.mk cluster_id cluster_nodes
        (sum (map (fun n => ConsciousnessNode.x (h n)) cluster_nodes)
         / INR (length cluster_nodes))
        (sum (map (fun n => ConsciousnessNode.y (h n)) cluster_nodes)
         / INR (length cluster_nodes))
        0 0 in
    let h :=
      fold_left
        (fun h node =>
           heap_upd (ConsciousnessNode.set_cluster_id cluster_id) node h)
        cluster_nodes h in
    (h, clusters ++ [cluster], processed)
  else (h, clusters, processed).

(** The first loop of [_update_clusters]: [node.cluster_id = -1]. *)
Definition reset (nodes : list loc) (h : Heap) : Heap :=
  fold_left
    (fun h node => heap_upd (ConsciousnessNode.set_cluster_id (-1)) node h)
    nodes h.

(** The [for i, node] loop, from no cluster and nothing processed. *)
Definition detect (nodes : list loc) (h : Heap)
    : Heap * list Cluster.t * gset nat :=
  fold_left (fun s '(i, node) => grow nodes s i node) (enumerate nodes)
    (h, [], ∅).

(** [_update_clusters(self)] *)
Definition _update_clusters (self : t) : t :=
  let h := reset (nodes self) (heap self) in
  let '(h, clusters, _) := detect (nodes self) h in
  set_clusters clusters (set_heap h self).

(** [_calculate_global_consciousness(self)].  A [universe_id] is drawn
    below [universe_count = len(self.lambdas)], so the subscript is in
    range; the weight chosen outside it is never observed. *)
Definition _calculate_global_consciousness (self : t) : Stats.t :=
  let '(total_consciousness_re, total_consciousness_im, total_attention,
        total_phase) :=
    fold_left
      (fun '(re, im, att, ph) node =>
         let n := heap self node in
         let lambda_weight :=
           default 0 (index (lambdas self) (ConsciousnessNode.universe_id n)) in
         (re + ConsciousnessNode.consciousness_re n * lambda_weight,
          im + ConsciousnessNode.consciousness_im n * lambda_weight,
          att + ConsciousnessNode.attention n,
          ph + ConsciousnessNode.phase n))
      (nodes self) (0, 0, 0, 0) in
  let consciousness_magnitude :=
    sqrt (total_consciousness_re ^ 2 + total_consciousness_im ^ 2) in
  let len := INR (length (nodes self)) in
  let nonempty := bool_decide (nodes self <> []) in
  Stats.mk consciousness_magnitude
    (if nonempty then consciousness_magnitude / len else 0)
    (if nonempty then total_attention / len else 0)
    (if nonempty then Py.float_mod (total_phase / len * 180 / PI) 360 else 0)
    (Z.of_nat (length (nodes self)))
    (Z.of_nat (length (clusters self)))
    (time self).

(** [update(self, delta_time, mouse_influence=None)].  Neither argument is
    read: the time step comes from the wall clock and the pointer from
    [self.mouse_influence_queue]. *)
Definition update (delta_time : R) (mouse_influence : option MouseInfluence.t)
    (w : World.t) (self : t) : Stats.t * t * World.t :=
  let '(current_time, w) := World.time_time w in
  let actual_delta_time := Rmin 0.05 (current_time - last_update_time self) in
  let self := set_last_update_time current_time self in
  let self :=
    set_time (time self + actual_delta_time * getitem (params self) "time_dilation")
      self in
  let '(current_mouse_influence, self) :=
    match mouse_influence_queue self with
    | m :: queue => (Some m, set_mouse_influence_queue queue self)
    | [] => (None, self)
    end in
  let self :=
    set_heap
      (fold_left (fun h universe => Universe.update universe (time self) h)
         (universes self) (heap self))
      self in
  let '(self, w) :=
    _update_nodes_with_interactions actual_delta_time current_mouse_influence
      w self in
  let self := _update_clusters self in
  (_calculate_global_consciousness self, self, w).

(** [add_node(self, x, y)] *)
Definition add_node (x y : R) (w : World.t) (self : t)
    : option (loc * t * World.t) :=
  '(universe_id, w) ← World.randint 0 (universe_count self) w;
  let '(df, w) := World.uniform (-5) 5 w in
  let '(ph, w) := World.uniform 0 (2 * PI) w in
  lam ← index (lambdas self) universe_id;
  let node := ConsciousnessNode.new x y (40 + df) ph universe_id lam in
  let node := ConsciousnessNode.weigh node in
  let '(l, self) := alloc node self in
  let self := set_nodes (nodes self ++ [l]) self in
  self ← join_universe l universe_id self;
  let self := _normalize_attention_field self in
  Some (l, self, w).

(** [node in l]: some element is the same object or an equal one. *)
Definition contains (h : Heap) (l : list loc) (node : loc) : bool :=
  bool_decide (Exists (fun l' => l' = node \/ h l' = h node) l).

(** [l.remove(node)] *)
Definition remove (h : Heap) (l : list loc) (node : loc) : list loc :=
  remove_first (fun l' => bool_decide (l' = node \/ h l' = h node)) l.

(** [remove_node(self, node)].  ([self.universes[node.universe_id]] with a
    [universe_id] below [-len(self.universes)] would raise; ids are drawn
    from [0] upwards.) *)
Definition remove_node (node : loc) (self : t) : t :=
  let h := heap self in
  let self :=
    if contains h (nodes self) node
    then set_nodes (remove h (nodes self) node) self
    else self in
  let universe_id := ConsciousnessNode.universe_id (h node) in
  let self :=
    if decide (universe_id < Z.of_nat (length (universes self)))%Z then
      match position (length (universes self)) universe_id with
      | Some k =>
          set_universes
            (alter
               (fun universe =>
                  if contains h (Universe.nodes universe) node
                  then Universe.set_nodes
                         (remove h (Universe.nodes universe) node) universe
                  else universe)
               k (universes self))
            self
      | None => self
      end
    else self in
  _normalize_attention_field self.

(** The body of the loop of [quantum_collapse]. *)
Definition collapse_node (x y : R) (node : Node) : Node :=
  let dx := ConsciousnessNode.x node - x in
  let dy := ConsciousnessNode.y node - y in
  let distance := sqrt (dx ^ 2 + dy ^ 2) in
  if decide (distance < 200) then
    let node := ConsciousnessNode.set_consciousness_re 0 node in
    let node := ConsciousnessNode.set_consciousness_im 0 node in
    let node :=
      ConsciousnessNode.set_phase (ConsciousnessNode.phase node + PI) node in
    let node :=
      ConsciousnessNode.set_phase
        (Py.float_mod (ConsciousnessNode.phase node) (2 * PI)) node in
    if decide (distance > 0) then
      let angle := Py.arctan2 dy dx in
      let push_force := (200 - distance) / 200 * 5 in
      let node :=
        ConsciousnessNode.set_vx
          (ConsciousnessNode.vx node + cos angle * push_force) node in
      ConsciousnessNode.set_vy
        (ConsciousnessNode.vy node + sin angle * push_force) node
    else node
  else node.

(** [quantum_collapse(self, x, y)] *)
Definition quantum_collapse (x y : R) (self : t) : t :=
  set_heap
    (fold_left (fun h node => heap_upd (collapse_node x y) node h)
       (nodes self) (heap self))
    self.

(** [set_mode(self, mode)] *)
Definition set_mode (mode : UniverseMode) (self : t) : t :=
  set_current_mode (Some mode) self.

(** [get_state_for_transmission(self)]; [getattr(self, 'current_mode',
    UniverseMode.CONSCIOUSNESS)] reads the attribute that only [set_mode]
    creates. *)
Definition get_state_for_transmission (self : t) : State.t :=
  State.mk
    (map (fun node => ConsciousnessNode.to_dict (heap self node)) (nodes self))
    (map Universe.to_dict (universes self))
    (clusters self)
    (_calculate_global_consciousness self)
    (UniverseMode_value (default CONSCIOUSNESS (current_mode self)))
    (params self)
    (lambdas self)
    (time self).

(** [update_params(self, new_params)]: [dict.update], every key of
    [new_params] overrides or extends [self.params]. *)
Definition update_params (new_params : Params) (self : t) : t :=
  set_params (new_params ∪ params self) self.

End ConsciousnessLattice.

(** ** The REST handlers of [server.py] that pass a request on to the
    lattice *)

Module Server.

(** What a handler answers: the body it returns, or the [HTTPException]
    it raises. *)
Inductive Reply (A : Type) : Type :=
  | Body (body : A)
  | HTTPException (status_code : Z) (detail : string).

Arguments Body {A} body.
Arguments HTTPException {A} status_code detail.

(** [POST /api/mode/{mode}]: the body is
    [{"status": "updated", "mode": mode}]. *)
Definition set_mode (mode : string) (lattice : ConsciousnessLattice.t)
    : Reply (string * string) * ConsciousnessLattice.t :=
  match UniverseMode_call mode with
  | Some m =>
      let lattice := ConsciousnessLattice.set_mode m lattice in
      (Body ("updated"%string, mode), lattice)
  | None => (HTTPException 400 ("Invalid mode: " ++ mode), lattice)
  end.

(** [POST /api/nodes]: the body is
    [{"status": "created", "node": new_node.to_dict()}]; an exception of
    [add_node] is not caught ([None]). *)
Definition create_node (x y : R) (w : World.t)
    (lattice : ConsciousnessLattice.t)
    : option (string * NodeDict.t * ConsciousnessLattice.t * World.t) :=
  '(new_node, lattice, w) ← ConsciousnessLattice.add_node x y w lattice;
  Some ("created"%string,
        ConsciousnessNode.to_dict (ConsciousnessLattice.heap lattice new_node),
        lattice, w).

(** [GET /api/export] *)
Definition export_state (lattice : ConsciousnessLattice.t) : State.t :=
  ConsciousnessLattice.get_state_for_transmission lattice.

End Server.

(** ** The variant of [lattice_demo.py]

    The dataclasses and the methods are those of [lattice.py] with [math]
    and [random] in place of NumPy, but for these differences:
    - [_apply_physics] leaves the velocity of a tunnelling node as it is;
    - [_update_nodes_with_interactions] has a single loop, which computes
      the repulsion on a node, applies it and updates the node before it
      turns to the next one;
    - [add_node] does not call [_normalize_attention_field];
    - [update] hands its [mouse_influence] argument to the nodes, there
      is no [mouse_influence_queue];
    - [_update_clusters] has no iteration cap and divides by
      [max(freq_a, freq_b)] without a floor;
    - [_sample_dirichlet] draws [random() ** (1 / a)];
    - there is no [remove_node].
    These methods are embedded below, on the records of [lattice.py]; the
    others ([_initialize_universes], [_initialize_nodes],
    [_normalize_attention_field], [_calculate_global_consciousness],
    [quantum_collapse], [set_mode], [update_params]) are the same. *)

Module Demo.

Module Node.

Import ConsciousnessNode.

Section Methods.

Variable params : Params.

(** The x-axis boundary test of the demo: tunnelling keeps the velocity,
    the clamp is written [max(-b, min(b, x))]. *)
Definition bound_x (w : World.t) (n : t) : t * World.t :=
  if decide (x n < - world_bounds_x / 2 \/ x n > world_bounds_x / 2) then
    let '(r, w) := World.random w in
    if decide (r < 0.05) then
      (set_x (if decide (x n < - world_bounds_x / 2)
              then world_bounds_x / 2 else - world_bounds_x / 2) n, w)
    else
      let n := set_vx (vx n * (-0.8 * get params "elasticity" 0.8)) n in
      (set_x (Rmax (- world_bounds_x / 2) (Rmin (world_bounds_x / 2) (x n))) n,
       w)
  else (n, w).

Definition bound_y (w : World.t) (n : t) : t * World.t :=
  if decide (y n < - world_bounds_y / 2 \/ y n > world_bounds_y / 2) then
    let '(r, w) := World.random w in
    if decide (r < 0.05) then
      (set_y (if decide (y n < - world_bounds_y / 2)
              then world_bounds_y / 2 else - world_bounds_y / 2) n, w)
    else
      let n := set_vy (vy n * (-0.8 * get params "elasticity" 0.8)) n in
      (set_y (Rmax (- world_bounds_y / 2) (Rmin (world_bounds_y / 2) (y n))) n,
       w)
  else (n, w).

(** [_apply_physics(self, delta_time, params)] of the demo *)
Definition _apply_physics (delta_time : R) (w : World.t) (n : t)
    : t * World.t :=
  let n := integrate params delta_time n in
  let '(n, w) := bound_x w n in
  bound_y w n.

(** [update(self, delta_time, params, mouse_influence=None)] of the demo *)
Definition update (delta_time : R) (mouse_influence : option MouseInfluence.t)
    (w : World.t) (n : t) : t * World.t :=
  let delta_time := delta_time * get params "time_dilation" 1 in
  let n := oscillate delta_time n in
  let '(n, w) :=
    match mouse_influence with
    | Some m =>
        if MouseInfluence.truthy m
        then _apply_mouse_interaction params m delta_time w n
        else (n, w)
    | None => (n, w)
    end in
  let '(n, w) := _apply_physics delta_time w n in
  let n := _update_intelligence_tensors params delta_time n in
  (resize n, w).

End Methods.

End Node.

Module Lattice.

Import ConsciousnessLattice.

(** The body of the single loop of the demo's
    [_update_nodes_with_interactions]: the repulsion on the [i]-th node is
    computed from the store as the earlier iterations left it, added to the
    velocity, and the node updates itself at once. *)
Definition step_node (params : Params) (delta_time : R)
    (mouse_influence : option MouseInfluence.t) (nodes : list loc)
    (s : list (R * R) * Heap * World.t) (i : nat) (node : loc)
    : list (R * R) * Heap * World.t :=
  let '(trace, h, w) := s in
  let repulsion := repulsion_on params delta_time h nodes i node in
  let n := h node in
  let n :=
    ConsciousnessNode.set_vx
      (ConsciousnessNode.vx n + fst repulsion) n in
  let n :=
    ConsciousnessNode.set_vy
      (ConsciousnessNode.vy n + snd repulsion) n in
  let '(n, w) := Node.update params delta_time mouse_influence w n in
  (trace ++ [repulsion], heap_set h node n, w).

(** The loop, keeping the successive values of
    [(repulsion_x, repulsion_y)] as a trace. *)
Definition interactions (delta_time : R)
    (mouse_influence : option MouseInfluence.t) (w : World.t) (self : t)
    : list (R * R) * Heap * World.t :=
  fold_left
    (fun s '(i, node) =>
       step_node (params self) delta_time mouse_influence (nodes self) s i node)
    (enumerate (nodes self)) ([], heap self, w).

(** [_update_nodes_with_interactions(self, delta_time, mouse_influence)]
    of the demo *)
Definition _update_nodes_with_interactions (delta_time : R)
    (mouse_influence : option MouseInfluence.t) (w : World.t) (self : t)
    : t * World.t :=
  let '(_, h, w) := interactions delta_time mouse_influence w self in
  (set_heap h self, w).

(** [add_node(self, x, y)] of the demo: the new node keeps its raw density,
    no normalisation pass follows. *)
Definition add_node (x y : R) (w : World.t) (self : t)
    : option (loc * t * World.t) :=
  '(universe_id, w) ← World.randint 0 (universe_count self) w;
  let '(df, w) := World.uniform (-5) 5 w in
  let '(ph, w) := World.uniform 0 (2 * PI) w in
  lam ← index (lambdas self) universe_id;
  let node :=
    ConsciousnessNode.new x y (40 + df) ph universe_id lam in
  let node := ConsciousnessNode.weigh node in
  let '(l, self) := alloc node self in
  let self := set_nodes (nodes self ++ [l]) self in
  self ← join_universe l universe_id self;
  Some (l, self, w).

(** The test in the innermost loop of the demo's [_update_clusters]:
    [min(freq_a, freq_b) / max(freq_a, freq_b)] has no floor, so it raises
    [ZeroDivisionError] ([None]) when the larger frequency is zero. *)
Definition linked (current_node candidate : Node) : option bool :=
  let dx := ConsciousnessNode.x candidate - ConsciousnessNode.x current_node in
  let dy := ConsciousnessNode.y candidate - ConsciousnessNode.y current_node in
  let distance := sqrt (dx ^ 2 + dy ^ 2) in
  if decide (distance < 80) then
    let phase_diff :=
      Rabs (sin (ConsciousnessNode.phase current_node
                 - ConsciousnessNode.phase candidate)) in
    let phase_compatible := bool_decide (phase_diff < 0.5) in
    let largest :=
      Rmax (ConsciousnessNode.frequency current_node)
           (ConsciousnessNode.frequency candidate) in
    if decide (largest = 0) then None else
    let freq_ratio :=
      Rmin (ConsciousnessNode.frequency current_node)
           (ConsciousnessNode.frequency candidate) / largest in
    let freq_compatible := bool_decide (freq_ratio > 0.7) in
    Some (phase_compatible && freq_compatible)
  else Some false.

(** The body of the [for j, candidate] loop. *)
Definition visit (h : Heap) (current_node : Node) (s : Traversal)
    (jc : nat * loc) : option Traversal :=
  let '(cluster_nodes, queue, processed) := s in
  let '(j, candidate) := jc in
  if decide (j ∈ processed) then Some s else
  (b ← linked current_node (h candidate);
   Some (if b : bool
         then (cluster_nodes ++ [candidate], queue ++ [j], {[j]} ∪ processed)
         else s)).

(** The [for j, candidate] loop run for one dequeued node. *)
Definition scan (h : Heap) (nodes : list loc) (current_node : Node)
    (s : Traversal) : option Traversal :=
  for_each (enumerate nodes) (visit h current_node) s.

(** [while queue:].  The loop has no cap of its own; [fuel] bounds the
    iterations of the model and [None] says that it ran out, which
    [demo_traverse_finishes] excludes for the fuel that [grow] gives.
    [Some None] is [ZeroDivisionError]. *)
Fixpoint traverse (fuel : nat) (h : Heap) (nodes : list loc) (s : Traversal)
    : option (option Traversal) :=
  match fuel with
  | O => None
  | S fuel =>
      let '(cluster_nodes, queue, processed) := s in
      match queue with
      | [] => Some (Some s)
      | current_idx :: queue =>
          let current_node := h (nodes !!! current_idx) in
          match scan h nodes current_node (cluster_nodes, queue, processed) with
          | Some s => traverse fuel h nodes s
          | None => Some None
          end
      end
  end.

(** The body of the [for i, node] loop. *)
Definition grow (nodes : list loc) (s : Heap * list Cluster.t * gset nat)
    (inode : nat * loc) : option (Heap * list Cluster.t * gset nat) :=
  let '(h, clusters, processed) := s in
  let '(i, node) := inode in
  if decide (i ∈ processed) then Some s else
  ('(cluster_nodes, _, processed) ←
     mjoin (traverse (length nodes + 2) h nodes ([node], [i], {[i]} ∪ processed));
   if decide (3 <= length cluster_nodes)%nat then
     let cluster_id := Z.of_nat (length clusters) in
     let cluster :=
       Cluster.mk cluster_id cluster_nodes
         (sum (map (fun n => ConsciousnessNode.x (h n)) cluster_nodes)
          / INR (length cluster_nodes))
         (sum (map (fun n => ConsciousnessNode.y (h n)) cluster_nodes)
          / INR (length cluster_nodes))
         0 0 in
     let h :=
       fold_left
         (fun h node =>
            heap_upd (ConsciousnessNode.set_cluster_id cluster_id) node h)
         cluster_nodes h in
     Some (h, clusters ++ [cluster], processed)
   else Some (h, clusters, processed)).

(** The [for i, node] loop, from no cluster and nothing processed. *)
Definition detect (nodes : list loc) (h : Heap)
    : option (Heap * list Cluster.t * gset nat) :=
  for_each (enumerate nodes) (grow nodes) (h, [], ∅).

(** [_update_clusters(self)] of the demo *)
Definition _update_clusters (self : t) : option t :=
  let h := reset (nodes self) (heap self) in
  '(h, clusters, _) ← detect (nodes self) h;
  Some (set_clusters clusters (set_heap h self)).

(** [_sample_dirichlet(self, alpha)] of the demo: a sample is
    [random.random() ** (1.0 / a)]. *)
Definition _sample_dirichlet (alpha : list R) (w : World.t)
    : option (list R * World.t) :=
  '(samples, w) ←
    for_each alpha
      (fun '(samples, w) a =>
         if decide (a = 0) then None else
         let '(u, w) := World.random w in
         Some (samples ++ [Py.float_pow u (1 / a)], w))
      ([], w);
  let total := sum samples in
  if bool_decide (samples <> [] /\ total = 0) then None
  else Some (map (fun s => s / total) samples, w).

(** [__init__(self, grid_size=128, universe_count=3)] of the demo; the
    record field [mouse_influence_queue], which the demo does not have,
    stays empty. *)
Definition __init__ (grid_size universe_count : Z) (w : World.t)
    : option (t * World.t) :=
  '(lambdas, w) ← _sample_dirichlet (replicate (Z.to_nat universe_count) 1) w;
  let self :=
    mk grid_size universe_count 0 [] [] [] [] lambdas default_params 0 None
      empty_heap 0%nat in
  '(self, w) ← _initialize_universes self w;
  '(self, w) ← _initialize_nodes self w;
  let self := _normalize_attention_field self in
  let '(now, w) := World.time_time w in
  Some (set_last_update_time now self, w).

(** [update(self, delta_time, mouse_influence=None)] of the demo: the
    pointer reaches the nodes. *)
Definition update (delta_time : R) (mouse_influence : option MouseInfluence.t)
    (w : World.t) (self : t) : option (Stats.t * t * World.t) :=
  let '(current_time, w) := World.time_time w in
  let actual_delta_time := Rmin 0.05 (current_time - last_update_time self) in
  let self := set_last_update_time current_time self in
  let self :=
    set_time (time self + actual_delta_time * getitem (params self) "time_dilation")
      self in
  let self :=
    set_heap
      (fold_left (fun h universe => Universe.update universe (time self) h)
         (universes self) (heap self))
      self in
  let '(self, w) :=
    _update_nodes_with_interactions actual_delta_time mouse_influence w self in
  self ← _update_clusters self;
  Some (_calculate_global_consciousness self, self, w).

End Lattice.

End Demo.

(** * Vocabulary of the properties *)

Import ConsciousnessNode.
Import ConsciousnessLattice.

(** The sum of attention over the entity collection. *)
Definition total_attention (self : ConsciousnessLattice.t) : R :=
  sum (map (fun l => attention (heap self l)) (nodes self)).

(** The invariant of the store: every location of the collection is
    allocated, none is listed twice. *)
Definition wf (self : ConsciousnessLattice.t) : Prop :=
  NoDup (nodes self)
  /\ forall l, In l (nodes self) -> (l < next_loc self)%nat.

(** One weight and one universe per universe id. *)
Definition sized (self : ConsciousnessLattice.t) : Prop :=
  length (lambdas self) = Z.to_nat (universe_count self)
  /\ length (universes self) = Z.to_nat (universe_count self).

(** What [_initialize_universes] leaves: as many universes as it ran
    iterations, the rest of the instance untouched. *)
Definition universes_built (self0 : ConsciousnessLattice.t) (k : nat)
    (sw : ConsciousnessLattice.t * World.t) : Prop :=
  length (universes sw.1) = k
  /\ nodes sw.1 = nodes self0 /\ next_loc sw.1 = next_loc self0
  /\ lambdas sw.1 = lambdas self0
  /\ universe_count sw.1 = universe_count self0
  /\ grid_size sw.1 = grid_size self0
  /\ params sw.1 = params self0.

(** What [_initialize_nodes] leaves after [k] iterations. *)
Definition nodes_built (self0 : ConsciousnessLattice.t) (k : nat)
    (sw : ConsciousnessLattice.t * World.t) : Prop :=
  nodes sw.1 = seq (next_loc self0) k
  /\ next_loc sw.1 = (next_loc self0 + k)%nat
  /\ lambdas sw.1 = lambdas self0
  /\ universe_count sw.1 = universe_count self0
  /\ length (universes sw.1) = length (universes self0)
  /\ params sw.1 = params self0.

(** The number of indices below [n] that a traversal has not processed. *)
Definition pending (n : nat) (processed : gset nat) : nat :=
  size (set_seq 0 n ∖ processed : gset nat).

(** What a scan keeps: the members are nodes of the collection, and as
    many indices leave [pending] as join the queue. *)
Definition scanned (ns : list loc) (total : nat) (s : Traversal) : Prop :=
  Forall (fun l => In l ns) s.1.1
  /\ (pending (length ns) s.2 + length s.1.2 = total)%nat.

(** The five keys that the engine reads. *)
Definition recognized : gset string :=
  {[ "gravity"%string; "friction"%string; "elasticity"%string;
     "time_dilation"%string; "field_strength"%string ]}.

(** What one pass of [Universe.update] does to a node of its list. *)
Definition tuned (u : Universe.t) (time_factor : R) (n : Node) : Node :=
  if Universe._contains_node u n then Universe.modulate u time_factor n else n.

(** What [other_node] contributes to the repulsion on [node]. *)
Definition kick (params : Params) (delta_time : R) (node other_node : Node)
    : R * R :=
  repel params delta_time node other_node (0, 0).

(** The nodes of the collection other than [node]. *)
Definition others (nodes : list loc) (node : loc) : list loc :=
  filter (fun l => l <> node) nodes.

(** A parameter update with a key that the engine does not know. *)
Definition warp_params : Params := {[ "warp"%string := 7 ]}.

(** An active pointer at [(px, py)]. *)
Definition pointer_on (px py : R) (mode : string) : MouseInfluence.t :=
  MouseInfluence.mk (Some px) (Some py) (Some mode) (Some true).

(** Inside the world: both coordinates within the bounds of
    [_apply_physics]. *)
Definition in_world (n : Node) : Prop :=
  -500 <= x n <= 500 /\ -500 <= y n <= 500.

(** The four interaction modes that [_apply_mouse_interaction] knows. *)
Definition pointer_modes : list string :=
  ["push"; "pull"; "vortex"; "wave"]%string.

(** The velocity that the pointer adds to a node. *)
Definition pointer_push (params : Params) (m : MouseInfluence.t) (dt : R)
    (w : World.t) (n : Node) : R * R :=
  let n' := (_apply_mouse_interaction params m dt w n).1 in
  (vx n' - vx n, vy n' - vy n).

(** What no frame ever writes in a node: the fields that neither
    [ConsciousnessNode.update], nor [Universe.update], nor
    [_update_clusters] assigns. *)
Definition permanent (n : Node)
    : R * R * R * Z * R * R * (R * R) * (R * R) * (R * R) * R * R * Z :=
  (base_radius n, base_frequency n, attention n, universe_id n,
   resonance_coeff n, mass n, logic_tensor n, creativity_tensor n,
   social_tensor n, adaptive_capacity n, collective_intelligence n,
   recursion_level n).

(** The structure that the constructor builds and that every method keeps:
    the store is well formed, there is one weight and one universe per
    universe id, every node carries the id and the weight of an existing
    universe, and the list of the [k]-th universe holds exactly the nodes
    of the collection whose [universe_id] is [k], in the order of the
    collection. *)
Definition consistent (self : ConsciousnessLattice.t) : Prop :=
  wf self /\ sized self
  /\ (forall l, In l (nodes self) ->
        (0 <= universe_id (heap self l) < universe_count self)%Z
        /\ index (lambdas self) (universe_id (heap self l))
           = Some (resonance_coeff (heap self l)))
  /\ (forall k u, universes self !! k = Some u ->
        Universe.id u = Z.of_nat k
        /\ lambdas self !! k = Some (Universe.resonance_coeff u)
        /\ Universe.nodes u
           = filter (fun l => universe_id (heap self l) = Z.of_nat k)
               (nodes self)).

(** The configuration holds the five keys that the constructor installs,
    so that [self.params[key]] does not raise [KeyError]. *)
Definition configured (params : Params) : Prop := recognized ⊆ dom params.

(** A cluster as [_update_clusters] records it for the lattice [self]: at
    least three members, all of them nodes of the collection, the centre
    at the mean of their positions, the two scores at zero. *)
Definition cluster_ok (self : ConsciousnessLattice.t) (c : Cluster.t) : Prop :=
  (3 <= length (Cluster.nodes c))%nat
  /\ Forall (fun l => In l (nodes self)) (Cluster.nodes c)
  /\ Cluster.center_x c
     = sum (map (fun l => x (heap self l)) (Cluster.nodes c))
       / INR (length (Cluster.nodes c))
  /\ Cluster.center_y c
     = sum (map (fun l => y (heap self l)) (Cluster.nodes c))
       / INR (length (Cluster.nodes c))
  /\ Cluster.recursion_depth c = 0%Z /\ Cluster.complexity_score c = 0%Z.



(** Every draw still to come is one of [random()]: it lies in [[0, 1)]. *)
Definition unit_draws (w : World.t) : Prop :=
  forall k, (World.drawn w <= k)%nat -> 0 <= World.floats w k < 1.

(** Both components of a tensor drawn with [random()] lie in [[0, 1)]. *)
Definition unit_pair (t : R * R) : Prop := 0 <= t.1 < 1 /\ 0 <= t.2 < 1.

(** A node as [_initialize_nodes] leaves it. *)
Definition newborn (n : Node) : Prop :=
  (-500 <= x n <= 500 /\ -500 <= y n <= 500)
  /\ (vx n = 0 /\ vy n = 0)
  /\ (radius n = 3 /\ base_radius n = 3)
  /\ (35 <= frequency n <= 45 /\ base_frequency n = 40)
  /\ 0 <= phase n <= 2 * PI
  /\ cluster_id n = (-1)%Z
  /\ (consciousness_re n = 0 /\ consciousness_im n = 0)
  /\ unit_pair (logic_tensor n) /\ unit_pair (memory_tensor n)
  /\ unit_pair (processing_tensor n) /\ unit_pair (creativity_tensor n)
  /\ unit_pair (social_tensor n).

(** A universe as [_initialize_universes] leaves it. *)
Definition universe_drawn (u : Universe.t) : Prop :=
  -400 <= Universe.center_x u <= 400 /\ -400 <= Universe.center_y u <= 400
  /\ 150 <= Universe.radius u <= 250.

(** ** Sample states *)

(** A world whose draws are all [0.5] and whose clock stands still. *)
Definition still_world : World.t :=
  World.mk (fun _ => 0.5) (fun _ => 0%Z) (fun _ => 0) 0 0.

(** A world whose draws are all [0.01]: every boundary test tunnels. *)
Definition tunnelling_world : World.t :=
  World.mk (fun _ => 0.01) (fun _ => 0%Z) (fun _ => 0) 0 0.

(** [ConsciousnessLattice(grid_size=0, universe_count=0)] *)
Definition fresh_lattice : ConsciousnessLattice.t :=
  ConsciousnessLattice.mk 0 0 0 [] [] [] [] [] default_params 0 None
    empty_heap 0%nat.

(** The lattice that [ConsciousnessLattice(grid_size=1, universe_count=1)]
    builds when the draws put its node at the origin: the node carries the
    whole attention. *)
Definition lone_node : Node :=
  set_attention 1 (ConsciousnessNode.new 0 0 40 0 0 1).

Definition lone_lattice : ConsciousnessLattice.t :=
  ConsciousnessLattice.mk 1 1 0 [0%nat] [Universe.mk 0 0 0 200 1 [0%nat]]
    [] [] [1] default_params 0 None (heap_set empty_heap 0%nat lone_node) 1%nat.

(** A lattice of one node and two universes: the node was created in
    universe 1 but sits at the centre of universe 0. *)
Definition stray_node : Node :=
  set_attention 1 (ConsciousnessNode.new 0 0 43 0 1 0.5).

Definition two_universes : ConsciousnessLattice.t :=
  ConsciousnessLattice.mk 1 2 0 [0%nat]
    [Universe.mk 0 0 0 200 0.5 []; Universe.mk 1 400 0 150 0.5 [0%nat]]
    [] [] [0.5; 0.5] default_params 0 None
    (heap_set empty_heap 0%nat stray_node) 1%nat.

(** A lone node one unit inside the right-hand boundary, moving outwards. *)
Definition runaway_node : Node :=
  set_vx 2 (set_attention 1 (ConsciousnessNode.new 499 0 40 0 0 1)).

(** Two nodes as the constructor leaves them, ten units apart and as far
    from the origin as each other, so that each has half of the attention. *)
Definition west : Node :=
  set_attention 0.5 (ConsciousnessNode.new (-5) 0 40 0 0 1).

Definition east : Node :=
  set_attention 0.5 (ConsciousnessNode.new 5 0 40 0 0 1).

Definition pair_heap : Heap :=
  heap_set (heap_set empty_heap 0%nat west) 1%nat east.

(** The lattice of these two nodes, listed in the given order. *)
Definition pair_lattice (order : list loc) : ConsciousnessLattice.t :=
  ConsciousnessLattice.mk 2 1 0 order [Universe.mk 0 0 0 200 1 [0%nat; 1%nat]]
    [] [] [1] default_params 0 None pair_heap 2%nat.

(** ** Tactics *)

(** Case analysis on every test of a node method. *)

Ltac node_cases :=
  repeat first
    [ progress cbn
    | case_decide
    | match goal with
      | |- context [if ?b then _ else _] => destruct b eqn:?
      | |- context [match ?o with Some _ => _ | None => _ end] => destruct o eqn:?
      end ];
  try reflexivity.

(** Replaces the first square root of the goal by its value [v]. *)

Ltac sqrt_is v :=
  match goal with
  | |- context [sqrt ?e] =>
      replace (sqrt e) with v by (symmetry; apply sqrt_lem_1; lra)
  end.

(** * Properties *)

(** ** Numerics *)

Lemma two_PI_pos : 0 < 2 * PI.
Proof. pose proof PI_RGT_0. lra. Qed.

Lemma arctan2_origin : Py.arctan2 0 0 = 0.
Proof. unfold Py.arctan2. repeat case_decide; lra. Qed.

Lemma arctan2_east d : 0 < d -> Py.arctan2 0 d = 0.
Proof.
  intros Hd. unfold Py.arctan2. rewrite decide_True by done.
  replace (0 / d) with 0 by (field; lra). apply atan_0.
Qed.

Lemma arctan2_west d : d < 0 -> Py.arctan2 0 d = PI.
Proof.
  intros Hd. unfold Py.arctan2. rewrite decide_False by lra.
  rewrite decide_True by done. rewrite decide_True by lra.
  replace (0 / d) with 0 by (field; lra). rewrite atan_0. lra.
Qed.

Lemma fold_plus_acc (l : list R) (acc : R) :
  fold_left Rplus l acc = acc + sum l.
Proof.
  unfold sum. revert acc. induction l as [|a l IH]; intros acc; cbn; [lra|].
  rewrite IH, (IH (0 + a)). lra.
Qed.

Lemma sum_cons (a : R) (l : list R) : sum (a :: l) = a + sum l.
Proof. unfold sum at 1. cbn. rewrite fold_plus_acc. lra. Qed.

Lemma sum_app (l1 l2 : list R) : sum (l1 ++ l2) = sum l1 + sum l2.
Proof.
  induction l1 as [|a l1 IH]; cbn [app].
  - unfold sum at 2. cbn. lra.
  - rewrite !sum_cons, IH. lra.
Qed.

Lemma sum_map_div {A : Type} (d : A -> R) (t : R) (l : list A) :
  sum (map (fun a => d a / t) l) = sum (map d l) / t.
Proof.
  induction l as [|a l IH]; cbn [map].
  - unfold sum. cbn. lra.
  - rewrite !sum_cons, IH. lra.
Qed.

Lemma sum_map_pos {A : Type} (d : A -> R) (l : list A) :
  (forall a, 0 < d a) -> l <> [] -> 0 < sum (map d l).
Proof.
  intros Hd. induction l as [|a l IH]; [done|]. intros _.
  cbn [map]. rewrite sum_cons. specialize (Hd a).
  destruct l as [|b l]; [unfold sum; cbn; lra|].
  assert (0 < sum (map d (b :: l))) by (by apply IH). lra.
Qed.

Lemma sum_Permutation (l1 l2 : list R) : l1 ≡ₚ l2 -> sum l1 = sum l2.
Proof.
  induction 1 as [|a l1 l2 _ IH|a b l|l1 l2 l3 _ IH1 _ IH2].
  - done.
  - by rewrite !sum_cons, IH.
  - rewrite !sum_cons. lra.
  - by rewrite IH1.
Qed.

(** ** The default parameters *)

Lemma default_field_strength : get default_params "field_strength" 1 = 1.
Proof. reflexivity. Qed.
Lemma default_gravity : default_params !! "gravity"%string = Some 1.
Proof. reflexivity. Qed.
Lemma default_friction : get default_params "friction" 0.99 = 0.99.
Proof. reflexivity. Qed.
Lemma default_elasticity : default_params !! "elasticity"%string = Some 0.8.
Proof. reflexivity. Qed.
Lemma default_time_dilation : get default_params "time_dilation" 1 = 1.
Proof. reflexivity. Qed.

Lemma default_elasticity_item : getitem default_params "elasticity" = 0.8.
Proof. reflexivity. Qed.

(** ** Loops and the store *)

Lemma fold_left_ind {A B : Type} (P : B -> Prop) (f : B -> A -> B)
    (l : list A) (b : B) :
  P b -> (forall b a, P b -> P (f b a)) -> P (fold_left f l b).
Proof.
  intros Hb Hf. revert b Hb.
  induction l as [|a l IH]; intros b Hb; cbn; [done|]. apply IH, Hf, Hb.
Qed.

Lemma fold_left_ind_in {A B : Type} (P : B -> Prop) (f : B -> A -> B)
    (l : list A) (b : B) :
  P b -> (forall b a, In a l -> P b -> P (f b a)) -> P (fold_left f l b).
Proof.
  revert b. induction l as [|a l IH]; intros b Hb Hf; cbn; [done|].
  apply IH; [apply Hf; [by left|done]|].
  intros b' a' Hin. apply Hf. by right.
Qed.

Lemma iter_idem {A : Type} (f : A -> A) k a :
  (forall a, f (f a) = f a) -> Nat.iter (S k) f a = f a.
Proof.
  intros Hf. induction k as [|k IH]; [done|].
  rewrite Nat.iter_succ, IH. apply Hf.
Qed.

Lemma heap_set_eq (h : Heap) l n : heap_set h l n l = n.
Proof. unfold heap_set. by rewrite decide_True. Qed.

Lemma heap_set_ne (h : Heap) l l' n : l' <> l -> heap_set h l n l' = h l'.
Proof. intros. unfold heap_set. by rewrite decide_False. Qed.

(** Storing a node that agrees with the old one on a field keeps the
    field everywhere. *)
Lemma heap_set_field {A : Type} (field : Node -> A) (h0 h : Heap) l n :
  (forall l', field (h l') = field (h0 l')) ->
  field n = field (h l) ->
  forall l', field (heap_set h l n l') = field (h0 l').
Proof.
  intros Hh Hn l'. unfold heap_set. case_decide; subst; [|done].
  by rewrite Hn.
Qed.

Lemma heap_upd_field {A : Type} (field : Node -> A) (f : Node -> Node)
    (h0 h : Heap) l :
  (forall l', field (h l') = field (h0 l')) ->
  (forall n, field (f n) = field n) ->
  forall l', field (heap_upd f l h l') = field (h0 l').
Proof. intros Hh Hf. apply heap_set_field; [done|apply Hf]. Qed.

Lemma fold_upd_field {A : Type} (field : Node -> A) (f : Node -> Node) ls h :
  (forall n, field (f n) = field n) ->
  forall l, field (fold_left (fun h node => heap_upd f node h) ls h l) = field (h l).
Proof.
  intros Hf.
  apply (fold_left_ind (fun h' => forall l, field (h' l) = field (h l))); [done|].
  intros h' node IH. by apply heap_upd_field.
Qed.

(** The fold of an in-place mutation applies it as many times as the
    location occurs. *)
Lemma fold_upd_iter (f : Node -> Node) ls h l :
  fold_left (fun h node => heap_upd f node h) ls h l
  = Nat.iter (count_occ Nat.eq_dec ls l) f (h l).
Proof.
  revert h. induction ls as [|a ls IH]; intros h; [done|].
  change (fold_left _ (a :: ls) h) with
    (fold_left (fun h node => heap_upd f node h) ls (heap_upd f a h)).
  rewrite IH. unfold heap_upd, heap_set. cbn [count_occ].
  destruct (Nat.eq_dec a l) as [->|Hne].
  - rewrite decide_True by done. by rewrite Nat.iter_succ_r.
  - rewrite decide_False by done. done.
Qed.

Lemma NoDup_count (ls : list loc) l :
  List.NoDup ls -> In l ls -> count_occ Nat.eq_dec ls l = 1%nat.
Proof.
  intros Hnd Hin. apply (proj1 (NoDup_count_occ' Nat.eq_dec ls)); done.
Qed.

Lemma enumerate_from_lookup {A : Type} (k : nat) (l : list A) (i : nat) :
  enumerate_from k l !! i = (fun a => ((k + i)%nat, a)) <$> l !! i.
Proof.
  revert k i. induction l as [|a l IH]; intros k [|i]; cbn; try done.
  - by rewrite Nat.add_0_r.
  - rewrite IH. by replace (S k + i)%nat with (k + S i)%nat by lia.
Qed.

Lemma enumerate_from_elem {A : Type} (k : nat) (l : list A) (j : nat) (a : A) :
  In (j, a) (enumerate_from k l) -> (k <= j)%nat /\ l !! (j - k)%nat = Some a.
Proof.
  revert k. induction l as [|b l IH]; intros k; cbn; [done|].
  intros [[= <- <-]|Hin].
  - by rewrite Nat.sub_diag.
  - apply IH in Hin as [Hle Hl]. split; [lia|].
    by replace (j - k)%nat with (S (j - S k)) by lia.
Qed.

Lemma enumerate_elem {A : Type} (l : list A) (j : nat) (a : A) :
  In (j, a) (enumerate l) -> In a l.
Proof.
  intros [_ Hl]%enumerate_from_elem. apply list_elem_of_In.
  by eapply list_elem_of_lookup_2.
Qed.

Lemma for_each_inv {A St : Type} (P : nat -> St -> Prop) (l : list A)
    (body : St -> A -> option St) (s s' : St) :
  P 0%nat s ->
  (forall k s a s', In a l -> P k s -> body s a = Some s' -> P (S k) s') ->
  for_each l body s = Some s' -> P (length l) s'.
Proof.
  intros H0 Hstep.
  enough (forall k s, P k s -> for_each l body s = Some s' ->
                      P (k + length l)%nat s') as H by (exact (H 0%nat s H0)).
  clear s H0. induction l as [|a l IH]; intros k s Hk; cbn.
  - intros [= <-]. by rewrite Nat.add_0_r.
  - destruct (body s a) as [s1|] eqn:Hb; [|done]. cbn. intros Hr.
    replace (k + S (length l))%nat with (S k + length l)%nat by lia.
    apply (IH (fun k s a s' Hin => Hstep k s a s' (or_intror Hin)) (S k) s1); [|done].
    eapply Hstep; [by left|done..].
Qed.

Lemma for_each_returns {A St : Type} (P : St -> Prop) (l : list A)
    (body : St -> A -> option St) (s : St) :
  P s ->
  (forall s a, In a l -> P s -> exists s', body s a = Some s' /\ P s') ->
  is_Some (for_each l body s).
Proof.
  revert s. induction l as [|a l IH]; intros s Hs Hstep; cbn; [eauto|].
  destruct (Hstep s a (or_introl eq_refl) Hs) as (s1 & -> & Hs1). cbn.
  apply IH; [done|]. intros s2 b Hin. apply Hstep. by right.
Qed.

Lemma position_in_range len i :
  (0 <= i < Z.of_nat len)%Z -> position len i = Some (Z.to_nat i).
Proof. intros H. unfold position. by rewrite decide_True. Qed.

Lemma index_in_range {A : Type} (l : list A) i :
  (0 <= i < Z.of_nat (length l))%Z -> is_Some (index l i).
Proof.
  intros H. unfold index. rewrite position_in_range by done. cbn.
  apply lookup_lt_is_Some. lia.
Qed.

Lemma randint_range lo hi w v w' :
  World.randint lo hi w = Some (v, w') -> (lo <= v < hi)%Z.
Proof.
  unfold World.randint. case_decide; [|done]. intros [= <- _].
  pose proof (Z.mod_pos_bound (World.ints w (World.drawn w)) (hi - lo)). lia.
Qed.

Lemma randint_returns lo hi w :
  (lo < hi)%Z -> is_Some (World.randint lo hi w).
Proof. intros H. unfold World.randint. rewrite decide_True by done. eauto. Qed.

Lemma seqZ_range (a : Z) (n i : Z) : In i (seqZ a n) -> (a <= i < a + n)%Z.
Proof. intros Hin%list_elem_of_In%elem_of_seqZ. lia. Qed.

(** ** What a node's [update] leaves alone *)

Lemma mouse_phase params m dt w n :
  phase (_apply_mouse_interaction params m dt w n).1 = phase n.
Proof. unfold _apply_mouse_interaction. node_cases. Qed.

Lemma mouse_attention params m dt w n :
  attention (_apply_mouse_interaction params m dt w n).1 = attention n.
Proof. unfold _apply_mouse_interaction. node_cases. Qed.

Lemma integrate_attention params dt n :
  attention (integrate params dt n) = attention n.
Proof. unfold integrate. node_cases. Qed.

Lemma physics_attention params dt w n :
  attention (_apply_physics params dt w n).1 = attention n.
Proof.
  unfold _apply_physics, bound_x, bound_y.
  rewrite <- (integrate_attention params dt n).
  generalize (integrate params dt n). intros n'. node_cases.
Qed.

Lemma physics_phase params dt w n :
  phase (_apply_physics params dt w n).1 = phase n.
Proof.
  unfold _apply_physics, bound_x, bound_y.
  assert (H : phase (integrate params dt n) = phase n)
    by (unfold integrate; node_cases).
  rewrite <- H. generalize (integrate params dt n). intros n'. node_cases.
Qed.

Lemma update_frame {A : Type} (field : Node -> A) params :
  (forall m dt w n, field (_apply_mouse_interaction params m dt w n).1 = field n) ->
  (forall dt w n, field (_apply_physics params dt w n).1 = field n) ->
  (forall dt n, field (_update_intelligence_tensors params dt n) = field n) ->
  (forall n, field (resize n) = field n) ->
  forall dt m w n,
    field (ConsciousnessNode.update params dt m w n).1
    = field (oscillate (dt * get params "time_dilation" 1) n).
Proof.
  intros Hmouse Hphys Htens Hres dt m w n. unfold ConsciousnessNode.update.
  set (dt' := dt * _). generalize (oscillate dt' n). intros n1.
  destruct m as [m|]; [destruct (MouseInfluence.truthy m)|].
  - specialize (Hmouse m dt' w n1).
    destruct (_apply_mouse_interaction params m dt' w n1) as [n2 w2].
    specialize (Hphys dt' w2 n2).
    destruct (_apply_physics params dt' w2 n2) as [n3 w3]. cbn in *.
    by rewrite Hres, Htens, Hphys, Hmouse.
  - specialize (Hphys dt' w n1).
    destruct (_apply_physics params dt' w n1) as [n3 w3]. cbn in *.
    by rewrite Hres, Htens, Hphys.
  - specialize (Hphys dt' w n1).
    destruct (_apply_physics params dt' w n1) as [n3 w3]. cbn in *.
    by rewrite Hres, Htens, Hphys.
Qed.

Lemma update_attention params dt m w n :
  attention (ConsciousnessNode.update params dt m w n).1 = attention n.
Proof.
  rewrite (update_frame attention); try done.
  - apply mouse_attention.
  - apply physics_attention.
Qed.

Lemma update_phase params dt m w n :
  phase (ConsciousnessNode.update params dt m w n).1
  = Py.float_mod
      (phase n + frequency n * (dt * get params "time_dilation" 1) * 2 * PI / 1000)
      (2 * PI).
Proof.
  rewrite (update_frame phase); try done.
  - apply mouse_phase.
  - apply physics_phase.
Qed.

Lemma collapse_node_attention x y n :
  attention (collapse_node x y n) = attention n.
Proof. unfold collapse_node. node_cases. Qed.

Lemma collapse_node_position x y n :
  ConsciousnessNode.x (collapse_node x y n) = ConsciousnessNode.x n
  /\ ConsciousnessNode.y (collapse_node x y n) = ConsciousnessNode.y n.
Proof. unfold collapse_node. split; node_cases. Qed.

(** ** Cluster detection *)

(** The members gathered by a traversal are nodes of the collection. *)
Lemma scan_members h ns cur (s : Traversal) :
  Forall (fun l => In l ns) s.1.1 ->
  Forall (fun l => In l ns) (scan h ns cur s).1.1.
Proof.
  intros Hs. unfold scan.
  apply (fold_left_ind_in (fun s : Traversal => Forall (fun l => In l ns) s.1.1));
    [done|].
  intros [[cn q] pr] [j cand] Hin%enumerate_elem Hcn. cbn in *.
  case_decide; [done|]. destruct (linked _ _); [|done]. cbn.
  apply Forall_app. split; [done|]. by apply Forall_singleton.
Qed.

Lemma traverse_members fuel h ns (s : Traversal) :
  Forall (fun l => In l ns) s.1.1 ->
  Forall (fun l => In l ns) (traverse fuel h ns s).1.1.
Proof.
  revert s. induction fuel as [|fuel IH]; intros [[cn q] pr] Hs; cbn; [done|].
  destruct q as [|cur q]; [done|]. apply IH. by apply scan_members.
Qed.

Lemma update_clusters_eq self :
  _update_clusters self
  = set_clusters (detect (nodes self) (reset (nodes self) (heap self))).1.2
      (set_heap (detect (nodes self) (reset (nodes self) (heap self))).1.1 self).
Proof.
  unfold _update_clusters. by destruct (detect _ _) as [[h cs] pr].
Qed.

(** Detection writes nothing outside the collection. *)
Lemma detect_outside ns h l : ~ In l ns -> (detect ns h).1.1 l = h l.
Proof.
  intros Hl. unfold detect.
  apply (fold_left_ind_in
           (fun s : Heap * list Cluster.t * gset nat => s.1.1 l = h l)); [done|].
  intros [[h1 cs] pr] [i node] Hin%enumerate_elem IH. cbn in IH.
  unfold grow. case_decide; [done|].
  pose proof (traverse_members (length ns * 2) h1 ns
                ([node], [i], {[i]} ∪ pr)) as Hm.
  destruct (traverse _ _ _ _) as [[cn q] pr2].
  assert (Hcn : Forall (fun l => In l ns) cn)
    by (apply Hm, Forall_singleton, Hin).
  clear Hm.
  case_decide; [|done]. cbn. rewrite fold_upd_iter.
  rewrite (proj1 (count_occ_not_In Nat.eq_dec cn l)); [done|].
  intros Hin'. apply Hl.
  by apply (proj1 (Forall_forall _ _) Hcn), list_elem_of_In.
Qed.

Lemma detect_field {A : Type} (field : Node -> A) ns h :
  (forall v n, field (set_cluster_id v n) = field n) ->
  forall l, field ((detect ns h).1.1 l) = field (h l).
Proof.
  intros Hf. unfold detect.
  apply (fold_left_ind
           (fun s : Heap * list Cluster.t * gset nat =>
              forall l, field (s.1.1 l) = field (h l))); [done|].
  intros [[h1 cs] pr] [i node] IH. unfold grow. case_decide; [done|].
  destruct (traverse _ _ _ _) as [[cn q] pr2].
  case_decide; [|done]. cbn. intros l. rewrite fold_upd_field; [apply IH|].
  intros; apply Hf.
Qed.

Lemma reset_spec ns h l :
  reset ns h l = if decide (l ∈ ns) then set_cluster_id (-1) (h l) else h l.
Proof.
  unfold reset. rewrite fold_upd_iter.
  case_decide as Hin; rewrite list_elem_of_In in Hin.
  - apply (count_occ_In Nat.eq_dec) in Hin.
    destruct (count_occ Nat.eq_dec ns l) as [|k]; [lia|].
    by apply iter_idem.
  - apply (count_occ_not_In Nat.eq_dec) in Hin. by rewrite Hin.
Qed.

(** A second reset meets the heap that the first one produced. *)
Lemma reset_after_detect ns h :
  reset ns ((detect ns (reset ns h)).1.1) = reset ns h.
Proof.
  apply functional_extensionality. intros l. rewrite !reset_spec.
  case_decide as Hin.
  - rewrite (detect_field (set_cluster_id (-1))) by done.
    rewrite reset_spec. by rewrite decide_True.
  - rewrite detect_outside by (by rewrite <- list_elem_of_In).
    rewrite reset_spec. by rewrite decide_False.
Qed.

Lemma clusters_field {A : Type} (field : Node -> A) self :
  (forall v n, field (set_cluster_id v n) = field n) ->
  forall l, field (heap (_update_clusters self) l) = field (heap self l).
Proof.
  intros Hf l. rewrite update_clusters_eq. cbn [heap set_clusters set_heap].
  rewrite detect_field by done. unfold reset. by rewrite fold_upd_field.
Qed.

Lemma clusters_universes self :
  universes (_update_clusters self) = universes self.
Proof. by rewrite update_clusters_eq. Qed.

(** C9.  Running cluster detection on a lattice that it has just processed
    changes nothing: the cluster list, every member list and every
    [cluster_id] are those of the first run.  Detection reads positions,
    phases and frequencies only, and writes [cluster_id] only. *)
Theorem update_clusters_idempotent (self : ConsciousnessLattice.t) :
  _update_clusters (_update_clusters self) = _update_clusters self.
Proof.
  rewrite (update_clusters_eq (_update_clusters self)).
  rewrite (update_clusters_eq self). cbn [nodes heap set_clusters set_heap].
  by rewrite reset_after_detect.
Qed.

(** ** Cluster detection in the demo *)

Lemma pending_le n pr : (pending n pr <= n)%nat.
Proof.
  unfold pending. etrans; [apply subseteq_size, subseteq_difference_l; done|].
  by rewrite size_set_seq.
Qed.

Lemma pending_insert n pr j :
  (j < n)%nat -> j ∉ pr -> S (pending n ({[j]} ∪ pr)) = pending n pr.
Proof.
  intros Hj Hpr. unfold pending.
  assert (Heq : (set_seq 0 n ∖ pr : gset nat)
                = ({[j]} : gset nat) ∪ (set_seq 0 n ∖ ({[j]} ∪ pr))).
  { apply set_eq. intros k. rewrite elem_of_union, !elem_of_difference,
      elem_of_union, elem_of_singleton, elem_of_set_seq.
    destruct (decide (k = j)) as [->|]; [|tauto]. split; [tauto|].
    intros _. split; [lia|done]. }
  rewrite Heq.
  rewrite (size_union (C:=gset nat) {[j]} (set_seq 0 n ∖ ({[j]} ∪ pr))).
  - by rewrite size_singleton.
  - apply disjoint_singleton_l. rewrite elem_of_difference, elem_of_union,
    elem_of_singleton. tauto.
Qed.

Lemma enumerate_bound {A : Type} (l : list A) (j : nat) (a : A) :
  In (j, a) (enumerate l) -> (j < length l)%nat.
Proof.
  intros [_ Hl]%enumerate_from_elem. rewrite Nat.sub_0_r in Hl.
  by eapply lookup_lt_Some.
Qed.

Lemma visit_scanned h ns cur total s jc s' :
  In jc (enumerate ns) -> scanned ns total s ->
  Demo.Lattice.visit h cur s jc = Some s' -> scanned ns total s'.
Proof.
  destruct s as [[cn q] pr], jc as [j cand]. intros Hin (Hcn & Hm).
  unfold Demo.Lattice.visit. case_decide as Hj; [by intros [= <-]|].
  destruct (Demo.Lattice.linked _ _) as [[]|]; cbn; [|by intros [= <-]|done].
  intros [= <-]. unfold scanned in *. cbn in *.
  pose proof (enumerate_bound _ _ _ Hin) as Hlt.
  split.
  - apply Forall_app. split; [done|]. apply Forall_singleton.
    by eapply enumerate_elem.
  - rewrite length_app. cbn. rewrite <- (pending_insert _ _ _ Hlt Hj) in Hm. lia.
Qed.

Lemma scan_scanned h ns cur total s s' :
  scanned ns total s -> Demo.Lattice.scan h ns cur s = Some s' -> scanned ns total s'.
Proof.
  intros Hs Hscan.
  apply (for_each_inv (fun _ s => scanned ns total s) (enumerate ns)
           (Demo.Lattice.visit h cur) s s'); [done| |done].
  intros _ s1 jc s2 Hin H1 H2. by eapply visit_scanned.
Qed.

Lemma scanned_pop ns total cn cur q pr :
  scanned ns total (cn, cur :: q, pr) -> scanned ns (pred total) (cn, q, pr).
Proof. intros [Hcn Hm]. split; [done|]. cbn in *. lia. Qed.

(** The fuel that [grow] gives is never used up. *)
Lemma demo_traverse_finishes fuel h ns total s :
  scanned ns total s -> (total < fuel)%nat ->
  Demo.Lattice.traverse fuel h ns s <> None.
Proof.
  revert total s. induction fuel as [|fuel IH]; intros total [[cn q] pr] Hs Hm;
    [lia|].
  cbn. destruct q as [|cur q]; [done|].
  destruct (Demo.Lattice.scan h ns (h (ns !!! cur)) (cn, q, pr)) as [s'|] eqn:Hscan;
    [|done].
  apply (IH (pred total)).
  - eapply scan_scanned; [|done]. by eapply scanned_pop.
  - destruct Hs as [_ Hs]. cbn in Hs. lia.
Qed.


Lemma grow_start (ns : list loc) i node pr :
  In (i, node) (enumerate ns) ->
  scanned ns (pending (length ns) ({[i]} ∪ pr) + 1) ([node], [i], {[i]} ∪ pr).
Proof.
  intros Hin. split; [|done]. apply Forall_singleton. by eapply enumerate_elem.
Qed.

Lemma grow_fuel (ns : list loc) i pr :
  (pending (length ns) ({[i]} ∪ pr) + 1 < length ns + 2)%nat.
Proof. pose proof (pending_le (length ns) ({[i]} ∪ pr)). lia. Qed.

(** [while queue:] ends within the fuel of the model, whatever [grow]
    starts it from. *)
Lemma demo_grow_never_runs_out (ns : list loc) h i node pr :
  In (i, node) (enumerate ns) ->
  Demo.Lattice.traverse (length ns + 2) h ns ([node], [i], {[i]} ∪ pr)
  <> None.
Proof.
  intros Hin. eapply demo_traverse_finishes;
    [by apply grow_start|apply grow_fuel].
Qed.








(** ** Universes *)

Lemma tuned_idem u t n : tuned u t (tuned u t n) = tuned u t n.
Proof.
  unfold tuned. destruct (Universe._contains_node u n) eqn:Hc; [|by rewrite Hc].
  assert (Universe._contains_node u (Universe.modulate u t n) = true) as -> by done.
  done.
Qed.

Lemma universe_update_iter u t h l :
  Universe.update u t h l
  = Nat.iter (count_occ Nat.eq_dec (Universe.nodes u) l) (tuned u t) (h l).
Proof.
  unfold Universe.update. generalize (Universe.nodes u). intros ls.
  revert h. induction ls as [|a ls IH]; intros h; [done|].
  cbn [fold_left count_occ]. rewrite IH.
  destruct (Nat.eq_dec a l) as [->|Hne].
  - rewrite Nat.iter_succ_r. f_equal. unfold tuned.
    destruct (Universe._contains_node u (h l)); [|done].
    unfold heap_upd. by rewrite heap_set_eq.
  - f_equal. destruct (Universe._contains_node u (h a)); [|done].
    unfold heap_upd. by rewrite heap_set_ne.
Qed.

Lemma universe_update_member u t h l :
  In l (Universe.nodes u) -> Universe.update u t h l = tuned u t (h l).
Proof.
  intros Hin. rewrite universe_update_iter.
  apply (count_occ_In Nat.eq_dec) in Hin.
  destruct (count_occ Nat.eq_dec (Universe.nodes u) l) as [|k]; [lia|].
  apply iter_idem, tuned_idem.
Qed.

Lemma universe_update_stranger u t h l :
  ~ In l (Universe.nodes u) -> Universe.update u t h l = h l.
Proof.
  intros Hin. rewrite universe_update_iter.
  apply (count_occ_not_In Nat.eq_dec) in Hin. by rewrite Hin.
Qed.

Lemma universe_update_field {A : Type} (field : Node -> A) u t h :
  (forall v n, field (set_frequency v n) = field n) ->
  forall l, field (Universe.update u t h l) = field (h l).
Proof.
  intros Hf. unfold Universe.update.
  apply (fold_left_ind (fun h' => forall l, field (h' l) = field (h l))); [done|].
  intros h' node IH. destruct (Universe._contains_node u (h' node)); [|done].
  apply heap_upd_field; [done|]. intros n. apply Hf.
Qed.

Lemma universes_update_field {A : Type} (field : Node -> A) us t h :
  (forall v n, field (set_frequency v n) = field n) ->
  forall l,
    field (fold_left (fun h u => Universe.update u t h) us h l) = field (h l).
Proof.
  intros Hf.
  apply (fold_left_ind (fun h' => forall l, field (h' l) = field (h l))); [done|].
  intros h' u IH l. by rewrite universe_update_field.
Qed.

(** ** One step of the lattice *)

Lemma interactions_attention dt m w self l :
  attention (heap (_update_nodes_with_interactions dt m w self).1 l)
  = attention (heap self l).
Proof.
  unfold _update_nodes_with_interactions.
  set (forces := compute_forces _ _ _ _).
  pose proof (fold_left_ind
    (fun hw : Heap * World.t => forall l, attention (hw.1 l) = attention (heap self l))
    (fun hw '(i, node) => push_and_update (params self) dt m (forces !!! i) node hw)
    (enumerate (nodes self)) (heap self, w)) as H.
  destruct (fold_left _ _ _) as [h' w']. cbn. apply H; [done|].
  intros [h1 w1] [i node] IH. unfold push_and_update.
  set (n1 := set_vy _ _).
  pose proof (update_attention (params self) dt m w1 n1) as Hu.
  destruct (ConsciousnessNode.update (params self) dt m w1 n1) as [n2 w2]. cbn in *.
  apply heap_set_field; [done|]. by rewrite Hu.
Qed.

Lemma interactions_universes dt m w self :
  universes (_update_nodes_with_interactions dt m w self).1 = universes self.
Proof.
  unfold _update_nodes_with_interactions.
  by destruct (fold_left _ _ _).
Qed.

Lemma step_attention dt m w self l :
  attention (heap (ConsciousnessLattice.update dt m w self).1.2 l)
  = attention (heap self l).
Proof.
  unfold ConsciousnessLattice.update.
  destruct (World.time_time w) as [now w1].
  set (s1 := set_time _ _).
  assert (Hs1 : heap s1 = heap self) by done.
  clearbody s1.
  destruct (mouse_influence_queue s1) as [|cm q];
    match goal with
    | |- context [_update_nodes_with_interactions ?d ?c ?w ?s] =>
        pose proof (interactions_attention d c w s l) as H4;
        destruct (_update_nodes_with_interactions d c w s) as [s4 w4]
    end; cbn in *;
    rewrite clusters_field by done; rewrite H4;
    rewrite universes_update_field by done; by rewrite Hs1.
Qed.

Lemma step_universes dt m w self :
  universes (ConsciousnessLattice.update dt m w self).1.2 = universes self.
Proof.
  unfold ConsciousnessLattice.update.
  destruct (World.time_time w) as [now w1].
  set (s1 := set_time _ _).
  assert (Hs1 : universes s1 = universes self) by done.
  clearbody s1.
  destruct (mouse_influence_queue s1) as [|cm q];
    match goal with
    | |- context [_update_nodes_with_interactions ?d ?c ?w ?s] =>
        pose proof (interactions_universes d c w s) as H4;
        destruct (_update_nodes_with_interactions d c w s) as [s4 w4]
    end; cbn in *; by rewrite clusters_universes, H4.
Qed.

(** C2, amended.  A universe modulates the nodes of its own list
    [self.nodes], filled when a node is created with that universe's id:
    such a node at distance strictly below the radius gets the frequency
    [base_frequency * (1 + resonance_coeff * 0.2 * sin (time * 0.05))] and
    keeps its other fields, such a node at distance at least the radius is
    left as it is, and so is every node outside the list, wherever it lies.
    A step does not change the universes, hence not their lists. *)
Theorem universe_update_acts_on_its_own_list
    (u : Universe.t) (time_factor : R) (h : Heap) (l : loc) :
  let inside :=
    sqrt ((ConsciousnessNode.x (h l) - Universe.center_x u) ^ 2
          + (ConsciousnessNode.y (h l) - Universe.center_y u) ^ 2)
    < Universe.radius u in
  (In l (Universe.nodes u) -> inside ->
   Universe.update u time_factor h l
   = set_frequency
       (base_frequency (h l)
        * (1 + Universe.resonance_coeff u * 0.2 * sin (time_factor * 0.05)))
       (h l))
  /\ (In l (Universe.nodes u) -> ~ inside ->
      Universe.update u time_factor h l = h l)
  /\ (~ In l (Universe.nodes u) -> Universe.update u time_factor h l = h l)
  /\ (forall dt m w self,
        universes (ConsciousnessLattice.update dt m w self).1.2
        = universes self).
Proof.
  intros inside. repeat split.
  - intros Hin Hd. rewrite universe_update_member by done.
    unfold tuned, Universe._contains_node. by rewrite bool_decide_eq_true_2.
  - intros Hin Hd. rewrite universe_update_member by done.
    unfold tuned, Universe._contains_node. by rewrite bool_decide_eq_false_2.
  - apply universe_update_stranger.
  - apply step_universes.
Qed.

(** The amended C2 at a node of the list at the centre of its universe. *)
Lemma universe_update_witness :
  let u := Universe.mk 0 0 0 200 0.5 [0%nat] in
  let h := heap two_universes in
  In 0%nat (Universe.nodes u)
  /\ sqrt ((ConsciousnessNode.x (h 0%nat) - Universe.center_x u) ^ 2
           + (ConsciousnessNode.y (h 0%nat) - Universe.center_y u) ^ 2)
     < Universe.radius u
  /\ Universe.update u 0 h 0%nat
     = set_frequency
         (base_frequency (h 0%nat)
          * (1 + Universe.resonance_coeff u * 0.2 * sin (0 * 0.05)))
         (h 0%nat).
Proof.
  intros u h.
  assert (Hin : In 0%nat (Universe.nodes u)) by (by left).
  assert (Hd : sqrt ((ConsciousnessNode.x (h 0%nat) - Universe.center_x u) ^ 2
                     + (ConsciousnessNode.y (h 0%nat) - Universe.center_y u) ^ 2)
               < Universe.radius u).
  { subst h u. cbn -[sqrt pow]. rewrite heap_set_eq. cbn -[sqrt pow].
    sqrt_is 0. lra. }
  split; [exact Hin|]. split; [exact Hd|].
  destruct (universe_update_acts_on_its_own_list u 0 h 0%nat) as [H _].
  exact (H Hin Hd).
Defined.

(** C2 as stated fails: the node of [two_universes] lies at the centre of
    universe 0, well inside its radius, yet universe 0, and the whole
    universe phase of a step, leave its frequency at 43 where the
    modulation formula gives 40: the node belongs to the list of
    universe 1. *)
Lemma stray_node_is_not_modulated :
  let u0 := Universe.mk 0 0 0 200 0.5 [] in
  let h := heap two_universes in
  In 0%nat (nodes two_universes)
  /\ In u0 (universes two_universes)
  /\ sqrt ((ConsciousnessNode.x (h 0%nat) - Universe.center_x u0) ^ 2
           + (ConsciousnessNode.y (h 0%nat) - Universe.center_y u0) ^ 2)
     < Universe.radius u0
  /\ frequency (Universe.update u0 0 h 0%nat) = 43
  /\ frequency
       (fold_left (fun h u => Universe.update u 0 h) (universes two_universes) h
          0%nat) = 43
  /\ base_frequency (h 0%nat)
     * (1 + Universe.resonance_coeff u0 * 0.2 * sin (0 * 0.05)) = 40.
Proof.
  cbn -[sqrt sin pow]. rewrite !heap_set_eq.
  split; [by left|]. split; [by left|].
  split; [cbn -[sqrt pow]; sqrt_is 0; lra|].
  split; [done|].
  split.
  - unfold Universe._contains_node.
    cbn -[sqrt pow]. rewrite bool_decide_eq_false_2; [done|].
    sqrt_is 400. lra.
  - rewrite Rmult_0_l, sin_0. cbn. lra.
Qed.

(** C10.  A step (the universes' modulation, the repulsion, every node's
    [update], cluster detection), a collapse, a parameter update and a
    change of mode leave the attention of every node object unchanged. *)
Theorem frame_pipeline_keeps_attention (self : ConsciousnessLattice.t) (l : loc) :
  (forall dt m w,
     attention (heap (ConsciousnessLattice.update dt m w self).1.2 l)
     = attention (heap self l))
  /\ (forall x y,
        attention (heap (quantum_collapse x y self) l) = attention (heap self l))
  /\ (forall new_params,
        attention (heap (update_params new_params self) l)
        = attention (heap self l))
  /\ (forall mode,
        attention (heap (set_mode mode self) l) = attention (heap self l)).
Proof.
  repeat split; try done.
  - intros. apply step_attention.
  - intros. unfold quantum_collapse. cbn.
    apply fold_upd_field, collapse_node_attention.
Qed.

(** The velocity delta that [_apply_mouse_interaction] gives a node within
    reach of an active pointer, mode by mode. *)
Lemma pointer_delta params px py mode dt w n :
  let dx := px - x n in
  let dy := py - y n in
  let distance := sqrt (dx ^ 2 + dy ^ 2) in
  let max_distance := 200 * get params "field_strength" 1 in
  let angle := Py.arctan2 dy dx in
  let force :=
    (max_distance - distance) / max_distance * get params "field_strength" 1 in
  let n' := (_apply_mouse_interaction params (pointer_on px py mode) dt w n).1 in
  distance < max_distance ->
  (mode = "push"%string ->
   vx n' = vx n - cos angle * force * 0.4 * dt * 60
   /\ vy n' = vy n - sin angle * force * 0.4 * dt * 60)
  /\ (mode = "pull"%string ->
      vx n' = vx n + cos angle * force * 0.4 * dt * 60
      /\ vy n' = vy n + sin angle * force * 0.4 * dt * 60)
  /\ (mode = "vortex"%string ->
      vx n' = vx n + cos (angle + PI / 2) * force * 0.5 * dt * 60
      /\ vy n' = vy n + sin (angle + PI / 2) * force * 0.5 * dt * 60)
  /\ (mode = "wave"%string ->
      let wave_force :=
        sin (distance * 0.05 - World.clock w (World.ticks w) * 10) * force in
      vx n' = vx n + cos angle * wave_force * 0.5 * dt * 60
      /\ vy n' = vy n + sin angle * wave_force * 0.5 * dt * 60).
Proof.
  intros dx dy distance max_distance angle force n' Hd. subst n'.
  unfold _apply_mouse_interaction, pointer_on.
  cbn [MouseInfluence.x MouseInfluence.y MouseInfluence.mode
       MouseInfluence.active default negb].
  fold dx dy. fold distance. fold max_distance.
  rewrite decide_True by done.
  split; [|split; [|split]]; intros ->; done.
Qed.

(** ** The boundary *)

(** Reflection and tunnelling at the x boundary in [lattice.py]. *)
Lemma bound_x_reflects params w n :
  x n > 500 -> ~ World.floats w (World.drawn w) < 0.05 ->
  let n' := (bound_x params w n).1 in
  x n' = 500 /\ vx n' = vx n * (-0.8 * get params "elasticity" 0.8).
Proof.
  intros Hx Hr. unfold bound_x, world_bounds_x.
  rewrite decide_True by (right; lra). cbn -[Py.clip].
  rewrite decide_False by done. cbn -[Py.clip]. split; [|done].
  unfold Py.clip. rewrite Rmax_left by lra. rewrite Rmin_right by lra. lra.
Qed.

Lemma bound_x_tunnels params w n :
  x n > 500 -> World.floats w (World.drawn w) < 0.05 ->
  let n' := (bound_x params w n).1 in
  x n' = -500 /\ vx n' = vx n * -0.5.
Proof.
  intros Hx Hr. unfold bound_x, world_bounds_x.
  rewrite decide_True by (right; lra). cbn.
  rewrite decide_True by done. cbn. split; [|done].
  rewrite decide_False by lra. lra.
Qed.

Lemma bound_y_keeps_x params w n :
  x (bound_y params w n).1 = x n /\ vx (bound_y params w n).1 = vx n.
Proof. unfold bound_y. split; node_cases. Qed.

(** A node driven past [x = 500] whose draw does not tunnel ends
    [_apply_physics] on the boundary with its velocity reflected. *)
Lemma physics_reflects params dt w n :
  let moved := integrate params dt n in
  x moved > 500 -> ~ World.floats w (World.drawn w) < 0.05 ->
  let n' := (_apply_physics params dt w n).1 in
  x n' = 500 /\ vx n' = vx moved * (-0.8 * get params "elasticity" 0.8).
Proof.
  intros moved Hx Hr. unfold _apply_physics. fold moved.
  pose proof (bound_x_reflects params w moved Hx Hr) as H. cbn zeta in H.
  destruct (bound_x params w moved) as [n1 w1]. cbn [fst] in H.
  destruct (bound_y_keeps_x params w1 n1) as [-> ->]. exact H.
Qed.

(** ... and one whose draw tunnels is moved to the opposite boundary with
    half its velocity, reversed. *)
Lemma physics_tunnels params dt w n :
  let moved := integrate params dt n in
  x moved > 500 -> World.floats w (World.drawn w) < 0.05 ->
  let n' := (_apply_physics params dt w n).1 in
  x n' = -500 /\ vx n' = vx moved * -0.5.
Proof.
  intros moved Hx Hr. unfold _apply_physics. fold moved.
  pose proof (bound_x_tunnels params w moved Hx Hr) as H. cbn zeta in H.
  destruct (bound_x params w moved) as [n1 w1]. cbn [fst] in H.
  destruct (bound_y_keeps_x params w1 n1) as [-> ->]. exact H.
Qed.

(** ** The pointer *)

(** A node at rest at the origin stays at rest when no pointer acts. *)
Lemma physics_at_rest params dt w n :
  x n = 0 -> y n = 0 -> vx n = 0 -> vy n = 0 ->
  vx (_apply_physics params dt w n).1 = 0.
Proof.
  intros Hx Hy Hvx Hvy. unfold _apply_physics.
  assert (Hi : x (integrate params dt n) = 0 /\ y (integrate params dt n) = 0
               /\ vx (integrate params dt n) = 0).
  { unfold integrate. rewrite Hx, Hy.
    replace (sqrt ((0 - 0) ^ 2 + (0 - 0) ^ 2)) with 0
      by (symmetry; apply sqrt_lem_1; lra).
    rewrite (decide_False (P := 0 > 10)) by lra.
    case_decide; cbn; rewrite Hx, Hy, Hvx, Hvy; repeat split; lra. }
  destruct Hi as (Hx' & Hy' & Hvx').
  revert Hx' Hy' Hvx'. generalize (integrate params dt n). intros m Hx' Hy' Hvx'.
  unfold bound_x, world_bounds_x. rewrite Hx'.
  rewrite decide_False by (intros [?|?]; lra).
  destruct (bound_y_keeps_x params w m) as [_ ->]. done.
Qed.

Lemma update_at_rest params dt w n :
  x n = 0 -> y n = 0 -> vx n = 0 -> vy n = 0 ->
  vx (ConsciousnessNode.update params dt None w n).1 = 0.
Proof.
  intros Hx Hy Hvx Hvy. unfold ConsciousnessNode.update.
  set (dt' := dt * _).
  pose proof (physics_at_rest params dt' w (oscillate dt' n) Hx Hy Hvx Hvy) as H.
  destruct (_apply_physics params dt' w (oscillate dt' n)) as [n1 w1].
  exact H.
Qed.

(** The lone node of [lone_lattice] is at rest after a step, pointer
    or not. *)
Lemma lone_node_untouched dt w :
  vx (heap (ConsciousnessLattice.update dt (Some (pointer_on 10 0 "push")) w
              lone_lattice).1.2 0%nat) = 0.
Proof.
  unfold ConsciousnessLattice.update.
  destruct (World.time_time w) as [now w1].
  cbn [mouse_influence_queue set_time set_last_update_time lone_lattice].
  match goal with
  | |- context [_update_nodes_with_interactions ?d ?c ?w ?s] =>
      set (s3 := s); set (d3 := d);
      assert (Hs : forall field : Node -> R,
                 (forall v n, field (set_frequency v n) = field n) ->
                 field (heap s3 0%nat) = field lone_node)
  end.
  { intros field Hf. subst s3. cbn [heap set_heap universes].
    rewrite universes_update_field by done.
    unfold lone_lattice.
    cbn [heap set_time set_last_update_time]. by rewrite heap_set_eq. }
  assert (Hn : nodes s3 = [0%nat]) by done.
  unfold _update_nodes_with_interactions.
  rewrite Hn. unfold compute_forces, repulsion_on, enumerate.
  cbn [enumerate_from map fold_left]. rewrite decide_True by done.
  cbn [lookup_total list_lookup_total fst snd]. unfold push_and_update.
  set (n0 := set_vy _ _).
  pose proof (update_at_rest (params s3) d3 w1 n0) as Hu.
  destruct (ConsciousnessNode.update (params s3) d3 None w1 n0) as [n1 w2].
  cbn [fst snd]. rewrite clusters_field by done.
  cbn [heap set_heap]. rewrite heap_set_eq.
  pose proof (Hs x ltac:(done)) as Hx. pose proof (Hs y ltac:(done)) as Hy.
  pose proof (Hs vx ltac:(done)) as Hvx. pose proof (Hs vy ltac:(done)) as Hvy.
  cbn in Hx, Hy, Hvx, Hvy.
  apply Hu; subst n0; cbn; rewrite ?Hx, ?Hy, ?Hvx, ?Hvy; lra.
Qed.

(** The push that the interaction rule gives the same node for the same
    pointer and the longest time step. *)
Lemma lone_node_pushed w :
  vx (_apply_mouse_interaction default_params (pointer_on 10 0 "push") 0.05 w
        lone_node).1 = -1.14.
Proof.
  destruct (pointer_delta default_params 10 0 "push" 0.05 w lone_node) as [H _].
  { rewrite default_field_strength. cbn -[sqrt pow].
    sqrt_is 10. lra. }
  destruct (H eq_refl) as [-> _].
  rewrite default_field_strength. cbn -[sqrt pow cos Py.arctan2].
  replace (0 - 0) with 0 by lra. rewrite arctan2_east by lra. rewrite cos_0.
  sqrt_is 10. lra.
Qed.

(** C4.  [update] of [lattice.py] never reads its [mouse_influence]
    argument: a step with a pointer is the step without one.  So a step
    with an active pointer ten units from the node of [lone_lattice]
    leaves the node at rest, where [_apply_mouse_interaction] for that
    pointer gives it the velocity [-1.14]. *)
Theorem update_discards_pointer :
  (forall dt mouse_influence w self,
     ConsciousnessLattice.update dt mouse_influence w self
     = ConsciousnessLattice.update dt None w self)
  /\ (forall dt w,
        vx (heap (ConsciousnessLattice.update dt
                    (Some (pointer_on 10 0 "push")) w lone_lattice).1.2
              0%nat) = 0)
  /\ (forall w,
        vx (_apply_mouse_interaction default_params (pointer_on 10 0 "push")
              0.05 w lone_node).1 = -1.14).
Proof.
  split; [reflexivity|]. split; [apply lone_node_untouched|].
  apply lone_node_pushed.
Qed.

(** ** Phase *)

Section Binary64.

Import Floats.
Local Open Scope float_scope.

(** C6, the defect.  The statements of [update] that reduce the phase can
    leave it at [2 * pi] itself, not below.  For a node of phase [0.0] and
    frequency [40.0], [node.update(0.016, params)] with a [time_dilation]
    of [-1e-18] moves the phase back by about [4e-21]; [fmod] returns that
    small negative number, [%] adds [2 * pi] to it, and the sum rounds to
    [2 * pi].  So does [-1e-20 % (2 * pi)]. *)
#[warnings="-inexact-float"]
Theorem phase_reaches_the_full_turn :
  Float64.oscillate_phase 0 40 0.016 (-1e-18) = Some (2 * Float64.pi)
  /\ (forall phase,
        Float64.oscillate_phase 0 40 0.016 (-1e-18) = Some phase ->
        (phase <? 2 * Float64.pi) = false)
  /\ Float64.float_rem (-1e-20) (2 * Float64.pi) = Some (2 * Float64.pi).
Proof.
  split; [vm_compute; reflexivity|]. split.
  - intros phase Hp. vm_compute in Hp. injection Hp as <-.
    vm_compute. reflexivity.
  - vm_compute. reflexivity.
Qed.

End Binary64.

(** ** Parameters *)

Lemma dom_default_params : dom default_params = recognized.
Proof.
  unfold default_params, recognized.
  rewrite !dom_insert_L, dom_singleton_L. reflexivity.
Qed.

Lemma warp_unknown : ("warp"%string) ∉ recognized.
Proof.
  unfold recognized. rewrite !elem_of_union, !elem_of_singleton.
  intros [[[[?|?]|?]|?]|?]; discriminate.
Qed.

Lemma keys_kept new_params self key :
  is_Some (params self !! key) ->
  is_Some (params (update_params new_params self) !! key).
Proof.
  intros [v Hv]. cbn. rewrite lookup_union.
  rewrite Hv. destruct (new_params !! key); cbn; eauto.
Qed.

(** C3, amended.  [update_params] merges every key of its argument into
    the configuration, recognized or not: a key of the argument maps to the
    argument's value, any other key keeps its value, and the keys are those
    of the argument together with the old ones.  The state that
    [get_state_for_transmission] returns afterwards carries every key of
    the argument with its value. *)
Theorem update_params_merges_every_key new_params self :
  (forall key,
     params (update_params new_params self) !! key
     = match new_params !! key with
       | Some v => Some v
       | None => params self !! key
       end)
  /\ dom (params (update_params new_params self))
     = dom new_params ∪ dom (params self)
  /\ (forall key v,
        new_params !! key = Some v ->
        State.params
          (get_state_for_transmission (update_params new_params self)) !! key
        = Some v).
Proof.
  split; [|split].
  - intros key. cbn. rewrite lookup_union.
    destruct (new_params !! key), (params self !! key); done.
  - cbn. apply dom_union_L.
  - intros key v Hv. cbn. by apply lookup_union_Some_l.
Qed.

(** C3 as stated fails: [update_params] stores the unrecognized key
    ["warp"] of its argument, so the keys of the configuration, which were
    the recognized ones, no longer are. *)
Lemma update_params_keeps_unknown_key :
  dom (params fresh_lattice) = recognized
  /\ (("warp"%string) ∉ recognized)
  /\ params (update_params warp_params fresh_lattice) !! "warp"%string
     = Some 7
  /\ dom (params (update_params warp_params fresh_lattice)) <> recognized.
Proof.
  assert (Hl : params (update_params warp_params fresh_lattice)
               !! "warp"%string = Some 7).
  { cbn. apply lookup_union_Some_l. apply lookup_singleton_eq. }
  split; [apply dom_default_params|]. split; [apply warp_unknown|].
  split; [done|].
  intros Heq. apply warp_unknown. rewrite <- Heq. apply elem_of_dom. eauto.
Qed.

(** ** The attention field *)

Lemma density_pos n : 0 < calculate_attention_density n.
Proof. apply exp_pos. Qed.

Lemma measure_spec ls h acc :
  (forall l,
     (fold_left measure_step ls (h, acc)).1 l
     = Nat.iter (count_occ Nat.eq_dec ls l) weigh (h l))
  /\ (fold_left measure_step ls (h, acc)).2
     = acc + sum (map (fun l => calculate_attention_density (h l)) ls).
Proof.
  revert h acc. induction ls as [|a ls IH]; intros h acc.
  - cbn. split; [done|]. unfold sum. cbn. lra.
  - change (fold_left measure_step (a :: ls) (h, acc)) with
      (fold_left measure_step ls
         (heap_upd weigh a h, acc + attention (heap_upd weigh a h a))).
    destruct (IH (heap_upd weigh a h)
      (acc + attention (heap_upd weigh a h a))) as [IH1 IH2]. split.
    + intros l. rewrite IH1. cbn [count_occ]. unfold heap_upd, heap_set.
      destruct (Nat.eq_dec a l) as [->|Hne].
      * rewrite decide_True by done. by rewrite Nat.iter_succ_r.
      * by rewrite decide_False.
    + rewrite IH2. cbn [map]. rewrite sum_cons.
      unfold heap_upd at 1. rewrite heap_set_eq.
      replace (attention (weigh (h a)))
        with (calculate_attention_density (h a)) by done.
      rewrite Rplus_assoc. do 3 f_equal. apply map_ext. intros l.
      unfold heap_upd, heap_set. by case_decide; subst.
Qed.

(** After [_normalize_attention_field] the attention of the collection
    sums to one, the other attributes of the lattice are as before. *)
Lemma normalize_total self :
  NoDup (nodes self) -> nodes self <> [] ->
  total_attention (_normalize_attention_field self) = 1.
Proof.
  intros Hnd%NoDup_ListNoDup Hne. unfold _normalize_attention_field, total_attention.
  unfold measure.
  destruct (measure_spec (nodes self) (heap self) 0) as [Hh Ht].
  destruct (fold_left _ (nodes self) (heap self, 0)) as [h1 total]. cbn in Hh, Ht.
  rewrite Rplus_0_l in Ht.
  assert (Hpos : 0 < total).
  { rewrite Ht. apply sum_map_pos; [|done]. intros; apply density_pos. }
  rewrite decide_True by lra. cbn [heap nodes set_heap]. unfold rescale.
  rewrite (map_ext_in _
             (fun l => calculate_attention_density (heap self l) / total)).
  2:{ intros l Hin. rewrite fold_upd_iter, (NoDup_count _ _ Hnd Hin). cbn.
      rewrite Hh, (NoDup_count _ _ Hnd Hin). reflexivity. }
  rewrite (sum_map_div (fun l => calculate_attention_density (heap self l))).
  rewrite <- Ht. field. lra.
Qed.

Lemma normalize_shape self :
  nodes (_normalize_attention_field self) = nodes self
  /\ next_loc (_normalize_attention_field self) = next_loc self
  /\ universes (_normalize_attention_field self) = universes self
  /\ lambdas (_normalize_attention_field self) = lambdas self
  /\ universe_count (_normalize_attention_field self) = universe_count self
  /\ params (_normalize_attention_field self) = params self.
Proof.
  unfold _normalize_attention_field.
  destruct (measure _ _) as [h t]. by case_decide.
Qed.

Lemma join_universe_shape l uid self self' :
  join_universe l uid self = Some self' ->
  nodes self' = nodes self /\ heap self' = heap self
  /\ next_loc self' = next_loc self /\ lambdas self' = lambdas self
  /\ universe_count self' = universe_count self
  /\ length (universes self') = length (universes self)
  /\ params self' = params self.
Proof.
  unfold join_universe. destruct (position _ _) as [k|]; [|done].
  intros [= <-]. cbn. repeat split. apply length_alter.
Qed.

Lemma join_universe_returns l uid self :
  (0 <= uid < Z.of_nat (length (universes self)))%Z ->
  is_Some (join_universe l uid self).
Proof.
  intros H. unfold join_universe. rewrite position_in_range by done. cbn. eauto.
Qed.

Lemma wf_append self l :
  wf self -> l = next_loc self ->
  NoDup (nodes self ++ [l])
  /\ forall l', In l' (nodes self ++ [l]) -> (l' < S l)%nat.
Proof.
  intros [Hnd Hlt] ->. split.
  - apply NoDup_app. split; [done|]. split.
    + intros l' Hin%list_elem_of_In%Hlt Heq%list_elem_of_In.
      destruct Heq as [<-|[]]. lia.
    + apply NoDup_singleton.
  - intros l' [Hin|[<-|[]]]%in_app_or; [apply Hlt in Hin|]; lia.
Qed.

(** [add_node] of [lattice.py] returns, whenever there is a universe to
    draw. *)
Lemma add_node_returns x y w self :
  (0 < universe_count self)%Z -> sized self ->
  is_Some (add_node x y w self).
Proof.
  intros Hu [Hl Hus]. unfold add_node.
  destruct (randint_returns 0 (universe_count self) w Hu) as [[uid w1] Hr].
  rewrite Hr. cbn. apply randint_range in Hr.
  destruct (index_in_range (lambdas self) uid) as [lam ->]; [lia|]. cbn.
  match goal with
  | |- context [join_universe ?l ?u ?s] =>
      destruct (join_universe_returns l u s) as [s' ->]; [cbn; lia|]
  end.
  cbn. eauto.
Qed.

(** ... and the attention of the collection sums to one afterwards. *)
Lemma add_node_total x y w self l self' w' :
  wf self -> add_node x y w self = Some (l, self', w') ->
  total_attention self' = 1 /\ wf self' /\ nodes self' = nodes self ++ [l].
Proof.
  intros Hwf. unfold add_node.
  destruct (World.randint _ _ _) as [[uid w1]|]; [|done]. cbn.
  destruct (index _ _) as [lam|]; [|done]. cbn.
  match goal with
  | |- context [join_universe ?l ?u ?s] =>
      destruct (join_universe l u s) as [s'|] eqn:Hj; [|done]
  end.
  cbn. intros [= <- <- <-].
  apply join_universe_shape in Hj as (Hn & _ & Hx & _). cbn in Hn, Hx.
  destruct (normalize_shape s') as (Hn' & Hx' & _).
  destruct (wf_append self (next_loc self) Hwf eq_refl) as [Hnd Hlt].
  split; [apply normalize_total; rewrite Hn; [done|by destruct (nodes self)]|].
  split; [|by rewrite Hn', Hn].
  split; rewrite Hn', ?Hx', Hn, ?Hx; done.
Qed.

Lemma remove_first_sublist {A : Type} (same : A -> bool) (l : list A) :
  sublist (remove_first same l) l.
Proof.
  induction l as [|a l IH]; cbn; [done|].
  destruct (same a); [by apply sublist_cons|by apply sublist_skip].
Qed.

Lemma remove_node_shape node self :
  sublist (nodes (remove_node node self)) (nodes self)
  /\ next_loc (remove_node node self) = next_loc self.
Proof.
  unfold remove_node.
  match goal with
  | |- context [_normalize_attention_field ?s] =>
      destruct (normalize_shape s) as (-> & -> & _);
      assert (Hs : sublist (nodes s) (nodes self) /\ next_loc s = next_loc self);
      [|done]
  end.
  set (s1 := if contains _ _ _ then _ else self).
  assert (H1 : sublist (nodes s1) (nodes self) /\ next_loc s1 = next_loc self).
  { subst s1. destruct (contains _ _ _); [|done]. split; [|done].
    apply remove_first_sublist. }
  clearbody s1. case_decide; [|done].
  destruct (position _ _); done.
Qed.

(** [remove_node] re-establishes the sum on what is left. *)
Lemma remove_node_total node self :
  wf self -> nodes (remove_node node self) <> [] ->
  total_attention (remove_node node self) = 1 /\ wf (remove_node node self).
Proof.
  intros [Hnd Hlt] Hne.
  destruct (remove_node_shape node self) as [Hsub Hx].
  assert (Hnd' : NoDup (nodes (remove_node node self))).
  { by eapply sublist_NoDup. }
  split.
  - revert Hne Hnd'. unfold remove_node.
    match goal with
    | |- context [_normalize_attention_field ?s] =>
        destruct (normalize_shape s) as (-> & _); intros; by apply normalize_total
    end.
  - split; [done|]. intros l Hin. rewrite Hx. apply Hlt.
    apply list_elem_of_In. eapply elem_of_sublist; [|done]. by apply list_elem_of_In.
Qed.

Lemma sample_length alpha w lambdas w' :
  _sample_dirichlet alpha w = Some (lambdas, w') ->
  length lambdas = length alpha.
Proof.
  unfold _sample_dirichlet.
  assert (H : forall acc w,
             length (fold_left
                       (fun '(samples, w) a =>
                          let '(s, w) := World.gamma a 1 w in (samples ++ [s], w))
                       alpha (acc, w)).1
             = (length acc + length alpha)%nat).
  { induction alpha as [|a alpha IH]; intros acc w0; cbn; [lia|].
    rewrite IH, length_app. cbn. lia. }
  specialize (H [] w). destruct (fold_left _ _ _) as [samples w1].
  case_bool_decide; [done|]. intros [= <- _]. by rewrite length_map.
Qed.

Lemma initialize_universes_spec self w self' w' :
  _initialize_universes self w = Some (self', w') ->
  universes_built self (Z.to_nat (universe_count self)) (self', w').
Proof.
  unfold _initialize_universes. intros H.
  rewrite <- (length_seqZ 0 (universe_count self)).
  eapply (for_each_inv (universes_built self)); [| |exact H]; [done|].
  intros k [s1 w1] i [s2 w2] _ (Hk & Hn & Hx & Hl & Hu & Hg & Hp). cbn.
  destruct (index _ _) as [lam|]; [|done]. cbn. intros [= <- <-].
  unfold universes_built in *. cbn in *. rewrite length_app. cbn.
  repeat split; try done. lia.
Qed.

Lemma initialize_universes_returns self w :
  length (lambdas self) = Z.to_nat (universe_count self) ->
  is_Some (_initialize_universes self w).
Proof.
  intros Hl. unfold _initialize_universes.
  apply (for_each_returns (fun sw => lambdas sw.1 = lambdas self)); [done|].
  intros [s1 w1] i Hin%seqZ_range Hs. cbn in *.
  destruct (index_in_range (lambdas s1) i) as [lam ->]; [rewrite Hs; lia|].
  cbn. eauto.
Qed.

Lemma spawn_spec self w self' w' :
  spawn self w = Some (self', w') ->
  nodes self' = nodes self ++ [next_loc self]
  /\ next_loc self' = S (next_loc self)
  /\ lambdas self' = lambdas self
  /\ universe_count self' = universe_count self
  /\ length (universes self') = length (universes self)
  /\ params self' = params self.
Proof.
  unfold spawn. cbn.
  destruct (World.randint _ _ _) as [[uid w1]|]; [|done]. cbn.
  destruct (index _ _) as [lam|]; [|done]. cbn.
  match goal with
  | |- context [join_universe ?l ?u ?s] =>
      destruct (join_universe l u s) as [s'|] eqn:Hj; [|done]
  end.
  cbn. intros [= <- _].
  by apply join_universe_shape in Hj as (-> & _ & -> & -> & -> & -> & ->).
Qed.

Lemma spawn_returns self w :
  (0 < universe_count self)%Z -> sized self -> is_Some (spawn self w).
Proof.
  intros Hu [Hl Hus]. unfold spawn. cbn.
  match goal with
  | |- context [World.randint 0 ?u ?w] =>
      destruct (randint_returns 0 u w Hu) as [[uid w1] Hr]
  end.
  rewrite Hr. cbn. apply randint_range in Hr.
  destruct (index_in_range (lambdas self) uid) as [lam ->]; [lia|]. cbn.
  match goal with
  | |- context [join_universe ?l ?u ?s] =>
      destruct (join_universe_returns l u s) as [s' ->]; [cbn; lia|]
  end.
  cbn. eauto.
Qed.

Lemma initialize_nodes_spec self w self' w' :
  _initialize_nodes self w = Some (self', w') ->
  nodes_built self (Z.to_nat (grid_size self)) (self', w').
Proof.
  unfold _initialize_nodes. intros H.
  rewrite <- (length_seqZ 0 (grid_size self)).
  eapply (for_each_inv (nodes_built self)); [| |exact H].
  - unfold nodes_built. cbn. repeat split. lia.
  - intros k [s1 w1] i [s2 w2] _ (Hn & Hx & Hl & Hu & Hus & Hp). cbn in *.
    intros (Hn' & Hx' & Hl' & Hu' & Hus' & Hp')%spawn_spec.
    unfold nodes_built. cbn [fst].
    rewrite Hn', Hx', Hl', Hu', Hus', Hp', Hn, Hx.
    split; [by rewrite seq_S|]. split; [lia|done].
Qed.

Lemma initialize_nodes_returns self w :
  (0 < universe_count self \/ grid_size self <= 0)%Z -> sized self ->
  is_Some (_initialize_nodes self w).
Proof.
  intros Hu Hs. unfold _initialize_nodes.
  apply (for_each_returns
           (fun sw => sized sw.1 /\ universe_count sw.1 = universe_count self)).
  - done.
  - intros [s1 w1] i Hin%seqZ_range [Hs1 Hu1]. cbn in *.
    destruct (spawn_returns s1 w1) as [[s2 w2] H2]; [lia|done|].
    exists (s2, w2). split; [exact H2|].
    apply spawn_spec in H2 as (_ & _ & Hl & Hu' & Hus & _).
    destruct Hs1 as [? ?]. unfold sized. cbn. rewrite Hl, Hu', Hus. done.
Qed.

(** The constructor of [lattice.py] leaves a well-formed lattice whose
    attention sums to one when it has a node. *)
Lemma init_total g u w self w' :
  __init__ g u w = Some (self, w') ->
  wf self
  /\ length (nodes self) = Z.to_nat g
  /\ params self = default_params
  /\ ((0 < g)%Z -> total_attention self = 1).
Proof.
  unfold __init__.
  destruct (_sample_dirichlet _ _) as [[lams w1]|]; [|done]. cbn.
  destruct (_initialize_universes _ _) as [[s2 w2]|] eqn:H2; [|done]. cbn.
  destruct (_initialize_nodes _ _) as [[s3 w3]|] eqn:H3; [|done]. cbn.
  intros [= <- _].
  apply initialize_universes_spec in H2 as (_ & _ & Hx2 & _ & _ & Hg2 & Hp2).
  apply initialize_nodes_spec in H3 as (Hn3 & Hx3 & _ & _ & _ & Hp3). cbn in *.
  rewrite Hx2 in Hn3, Hx3. rewrite Hg2 in Hn3, Hx3. cbn in Hn3, Hx3.
  destruct (normalize_shape s3) as (Hn & Hx & _ & _ & _ & Hp).
  assert (Hnd : NoDup (nodes s3)) by (rewrite Hn3; apply NoDup_seq).
  split; [|split; [|split]].
  - split; cbn; rewrite Hn; [done|]. rewrite Hx, Hn3, Hx3.
    intros l Hin%in_seq. lia.
  - cbn. by rewrite Hn, Hn3, length_seq.
  - cbn. change (params (_normalize_attention_field s3) = default_params).
    by rewrite Hp, Hp3, Hp2.
  - intros Hg. cbn.
    change (total_attention (_normalize_attention_field s3) = 1).
    apply normalize_total; [done|]. rewrite Hn3.
    destruct (Z.to_nat g) eqn:E; [lia|done].
Qed.

(** ... and it returns whenever the weights can be normalised and there is
    a universe to put the nodes in. *)
Lemma init_returns g u w :
  is_Some (_sample_dirichlet (replicate (Z.to_nat u) 1) w) ->
  (0 < u \/ g <= 0)%Z ->
  is_Some (__init__ g u w).
Proof.
  intros [[lams w1] Hs] Hu. unfold __init__. rewrite Hs. cbn.
  apply sample_length in Hs as Hlen. rewrite length_replicate in Hlen.
  set (s0 := ConsciousnessLattice.mk _ _ _ _ _ _ _ _ _ _ _ _ _).
  destruct (initialize_universes_returns s0 w1) as [[s2 w2] H2]; [done|].
  rewrite H2. cbn.
  apply initialize_universes_spec in H2 as (Hk & _ & _ & Hl & Hc & Hg & _).
  cbn in Hk, Hl, Hc, Hg.
  destruct (initialize_nodes_returns s2 w2) as [[s3 w3] H3].
  { by rewrite Hc, Hg. }
  { split; by rewrite ?Hl, ?Hk, Hc. }
  rewrite H3. cbn. eauto.
Qed.

(** [add_node] of the demo adds the raw density of the new node to the
    sum, whatever the sum was. *)
Lemma demo_add_node_total x y w self l self' w' :
  wf self -> Demo.Lattice.add_node x y w self = Some (l, self', w') ->
  total_attention self'
  = total_attention self + exp (- (x ^ 2 + y ^ 2) / (2 * 200 ^ 2)).
Proof.
  intros [Hnd Hlt]. unfold Demo.Lattice.add_node.
  destruct (World.randint _ _ _) as [[uid w1]|]; [|done]. cbn.
  destruct (index _ _) as [lam|]; [|done]. cbn.
  match goal with
  | |- context [join_universe ?l ?u ?s] =>
      destruct (join_universe l u s) as [s'|] eqn:Hj; [|done]
  end.
  cbn. intros [= <- <- <-].
  apply join_universe_shape in Hj as (Hn & Hh & _). cbn in Hn, Hh.
  unfold total_attention. rewrite Hn, Hh, map_app, sum_app. cbn [map].
  rewrite heap_set_eq, sum_cons. unfold sum at 2. cbn [fold_left].
  f_equal.
  - f_equal. apply map_ext_in. intros l' Hin. rewrite heap_set_ne; [done|].
    apply Hlt in Hin. lia.
  - unfold weigh, calculate_attention_density. cbn. lra.
Qed.

(** C1.  In [lattice_demo.py] the sum is lost: [add_node(0, 0)] on a
    lattice whose single node carries the whole attention returns a lattice
    of two nodes whose attention sums to 2; so it is after every
    [add_node] of the demo ([demo_add_node_total]).  ([lattice.py]
    restores the sum: [add_node_total], [remove_node_total],
    [init_total].) *)
Theorem demo_add_node_leaves_field_unnormalised :
  total_attention lone_lattice = 1
  /\ match Demo.Lattice.add_node 0 0 still_world lone_lattice with
     | Some (_, self, _) =>
         nodes self = [0%nat; 1%nat] /\ total_attention self = 2
     | None => False
     end.
Proof.
  split.
  - unfold total_attention, sum. cbn. rewrite heap_set_eq. cbn. lra.
  - cbn -[exp pow heap_set]. split; [done|].
    unfold total_attention, sum. cbn -[exp pow].
    rewrite heap_set_eq, heap_set_ne, heap_set_eq by done.
    unfold weigh, calculate_attention_density. cbn -[exp pow].
    replace (- (0 ^ 2 + 0 ^ 2) / (2 * 200 ^ 2)) with 0 by lra.
    rewrite exp_0. lra.
Qed.

(** ** Repulsion *)

Lemma repel_kick params dt node other rep :
  repel params dt node other rep
  = (rep.1 + (kick params dt node other).1,
     rep.2 + (kick params dt node other).2).
Proof.
  destruct rep as [rx ry]. unfold kick, repel.
  case_decide; cbn [fst snd]; f_equal; lra.
Qed.

Section Forces.

Variables (params : Params) (delta_time : R) (h : Heap).

Lemma repulsion_fold (i : nat) (node : loc) (k : nat) (ls : list loc)
    (acc : R * R) :
  (forall j l, In (j, l) (enumerate_from k ls) -> i = j <-> l = node) ->
  fold_left
    (fun repulsion '(j, other_node) =>
       if decide (i = j) then repulsion
       else repel params delta_time (h node) (h other_node) repulsion)
    (enumerate_from k ls) acc
  = (acc.1 + sum (map (fun l => (kick params delta_time (h node) (h l)).1)
                    (others ls node)),
     acc.2 + sum (map (fun l => (kick params delta_time (h node) (h l)).2)
                    (others ls node))).
Proof.
  revert k acc. induction ls as [|a ls IH]; intros k acc Hidx.
  - destruct acc as [rx ry]. cbn. f_equal; unfold sum; cbn; lra.
  - cbn [enumerate_from fold_left]. unfold others. rewrite filter_cons.
    pose proof (Hidx k a (or_introl eq_refl)) as Ha.
    rewrite IH by (intros j l Hin; apply Hidx; by right).
    fold (others ls node).
    case_decide as Hik; case_decide as Han; try tauto.
    rewrite repel_kick. cbn [map fst snd]. rewrite !sum_cons.
    f_equal; lra.
Qed.

Lemma repulsion_on_sum (nodes : list loc) (i : nat) (node : loc) :
  NoDup nodes -> nodes !! i = Some node ->
  repulsion_on params delta_time h nodes i node
  = (sum (map (fun l => (kick params delta_time (h node) (h l)).1)
            (others nodes node)),
     sum (map (fun l => (kick params delta_time (h node) (h l)).2)
            (others nodes node))).
Proof.
  intros Hnd Hi. unfold repulsion_on, enumerate.
  rewrite repulsion_fold.
  - cbn [fst snd]. by rewrite !Rplus_0_l.
  - intros j l [_ Hj]%enumerate_from_elem. rewrite Nat.sub_0_r in Hj.
    split; [intros <-; congruence|intros ->].
    by eapply NoDup_lookup.
Qed.

Lemma compute_forces_lookup (nodes : list loc) (i : nat) (node : loc) :
  nodes !! i = Some node ->
  compute_forces params delta_time h nodes !! i
  = Some (repulsion_on params delta_time h nodes i node).
Proof.
  intros Hi. unfold compute_forces, enumerate.
  rewrite list_lookup_fmap, enumerate_from_lookup, Hi. done.
Qed.

(** The force accumulated for an entity does not depend on the order in
    which the collection lists the entities. *)
Lemma forces_order_free (nodes nodes' : list loc) (i j : nat) (node : loc) :
  NoDup nodes -> nodes ≡ₚ nodes' ->
  nodes !! i = Some node -> nodes' !! j = Some node ->
  compute_forces params delta_time h nodes !! i
  = compute_forces params delta_time h nodes' !! j.
Proof.
  intros Hnd Hp Hi Hj.
  assert (Hnd' : NoDup nodes') by (by rewrite <- Hp).
  rewrite (compute_forces_lookup _ _ _ Hi), (compute_forces_lookup _ _ _ Hj).
  rewrite !repulsion_on_sum by done.
  assert (Ho : others nodes node ≡ₚ others nodes' node)
    by (unfold others; by rewrite Hp).
  do 2 f_equal; apply sum_Permutation, Permutation_map, Ho.
Qed.

End Forces.

(** The contribution of a neighbour on the same horizontal line. *)
Lemma kick_east params dt node other :
  y other = y node ->
  let d := x other - x node in
  let m := radius node + radius other + 10 in
  0 < d < m ->
  kick params dt node other
  = (- ((m - d) / m * (0.5 * dt * 60 * getitem params "elasticity")), 0).
Proof.
  intros Hy d m Hd. unfold kick, repel. rewrite Hy.
  replace (sqrt ((x other - x node) ^ 2 + (y node - y node) ^ 2)) with d
    by (symmetry; apply sqrt_lem_1; subst d; nra).
  fold d m. rewrite decide_True by lra.
  replace (y node - y node) with 0 by lra.
  rewrite arctan2_east by lra. rewrite cos_0, sin_0. cbn [fst snd].
  f_equal; lra.
Qed.

Lemma kick_west params dt node other :
  y other = y node ->
  let d := x node - x other in
  let m := radius node + radius other + 10 in
  0 < d < m ->
  kick params dt node other
  = ((m - d) / m * (0.5 * dt * 60 * getitem params "elasticity"), 0).
Proof.
  intros Hy d m Hd. unfold kick, repel. rewrite Hy.
  replace (sqrt ((x other - x node) ^ 2 + (y node - y node) ^ 2)) with d
    by (symmetry; apply sqrt_lem_1; subst d; nra).
  fold m. rewrite decide_True by lra.
  replace (y node - y node) with 0 by lra.
  rewrite arctan2_west by (subst d; lra). rewrite cos_PI, sin_PI. cbn [fst snd].
  f_equal; lra.
Qed.

(** [west], once pushed and updated by the demo, has moved and grown. *)
Lemma west_moves w :
  let n :=
    (Demo.Node.update default_params (1 / 60) None w
       (set_vy (vy west + 0) (set_vx (vx west + -0.15) west))).1 in
  x n = -5.15 /\ y n = 0 /\ radius n = 5.
Proof.
  unfold Demo.Node.update, Demo.Node._apply_physics, integrate.
  change (get default_params "gravity" 0) with 1.
  change (getitem default_params "gravity") with 1.
  change (get default_params "time_dilation" 1) with 1.
  rewrite decide_True by lra.
  cbn -[sqrt pow Py.float_pow Py.float_mod get getitem decide cos sin
        Demo.Node.bound_x Demo.Node.bound_y _update_intelligence_tensors].
  replace (sqrt ((0 - -5) ^ 2 + (0 - 0) ^ 2)) with 5
    by (symmetry; apply sqrt_lem_1; lra).
  rewrite decide_False by lra.
  cbn -[sqrt pow Py.float_pow Py.float_mod get getitem decide cos sin
        Demo.Node.bound_x Demo.Node.bound_y _update_intelligence_tensors].
  unfold Demo.Node.bound_x, world_bounds_x.
  cbn -[sqrt pow Py.float_pow Py.float_mod get getitem decide cos sin
        Demo.Node.bound_y _update_intelligence_tensors].
  rewrite decide_False by (intros [?|?]; lra).
  unfold Demo.Node.bound_y, world_bounds_y.
  cbn -[sqrt pow Py.float_pow Py.float_mod get getitem decide cos sin
        _update_intelligence_tensors].
  rewrite decide_False by (intros [?|?]; lra).
  cbn -[sqrt pow Py.float_pow Py.float_mod get getitem cos sin].
  split; [lra|]. split; [lra|].
  rewrite cos_0, sin_0.
  replace (sqrt ((0.5 * 40 * 1) ^ 2 + (0.5 * 40 * 0) ^ 2)) with 20
    by (symmetry; apply sqrt_lem_1; lra).
  lra.
Qed.

Lemma pair_heap_0 : pair_heap 0%nat = west.
Proof. unfold pair_heap. by rewrite heap_set_ne, heap_set_eq. Qed.

Lemma pair_heap_1 : pair_heap 1%nat = east.
Proof. unfold pair_heap. by rewrite heap_set_eq. Qed.

(** C5.  In [lattice_demo.py] the force on a node depends on the order of
    the collection: with [west] listed first, [east] is repelled from the
    place [west] has already moved to and from its new radius, by
    157/900; with [east] listed first, by 0.15.  [compute_forces] of
    [lattice.py] gives 0.15 in both orders ([forces_order_free]). *)
Theorem demo_forces_depend_on_order :
  (Demo.Lattice.interactions (1 / 60) None still_world
     (pair_lattice [0%nat; 1%nat])).1.1 !! 1%nat = Some (157 / 900, 0)
  /\ (Demo.Lattice.interactions (1 / 60) None still_world
        (pair_lattice [1%nat; 0%nat])).1.1 !! 0%nat = Some (0.15, 0)
  /\ compute_forces default_params (1 / 60) pair_heap [0%nat; 1%nat] !! 1%nat
     = Some (0.15, 0)
  /\ compute_forces default_params (1 / 60) pair_heap [1%nat; 0%nat] !! 0%nat
     = Some (0.15, 0).
Proof.
  assert (Hwe : kick default_params (1 / 60) west east = (-0.15, 0)).
  { rewrite kick_east; [|done|cbn; lra].
    rewrite default_elasticity_item. cbn. f_equal; lra. }
  assert (Hew : kick default_params (1 / 60) east west = (0.15, 0)).
  { rewrite kick_west; [|done|cbn; lra].
    rewrite default_elasticity_item. cbn. f_equal; lra. }
  assert (H01 : NoDup [0%nat; 1%nat])
    by (apply NoDup_cons; split;
        [by intros ?%list_elem_of_singleton|apply NoDup_singleton]).
  assert (H10 : NoDup [1%nat; 0%nat])
    by (apply NoDup_cons; split;
        [by intros ?%list_elem_of_singleton|apply NoDup_singleton]).
  split; [|split; [|split]].
  - unfold Demo.Lattice.interactions, Demo.Lattice.step_node, repulsion_on,
      enumerate.
    cbn [pair_lattice nodes params heap enumerate_from fold_left].
    repeat (case_decide; try lia).
    rewrite pair_heap_0, pair_heap_1.
    change (repel default_params (1 / 60) west east (0, 0))
      with (kick default_params (1 / 60) west east).
    rewrite Hwe. cbn [fst snd].
    pose proof (west_moves still_world) as Hm. cbn zeta in Hm.
    destruct (Demo.Node.update _ _ _ _ _) as [n w] eqn:Hn.
    cbn [fst] in Hm. destruct Hm as (Hx & Hy & Hr). clear Hn.
    rewrite !heap_set_eq, !heap_set_ne by done. rewrite pair_heap_1.
    change (repel default_params (1 / 60) east n (0, 0))
      with (kick default_params (1 / 60) east n).
    rewrite kick_west; [|by rewrite Hy|rewrite Hx, Hr; cbn; lra].
    rewrite Hx, Hr, default_elasticity_item.
    destruct (Demo.Node.update _ _ _ _ _) as [n' w'].
    cbn. do 2 f_equal. lra.
  - unfold Demo.Lattice.interactions, Demo.Lattice.step_node, repulsion_on,
      enumerate.
    cbn [pair_lattice nodes params heap enumerate_from fold_left].
    repeat (case_decide; try lia).
    rewrite pair_heap_0, pair_heap_1.
    change (repel default_params (1 / 60) east west (0, 0))
      with (kick default_params (1 / 60) east west).
    rewrite Hew.
    destruct (Demo.Node.update _ _ _ _ _) as [n w].
    destruct (Demo.Node.update _ _ _ _ _) as [n' w'].
    done.
  - rewrite (compute_forces_lookup _ _ _ _ _ 1%nat) by done.
    rewrite repulsion_on_sum by done.
    unfold others. rewrite filter_cons_True by done.
    rewrite filter_cons_False by (intros H; by apply H). rewrite filter_nil.
    cbn [map]. rewrite pair_heap_0, pair_heap_1, Hew.
    unfold sum. cbn. do 2 f_equal; lra.
  - rewrite (compute_forces_lookup _ _ _ _ _ 1%nat) by done.
    rewrite repulsion_on_sum by done.
    unfold others. rewrite filter_cons_False by (intros H; by apply H).
    rewrite filter_cons_True by done. rewrite filter_nil.
    cbn [map]. rewrite pair_heap_0, pair_heap_1, Hew.
    unfold sum. cbn. do 2 f_equal; lra.
Qed.

(** ** Zero distance, and tunnelling in the demo *)

Lemma collapse_on_entity n :
  let n' := collapse_node (x n) (y n) n in
  vx n' = vx n /\ vy n' = vy n
  /\ consciousness_re n' = 0 /\ consciousness_im n' = 0
  /\ phase n' = Py.float_mod (phase n + PI) (2 * PI).
Proof.
  unfold collapse_node.
  replace (sqrt ((x n - x n) ^ 2 + (y n - y n) ^ 2)) with 0
    by (symmetry; apply sqrt_lem_1; lra).
  rewrite decide_True by lra. rewrite decide_False by lra. done.
Qed.

(** C8.  A pointer exactly on a node still pushes it: with the default
    parameters and a time step of 1/60 the node at the origin, at rest,
    leaves [_apply_mouse_interaction] with [vx = -0.4], the push along the
    angle [arctan2(0, 0) = 0].  (The collapse does skip the push at zero
    distance: [collapse_on_entity].) *)
Theorem pointer_on_entity_still_pushes (w : World.t) :
  let n' :=
    (_apply_mouse_interaction default_params (pointer_on 0 0 "push")
       (1 / 60) w lone_node).1 in
  x lone_node = 0 /\ y lone_node = 0 /\ vx lone_node = 0
  /\ vx n' = -0.4 /\ vy n' = 0.
Proof.
  cbn -[sqrt pow cos sin Py.arctan2 get].
  rewrite default_field_strength.
  replace (0 - 0) with 0 by lra.
  replace (0 ^ 2 + 0 ^ 2) with 0 by lra. rewrite sqrt_0.
  rewrite decide_True by lra.
  cbn -[cos sin Py.arctan2]. rewrite arctan2_origin, cos_0, sin_0.
  repeat split; lra.
Qed.

(** Tunnelling at the x boundary in the demo: the velocity is kept. *)
Lemma demo_bound_x_tunnels params w n :
  x n > 500 -> World.floats w (World.drawn w) < 0.05 ->
  let n' := (Demo.Node.bound_x params w n).1 in
  x n' = -500 /\ vx n' = vx n.
Proof.
  intros Hx Hr. unfold Demo.Node.bound_x, world_bounds_x.
  rewrite decide_True by (right; lra). cbn.
  rewrite decide_True by done. cbn. split; [|done].
  rewrite decide_False by lra. lra.
Qed.

(** C7.  In [lattice_demo.py] a tunnelling node keeps its velocity: the
    node leaves the right-hand boundary at [x = 500.999], tunnels to
    [x = -500] and keeps [vx = 1.97901] instead of [vx * -0.5].
    ([lattice.py] scales it: [bound_x_tunnels], [bound_x_reflects].) *)
Theorem demo_tunnelling_keeps_velocity :
  let n' :=
    (Demo.Node._apply_physics default_params (1 / 60) tunnelling_world
       runaway_node).1 in
  x n' = -500 /\ vx n' = 1.97901 /\ vx n' <> 1.97901 * -0.5.
Proof.
  unfold Demo.Node._apply_physics, integrate.
  change (get default_params "gravity" 0) with 1.
  change (getitem default_params "gravity") with 1.
  rewrite decide_True by lra.
  cbn -[sqrt pow Py.float_pow get getitem decide].
  replace (sqrt ((0 - 499) ^ 2 + (0 - 0) ^ 2)) with 499
    by (symmetry; apply sqrt_lem_1; lra).
  rewrite decide_True by lra.
  cbn -[sqrt pow Py.float_pow get getitem decide].
  rewrite default_friction.
  replace (1 / 60 * 60) with 1 by lra.
  unfold Py.float_pow. rewrite decide_True by lra. rewrite Rpower_1 by lra.
  unfold Demo.Node.bound_x, Demo.Node.bound_y, world_bounds_x, world_bounds_y.
  cbn -[decide getitem].
  rewrite decide_True by (right; cbn; lra).
  rewrite decide_True by lra.
  rewrite (decide_False (P := _ < - _ / _)) by (cbn; lra).
  cbn -[decide].
  rewrite decide_False by (intros [?|?]; lra).
  cbn. repeat split; lra.
Qed.

(** * Further properties of the engine *)

(** ** Angles *)

Lemma hypot_pos (x y : R) : x <> 0 \/ y <> 0 -> 0 < sqrt (x ^ 2 + y ^ 2).
Proof. intros H. apply sqrt_lt_R0. destruct H; nra. Qed.

Lemma hypot_sq (x y : R) : sqrt (x ^ 2 + y ^ 2) * sqrt (x ^ 2 + y ^ 2) = x ^ 2 + y ^ 2.
Proof. apply sqrt_sqrt. nra. Qed.

Lemma slope_norm (x y : R) :
  x <> 0 -> sqrt (1 + (y / x)²) = sqrt (x ^ 2 + y ^ 2) / Rabs x.
Proof.
  intros Hx. assert (Ha : 0 < Rabs x) by (by apply Rabs_pos_lt).
  pose proof (hypot_pos x y (or_introl Hx)) as Hh.
  pose proof (hypot_sq x y) as Hs.
  apply sqrt_lem_1.
  - unfold Rsqr. nra.
  - apply Rlt_le, Rdiv_lt_0_compat; done.
  - unfold Rsqr.
    replace (sqrt (x ^ 2 + y ^ 2) / Rabs x * (sqrt (x ^ 2 + y ^ 2) / Rabs x))
      with ((sqrt (x ^ 2 + y ^ 2) * sqrt (x ^ 2 + y ^ 2)) / (Rabs x * Rabs x))
      by (field; lra).
    rewrite Hs.
    replace (Rabs x * Rabs x) with (x * x)
      by (unfold Rabs; destruct (Rcase_abs x); lra).
    field. done.
Qed.

(** The direction of [arctan2(y, x)] is that of [(x, y)]. *)
Lemma cos_arctan2 (y x : R) :
  x <> 0 \/ y <> 0 -> cos (Py.arctan2 y x) = x / sqrt (x ^ 2 + y ^ 2).
Proof.
  intros H. pose proof (hypot_pos x y H) as Hh. unfold Py.arctan2.
  repeat case_decide.
  - rewrite cos_atan, slope_norm by lra. rewrite Rabs_right by lra.
    field. split; lra.
  - rewrite neg_cos, cos_atan, slope_norm by lra. rewrite Rabs_left by lra.
    field. split; lra.
  - replace (atan (y / x) - PI) with (- (- atan (y / x) + PI)) by lra.
    rewrite cos_neg, neg_cos, cos_neg, cos_atan, slope_norm by lra.
    rewrite Rabs_left by lra. field. split; lra.
  - replace x with 0 by lra. rewrite cos_PI2. lra.
  - replace x with 0 by lra. rewrite cos_neg, cos_PI2. lra.
  - lra.
Qed.

Lemma sin_arctan2 (y x : R) :
  x <> 0 \/ y <> 0 -> sin (Py.arctan2 y x) = y / sqrt (x ^ 2 + y ^ 2).
Proof.
  intros H. pose proof (hypot_pos x y H) as Hh. unfold Py.arctan2.
  repeat case_decide.
  - rewrite sin_atan, slope_norm by lra. rewrite Rabs_right by lra.
    field. split; lra.
  - rewrite neg_sin, sin_atan, slope_norm by lra. rewrite Rabs_left by lra.
    field. split; lra.
  - replace (atan (y / x) - PI) with (- (- atan (y / x) + PI)) by lra.
    rewrite sin_neg, neg_sin, sin_neg, sin_atan, slope_norm by lra.
    rewrite Rabs_left by lra. field. split; lra.
  - replace x with 0 by lra. rewrite sin_PI2.
    replace (0 ^ 2 + y ^ 2) with (y ^ 2) by lra.
    rewrite sqrt_pow2 by lra. field. lra.
  - replace x with 0 by lra. rewrite sin_neg, sin_PI2.
    replace (0 ^ 2 + y ^ 2) with ((- y) ^ 2) by lra.
    rewrite sqrt_pow2 by lra. field. lra.
  - lra.
Qed.

(** ** Repulsion is radial and mutual *)

Lemma default_configured : configured default_params.
Proof. unfold configured. by rewrite dom_default_params. Qed.

Lemma hypot_swap (a b c d : R) :
  sqrt ((a - b) ^ 2 + (c - d) ^ 2) = sqrt ((b - a) ^ 2 + (d - c) ^ 2).
Proof. f_equal. lra. Qed.

Lemma kick_radial params dt node other :
  let dx := x other - x node in
  let dy := y other - y node in
  let d := sqrt (dx ^ 2 + dy ^ 2) in
  let m := radius node + radius other + 10 in
  let k := (m - d) / m * (0.5 * dt * 60 * getitem params "elasticity") in
  kick params dt node other
  = if decide (d < m /\ d > 0) then (- (k * (dx / d)), - (k * (dy / d)))
    else (0, 0).
Proof.
  intros dx dy d m k. unfold kick, repel. fold dx dy d m.
  case_decide as Hd; [|done].
  assert (Hne : dx <> 0 \/ dy <> 0).
  { destruct (Req_dec dx 0) as [Hx|]; [|by left].
    destruct (Req_dec dy 0) as [Hy|]; [|by right].
    exfalso. subst d. rewrite Hx, Hy in Hd.
    replace (0 ^ 2 + 0 ^ 2) with 0 in Hd by lra. rewrite sqrt_0 in Hd. lra. }
  rewrite (cos_arctan2 dy dx Hne), (sin_arctan2 dy dx Hne). fold d.
  cbn [fst snd]. subst k. f_equal; field; lra.
Qed.

Lemma kick_opposite params dt a b :
  kick params dt a b
  = (- (kick params dt b a).1, - (kick params dt b a).2).
Proof.
  rewrite (kick_radial params dt a b), (kick_radial params dt b a). cbn zeta.
  rewrite (hypot_swap (x a) (x b) (y a) (y b)).
  replace (radius b + radius a + 10) with (radius a + radius b + 10) by lra.
  case_decide as Hd; cbn [fst snd]; [|f_equal; lra].
  f_equal; field; lra.
Qed.

(** X1.  The repulsion that one node receives from another acts along the
    line that joins them, with strength
    [(m - d) / m * 0.5 * dt * 60 * elasticity] when their distance [d] is
    positive and below [m = radius + radius + 10], and is zero otherwise;
    what the other node receives from the first is the opposite. *)
Theorem repulsion_is_radial_and_mutual params dt node other :
  configured params ->
  let dx := x other - x node in
  let dy := y other - y node in
  let d := sqrt (dx ^ 2 + dy ^ 2) in
  let m := radius node + radius other + 10 in
  let k := (m - d) / m * (0.5 * dt * 60 * getitem params "elasticity") in
  kick params dt node other
  = (if decide (d < m /\ d > 0) then (- (k * (dx / d)), - (k * (dy / d)))
     else (0, 0))
  /\ kick params dt other node
     = (- (kick params dt node other).1, - (kick params dt node other).2).
Proof.
  intros _. cbn zeta. split; [apply kick_radial|apply kick_opposite].
Qed.

(** The two nodes of [pair_lattice] push each other with opposite forces. *)
Lemma repulsion_witness :
  configured default_params
  /\ kick default_params 0.016 east west
     = (- (kick default_params 0.016 west east).1,
        - (kick default_params 0.016 west east).2).
Proof.
  split; [exact default_configured|].
  exact (proj2 (repulsion_is_radial_and_mutual default_params 0.016 west east
                  default_configured)).
Defined.

(** ** The forces of one frame cancel out *)

Lemma others_cons (a : loc) (ls : list loc) (b : loc) :
  others (a :: ls) b = if decide (a <> b) then a :: others ls b else others ls b.
Proof. unfold others. by rewrite filter_cons. Qed.

Lemma others_absent (ls : list loc) (b : loc) : ~ In b ls -> others ls b = ls.
Proof.
  induction ls as [|a ls IH]; intros Hb; [done|].
  rewrite others_cons, decide_True.
  - rewrite IH; [done|]. intros Hin. apply Hb. by right.
  - intros ->. apply Hb. by left.
Qed.

Lemma sum_map_plus {A : Type} (f g : A -> R) (l : list A) :
  sum (map (fun a => f a + g a) l) = sum (map f l) + sum (map g l).
Proof.
  induction l as [|a l IH]; cbn [map].
  - unfold sum. cbn. lra.
  - rewrite !sum_cons, IH. lra.
Qed.

Lemma sum_map_zero {A : Type} (f : A -> R) (l : list A) :
  (forall a, f a = 0) -> sum (map f l) = 0.
Proof.
  intros Hf. induction l as [|a l IH]; cbn [map].
  - unfold sum. cbn. lra.
  - rewrite sum_cons, IH, Hf. lra.
Qed.

(** The sum over all ordered pairs of distinct nodes of an antisymmetric
    quantity. *)
Lemma pairs_cancel (k : loc -> loc -> R) (ls : list loc) :
  List.NoDup ls -> (forall a b, k a b = - k b a) ->
  sum (map (fun a => sum (map (k a) (others ls a))) ls) = 0.
Proof.
  intros Hnd Hk. induction Hnd as [|a ls Ha Hnd IH]; [by unfold sum|].
  cbn [map]. rewrite sum_cons, others_cons, decide_False by tauto.
  rewrite (others_absent ls a Ha).
  rewrite (map_ext_in (fun b => sum (map (k b) (others (a :: ls) b)))
             (fun b => k b a + sum (map (k b) (others ls b)))).
  2:{ intros b Hb. rewrite others_cons, decide_True.
      - cbn [map]. by rewrite sum_cons.
      - intros ->. done. }
  rewrite sum_map_plus, IH.
  rewrite <- Rplus_assoc, <- sum_map_plus.
  rewrite sum_map_zero; [lra|]. intros b. rewrite (Hk a b). lra.
Qed.

Lemma enumerate_from_map {A B : Type} (f : nat * A -> B) (k : nat) (l : list A)
    (g : A -> B) :
  (forall j a, l !! j = Some a -> f ((k + j)%nat, a) = g a) ->
  map f (enumerate_from k l) = map g l.
Proof.
  revert k. induction l as [|a l IH]; intros k Hf; [done|].
  cbn. f_equal.
  - rewrite <- (Hf 0%nat a eq_refl). by rewrite Nat.add_0_r.
  - apply IH. intros j b Hj. rewrite <- (Hf (S j) b Hj). f_equal. f_equal. lia.
Qed.

Lemma compute_forces_map params dt h (nodes : list loc) :
  NoDup nodes ->
  compute_forces params dt h nodes
  = map (fun node =>
           (sum (map (fun l => (kick params dt (h node) (h l)).1)
                   (others nodes node)),
            sum (map (fun l => (kick params dt (h node) (h l)).2)
                   (others nodes node)))) nodes.
Proof.
  intros Hnd. unfold compute_forces, enumerate.
  apply enumerate_from_map. intros j a Hj. cbn.
  by apply repulsion_on_sum.
Qed.

(** X2.  The list [forces] that the first loop of
    [_update_nodes_with_interactions] builds has one entry per node, and
    its entries cancel out, for a collection of distinct nodes. *)
Theorem forces_cancel_out params dt h (nodes : list loc) :
  configured params -> NoDup nodes ->
  length (compute_forces params dt h nodes) = length nodes
  /\ sum (map fst (compute_forces params dt h nodes)) = 0
  /\ sum (map snd (compute_forces params dt h nodes)) = 0.
Proof.
  intros _ Hnd. rewrite compute_forces_map by done.
  rewrite length_map, !map_map. cbn [fst snd].
  apply NoDup_ListNoDup in Hnd.
  split; [done|]. split.
  - apply (pairs_cancel (fun a b => (kick params dt (h a) (h b)).1)); [done|].
    intros a b. by rewrite (kick_opposite params dt (h a) (h b)).
  - apply (pairs_cancel (fun a b => (kick params dt (h a) (h b)).2)); [done|].
    intros a b. by rewrite (kick_opposite params dt (h a) (h b)).
Qed.

(** The forces on the two nodes of [pair_lattice] add up to zero. *)
Lemma forces_cancel_out_witness :
  configured default_params /\ NoDup [0%nat; 1%nat]
  /\ sum (map fst (compute_forces default_params 0.016 pair_heap
                     [0%nat; 1%nat])) = 0.
Proof.
  assert (Hnd : NoDup [0%nat; 1%nat]).
  { apply NoDup_ListNoDup. repeat constructor; cbn; intuition lia. }
  split; [exact default_configured|]. split; [exact Hnd|].
  exact (proj1 (proj2 (forces_cancel_out default_params 0.016 pair_heap
                         [0%nat; 1%nat] default_configured Hnd))).
Defined.

(** ** The world bounds *)

Lemma clip_in (v lo hi : R) : lo <= hi -> lo <= Py.clip v lo hi <= hi.
Proof.
  intros H. unfold Py.clip, Rmin, Rmax.
  repeat destruct (Rle_dec _ _); lra.
Qed.

Lemma clamp_is_clip (v lo hi : R) :
  lo <= hi -> Rmax lo (Rmin hi v) = Py.clip v lo hi.
Proof.
  intros H. unfold Py.clip, Rmin, Rmax.
  repeat destruct (Rle_dec _ _); lra.
Qed.

Lemma bound_x_in params w n : -500 <= x (bound_x params w n).1 <= 500.
Proof.
  unfold bound_x, world_bounds_x.
  case_decide as Hout; [|cbn; lra].
  destruct (World.random w) as [r w1]. case_decide.
  - cbn. case_decide; lra.
  - cbn. pose proof (clip_in (x n) (- (1000) / 2) (1000 / 2) ltac:(lra)). lra.
Qed.

Lemma bound_x_keeps_y params w n : y (bound_x params w n).1 = y n.
Proof. unfold bound_x. node_cases. Qed.

Lemma bound_y_in params w n : -500 <= y (bound_y params w n).1 <= 500.
Proof.
  unfold bound_y, world_bounds_y.
  case_decide as Hout; [|cbn; lra].
  destruct (World.random w) as [r w1]. case_decide.
  - cbn. case_decide; lra.
  - cbn. pose proof (clip_in (y n) (- (1000) / 2) (1000 / 2) ltac:(lra)). lra.
Qed.

Lemma physics_in_world params dt w n :
  in_world (_apply_physics params dt w n).1.
Proof.
  unfold _apply_physics. generalize (integrate params dt n). intros n1.
  pose proof (bound_x_in params w n1) as Hx.
  destruct (bound_x params w n1) as [n2 w2]. cbn in Hx.
  pose proof (bound_y_in params w2 n2) as Hy.
  destruct (bound_y_keeps_x params w2 n2) as [Hk _].
  split; [by rewrite Hk|done].
Qed.

Lemma demo_bound_x_in params w n :
  -500 <= x (Demo.Node.bound_x params w n).1 <= 500.
Proof.
  unfold Demo.Node.bound_x, world_bounds_x.
  case_decide as Hout; [|cbn; lra].
  destruct (World.random w) as [r w1]. case_decide.
  - cbn. case_decide; lra.
  - cbn. rewrite clamp_is_clip by lra.
    pose proof (clip_in (x n) (- (1000) / 2) (1000 / 2) ltac:(lra)). lra.
Qed.

Lemma demo_bound_y_in params w n :
  -500 <= y (Demo.Node.bound_y params w n).1 <= 500.
Proof.
  unfold Demo.Node.bound_y, world_bounds_y.
  case_decide as Hout; [|cbn; lra].
  destruct (World.random w) as [r w1]. case_decide.
  - cbn. case_decide; lra.
  - cbn. rewrite clamp_is_clip by lra.
    pose proof (clip_in (y n) (- (1000) / 2) (1000 / 2) ltac:(lra)). lra.
Qed.

Lemma demo_bound_y_keeps_x params w n :
  x (Demo.Node.bound_y params w n).1 = x n.
Proof. unfold Demo.Node.bound_y. node_cases. Qed.

Lemma demo_physics_in_world params dt w n :
  in_world (Demo.Node._apply_physics params dt w n).1.
Proof.
  unfold Demo.Node._apply_physics. generalize (integrate params dt n). intros n1.
  pose proof (demo_bound_x_in params w n1) as Hx.
  destruct (Demo.Node.bound_x params w n1) as [n2 w2]. cbn in Hx.
  pose proof (demo_bound_y_in params w2 n2) as Hy.
  pose proof (demo_bound_y_keeps_x params w2 n2) as Hk.
  split; [by rewrite Hk|done].
Qed.

(** What follows the physics in [update] keeps the position. *)
Lemma finish_position params dt n :
  x (resize (_update_intelligence_tensors params dt n)) = x n
  /\ y (resize (_update_intelligence_tensors params dt n)) = y n.
Proof. done. Qed.

Lemma update_in_world params dt mouse_influence w n :
  in_world (ConsciousnessNode.update params dt mouse_influence w n).1
  /\ in_world (Demo.Node.update params dt mouse_influence w n).1.
Proof.
  unfold ConsciousnessNode.update, Demo.Node.update.
  set (dt' := dt * _). generalize (oscillate dt' n). intros n1.
  set (nw := match mouse_influence with Some _ => _ | None => _ end).
  destruct nw as [n2 w2]. split.
  - pose proof (physics_in_world params dt' w2 n2) as H.
    destruct (_apply_physics params dt' w2 n2) as [n3 w3]. exact H.
  - pose proof (demo_physics_in_world params dt' w2 n2) as H.
    destruct (Demo.Node._apply_physics params dt' w2 n2) as [n3 w3]. exact H.
Qed.

(** X3.  Whatever the node, the parameters, the time step, the pointer and
    the random draws, a node is inside the world after [update], in the
    engine and in the demo: [-500 <= x <= 500] and [-500 <= y <= 500]. *)
Theorem node_update_stays_in_world params dt mouse_influence w n :
  in_world (ConsciousnessNode.update params dt mouse_influence w n).1
  /\ in_world (Demo.Node.update params dt mouse_influence w n).1.
Proof. apply update_in_world. Qed.

(** ** What a frame leaves alone *)

Lemma physics_field {A : Type} (field : Node -> A) params :
  (forall v n, field (set_x v n) = field n) ->
  (forall v n, field (set_y v n) = field n) ->
  (forall v n, field (set_vx v n) = field n) ->
  (forall v n, field (set_vy v n) = field n) ->
  forall dt w n, field (_apply_physics params dt w n).1 = field n.
Proof.
  intros Hx Hy Hvx Hvy dt w n. unfold _apply_physics.
  assert (H1 : field (integrate params dt n) = field n).
  { unfold integrate. rewrite Hvy, Hvx, Hy, Hx.
    repeat case_decide; by rewrite ?Hvy, ?Hvx. }
  rewrite <- H1. generalize (integrate params dt n). intros n1.
  assert (H2 : field (bound_x params w n1).1 = field n1).
  { unfold bound_x. case_decide; [|done].
    destruct (World.random w) as [r w1].
    case_decide; cbn [fst]; by rewrite ?Hvx, ?Hx. }
  destruct (bound_x params w n1) as [n2 w2]. cbn [fst] in H2. rewrite <- H2.
  unfold bound_y. case_decide; [|done].
  destruct (World.random w2) as [r w3].
  case_decide; cbn [fst]; by rewrite ?Hvy, ?Hy.
Qed.

Lemma mouse_field {A : Type} (field : Node -> A) params :
  (forall v n, field (set_vx v n) = field n) ->
  (forall v n, field (set_vy v n) = field n) ->
  forall m dt w n, field (_apply_mouse_interaction params m dt w n).1 = field n.
Proof.
  intros Hvx Hvy m dt w n. unfold _apply_mouse_interaction, World.time_time.
  destruct (negb _); [done|]. case_decide; [|done].
  repeat (destruct (String.eqb _ _); [cbn [fst]; by rewrite Hvy, Hvx|]).
  done.
Qed.

Lemma update_permanent params dt m w n :
  permanent (ConsciousnessNode.update params dt m w n).1 = permanent n.
Proof.
  rewrite (update_frame permanent); try done.
  - by apply mouse_field.
  - by apply physics_field.
Qed.

Lemma interactions_field {A : Type} (field : Node -> A) dt m w self :
  (forall params dt m w n,
     field (ConsciousnessNode.update params dt m w n).1 = field n) ->
  (forall v n, field (set_vx v n) = field n) ->
  (forall v n, field (set_vy v n) = field n) ->
  forall l,
    field (heap (_update_nodes_with_interactions dt m w self).1 l)
    = field (heap self l).
Proof.
  intros Hu Hvx Hvy l. unfold _update_nodes_with_interactions.
  set (forces := compute_forces _ _ _ _).
  pose proof (fold_left_ind
    (fun hw : Heap * World.t => forall l, field (hw.1 l) = field (heap self l))
    (fun hw '(i, node) => push_and_update (params self) dt m (forces !!! i) node hw)
    (enumerate (nodes self)) (heap self, w)) as H.
  destruct (fold_left _ _ _) as [h' w']. cbn. apply H; [done|].
  intros [h1 w1] [i node] IH. unfold push_and_update.
  set (n1 := set_vy _ _).
  pose proof (Hu (params self) dt m w1 n1) as Hu1.
  destruct (ConsciousnessNode.update (params self) dt m w1 n1) as [n2 w2].
  cbn in *.
  apply heap_set_field; [done|]. rewrite Hu1. subst n1. by rewrite Hvy, Hvx.
Qed.

Lemma interactions_shape dt m w self :
  let self' := (_update_nodes_with_interactions dt m w self).1 in
  nodes self' = nodes self /\ universes self' = universes self
  /\ lambdas self' = lambdas self /\ params self' = params self
  /\ grid_size self' = grid_size self
  /\ universe_count self' = universe_count self
  /\ current_mode self' = current_mode self
  /\ clusters self' = clusters self
  /\ time self' = time self
  /\ last_update_time self' = last_update_time self
  /\ mouse_influence_queue self' = mouse_influence_queue self
  /\ next_loc self' = next_loc self.
Proof.
  unfold _update_nodes_with_interactions.
  by destruct (fold_left _ _ _).
Qed.

Lemma clusters_shape self :
  let self' := _update_clusters self in
  nodes self' = nodes self /\ universes self' = universes self
  /\ lambdas self' = lambdas self /\ params self' = params self
  /\ grid_size self' = grid_size self
  /\ universe_count self' = universe_count self
  /\ current_mode self' = current_mode self
  /\ time self' = time self
  /\ last_update_time self' = last_update_time self
  /\ mouse_influence_queue self' = mouse_influence_queue self
  /\ next_loc self' = next_loc self.
Proof. by rewrite update_clusters_eq. Qed.

Lemma step_keeps dt mouse_influence w self :
  let self' := (ConsciousnessLattice.update dt mouse_influence w self).1.2 in
  let now := World.clock w (World.ticks w) in
  nodes self' = nodes self /\ universes self' = universes self
  /\ lambdas self' = lambdas self /\ params self' = params self
  /\ grid_size self' = grid_size self
  /\ universe_count self' = universe_count self
  /\ current_mode self' = current_mode self
  /\ (forall l, permanent (heap self' l) = permanent (heap self l))
  /\ mouse_influence_queue self' = tail (mouse_influence_queue self)
  /\ last_update_time self' = now
  /\ time self'
     = time self
       + Rmin 0.05 (now - last_update_time self)
         * getitem (params self) "time_dilation"
  /\ next_loc self' = next_loc self.
Proof.
  unfold ConsciousnessLattice.update, World.time_time.
  set (s1 := set_time _ _).
  destruct (mouse_influence_queue s1) as [|cm q] eqn:Hq;
    match goal with
    | |- context [_update_nodes_with_interactions ?d ?c ?w ?s] =>
        pose proof (interactions_shape d c w s) as H4;
        pose proof (interactions_field permanent d c w s
                      update_permanent ltac:(done) ltac:(done)) as H5;
        destruct (_update_nodes_with_interactions d c w s) as [s4 w4]
    end; cbn [fst snd] in *;
    destruct H4 as (? & ? & ? & ? & ? & ? & ? & ? & ? & ? & ? & ?);
    destruct (clusters_shape s4) as (? & ? & ? & ? & ? & ? & ? & ? & ? & ? & ?);
    cbn zeta in *;
    repeat match goal with |- _ /\ _ => split end;
    try (etrans; [eassumption|]; etrans; [eassumption|]; done);
    try (intros l; rewrite (clusters_field permanent) by done;
         rewrite H5; cbn [heap set_heap];
         by rewrite (universes_update_field permanent)).
  all: try (etrans; [eassumption|]; etrans; [eassumption|]; cbn;
            change (mouse_influence_queue s1) with (mouse_influence_queue self) in Hq;
            by rewrite ?Hq).
Qed.

(** X4.  What a frame ([ConsciousnessLattice.update]) leaves alone and what it
    does to the clocks: the lists of nodes and universes, the weights, the
    configuration, the sizes and the mode are unchanged, no node changes
    one of its [permanent] fields, the oldest entry leaves the pointer
    queue, [last_update_time] becomes the wall clock and [time] advances by
    the elapsed wall time, capped at [0.05], times [time_dilation]. *)
Theorem step_frame dt mouse_influence w self :
  configured (params self) ->
  let self' := (ConsciousnessLattice.update dt mouse_influence w self).1.2 in
  let now := World.clock w (World.ticks w) in
  nodes self' = nodes self /\ universes self' = universes self
  /\ lambdas self' = lambdas self /\ params self' = params self
  /\ grid_size self' = grid_size self
  /\ universe_count self' = universe_count self
  /\ current_mode self' = current_mode self
  /\ (forall l, permanent (heap self' l) = permanent (heap self l))
  /\ mouse_influence_queue self' = tail (mouse_influence_queue self)
  /\ last_update_time self' = now
  /\ time self'
     = time self
       + Rmin 0.05 (now - last_update_time self)
         * getitem (params self) "time_dilation".
Proof.
  intros _.
  destruct (step_keeps dt mouse_influence w self)
    as (? & ? & ? & ? & ? & ? & ? & ? & ? & ? & ? & _).
  repeat split; done.
Qed.

(** A frame of [lone_lattice] keeps its list of nodes. *)
Lemma step_frame_witness :
  configured (params lone_lattice)
  /\ nodes (ConsciousnessLattice.update 0.016 None still_world lone_lattice).1.2
     = nodes lone_lattice.
Proof.
  split; [exact default_configured|].
  exact (proj1 (step_frame 0.016 None still_world lone_lattice
                  default_configured)).
Defined.

(** A loop whose body establishes a property of the element it handles,
    and never breaks it for another element, leaves it for every element. *)
Lemma fold_left_establishes {A B : Type} (Q : A -> B -> Prop) (f : B -> A -> B)
    (l : list A) (b : B) :
  (forall b a, Q a (f b a)) ->
  (forall b a a', Q a' b -> Q a' (f b a)) ->
  forall a, In a l -> Q a (fold_left f l b).
Proof.
  intros Hest Hkeep. revert b.
  induction l as [|a0 l IH]; intros b a; [done|].
  intros [->|Hin]; cbn.
  - apply fold_left_ind; [apply Hest|]. intros b' a'. apply Hkeep.
  - by apply IH.
Qed.

Lemma enumerate_from_In {A : Type} (k : nat) (l : list A) (a : A) :
  In a l -> exists j, In (j, a) (enumerate_from k l).
Proof.
  revert k. induction l as [|b l IH]; intros k; [done|].
  intros [->|Hin].
  - exists k. by left.
  - destruct (IH (S k) Hin) as [j Hj]. exists j. by right.
Qed.

Lemma interactions_in_world dt m w self l :
  In l (nodes self) ->
  in_world (heap (_update_nodes_with_interactions dt m w self).1 l).
Proof.
  intros Hin. unfold _update_nodes_with_interactions.
  set (forces := compute_forces _ _ _ _).
  destruct (enumerate_from_In 0 (nodes self) l Hin) as [j Hj].
  pose proof (fold_left_establishes
    (fun (a : nat * loc) (hw : Heap * World.t) => in_world (hw.1 a.2))
    (fun hw '(i, node) => push_and_update (params self) dt m (forces !!! i) node hw)
    (enumerate (nodes self)) (heap self, w)) as H.
  destruct (fold_left _ _ _) as [h' w']. cbn.
  apply (H ltac:(clear; intros [h1 w1] [i node]; unfold push_and_update;
                 match goal with
                 | |- context [ConsciousnessNode.update ?p ?d ?m ?w ?n] =>
                     destruct (update_in_world p d m w n) as [Hw _];
                     destruct (ConsciousnessNode.update p d m w n) as [n2 w2]
                 end; cbn; by rewrite heap_set_eq)
           ltac:(clear; intros [h1 w1] [i node] [i' node'] Hq;
                 unfold push_and_update;
                 match goal with
                 | |- context [ConsciousnessNode.update ?p ?d ?m ?w ?n] =>
                     destruct (update_in_world p d m w n) as [Hw _];
                     destruct (ConsciousnessNode.update p d m w n) as [n2 w2]
                 end; cbn in *; unfold heap_set; by case_decide)
           (j, l) Hj).
Qed.

Lemma demo_interactions_in_world dt m w self l :
  In l (nodes self) ->
  in_world (heap (Demo.Lattice._update_nodes_with_interactions dt m w self).1 l).
Proof.
  intros Hin.
  unfold Demo.Lattice._update_nodes_with_interactions, Demo.Lattice.interactions.
  destruct (enumerate_from_In 0 (nodes self) l Hin) as [j Hj].
  pose proof (fold_left_establishes
    (fun (a : nat * loc) (s : list (R * R) * Heap * World.t) =>
       in_world (s.1.2 a.2))
    (fun s '(i, node) =>
       Demo.Lattice.step_node (params self) dt m (nodes self) s i node)
    (enumerate (nodes self)) ([], heap self, w)) as H.
  destruct (fold_left _ _ _) as [[tr h'] w']. cbn.
  apply (H ltac:(clear; intros [[tr1 h1] w1] [i node];
                 unfold Demo.Lattice.step_node;
                 match goal with
                 | |- context [Demo.Node.update ?p ?d ?m ?w ?n] =>
                     destruct (update_in_world p d m w n) as [_ Hw];
                     destruct (Demo.Node.update p d m w n) as [n2 w2]
                 end; cbn; by rewrite heap_set_eq)
           ltac:(clear; intros [[tr1 h1] w1] [i node] [i' node'] Hq;
                 unfold Demo.Lattice.step_node;
                 match goal with
                 | |- context [Demo.Node.update ?p ?d ?m ?w ?n] =>
                     destruct (update_in_world p d m w n) as [_ Hw];
                     destruct (Demo.Node.update p d m w n) as [n2 w2]
                 end; cbn in *; unfold heap_set; by case_decide)
           (j, l) Hj).
Qed.

(** X5.  After a frame every node of the collection is inside the world,
    wherever it was before: after [ConsciousnessLattice.update] in the
    engine, after [_update_nodes_with_interactions] in the demo. *)
Theorem step_keeps_nodes_in_world dt mouse_influence w self l :
  configured (params self) -> In l (nodes self) ->
  in_world (heap (ConsciousnessLattice.update dt mouse_influence w self).1.2 l)
  /\ in_world
       (heap (Demo.Lattice._update_nodes_with_interactions dt mouse_influence
                w self).1 l).
Proof.
  intros _ Hin. split; [|by apply demo_interactions_in_world].
  unfold ConsciousnessLattice.update.
  destruct (World.time_time w) as [now w1].
  set (s1 := set_time _ _).
  assert (Hs1 : nodes s1 = nodes self) by done. clearbody s1.
  destruct (mouse_influence_queue s1) as [|cm q];
    match goal with
    | |- context [_update_nodes_with_interactions ?d ?c ?w ?s] =>
        pose proof (interactions_in_world d c w s l) as H4;
        destruct (_update_nodes_with_interactions d c w s) as [s4 w4]
    end; cbn [fst snd] in *;
    (unfold in_world;
     rewrite (clusters_field x) by done; rewrite (clusters_field y) by done;
     apply H4; cbn; by rewrite Hs1).
Qed.

(** The node of [lone_lattice] is inside the world after a frame. *)
Lemma step_keeps_nodes_in_world_witness :
  configured (params lone_lattice) /\ In 0%nat (nodes lone_lattice)
  /\ in_world (heap (ConsciousnessLattice.update 0.016 None still_world
                       lone_lattice).1.2 0%nat)
  /\ in_world
       (heap (Demo.Lattice._update_nodes_with_interactions 0.016 None
                still_world lone_lattice).1 0%nat).
Proof.
  split; [exact default_configured|]. split; [by left|].
  apply (step_keeps_nodes_in_world 0.016 None still_world lone_lattice 0%nat).
  - exact default_configured.
  - by left.
Defined.

(** ** The radius and the emergent properties after an update *)

Lemma magnitude_abs (a f tau : R) :
  sqrt ((a * f * cos tau) ^ 2 + (a * f * sin tau) ^ 2) = Rabs (a * f).
Proof.
  rewrite <- sqrt_Rsqr_abs. f_equal. unfold Rsqr.
  pose proof (sin2_cos2 tau) as H. unfold Rsqr in H. nra.
Qed.

(** The last two stages of [update], whatever came before. *)
Lemma finish_spec params dt n :
  let n' := resize (_update_intelligence_tensors params dt n) in
  radius n'
  = base_radius n + sqrt (consciousness_re n ^ 2 + consciousness_im n ^ 2) * 0.1
  /\ 0 <= consciousness_depth n' <= 1
  /\ self_awareness n' <= 1
  /\ 0 <= thought_intensity n'.
Proof.
  cbn -[pow]. split; [done|]. split; [split|split].
  - apply Rmin_glb; [lra|].
    match goal with
    | |- 0 <= (sqrt ?a + sqrt ?b + sqrt ?c) / 3 =>
        pose proof (sqrt_pos a); pose proof (sqrt_pos b);
        pose proof (sqrt_pos c); lra
    end.
  - apply Rmin_l.
  - apply Rmin_l.
  - apply Rmax_l.
Qed.

Lemma update_finish (P : Node -> Prop) params dt m w n :
  (forall dt' n1, P (resize (_update_intelligence_tensors params dt' n1))) ->
  P (ConsciousnessNode.update params dt m w n).1
  /\ P (Demo.Node.update params dt m w n).1.
Proof.
  intros HP. unfold ConsciousnessNode.update, Demo.Node.update.
  set (dt' := dt * _). generalize (oscillate dt' n). intros n1.
  set (nw := match m with Some _ => _ | None => _ end).
  destruct nw as [n2 w2].
  destruct (_apply_physics params dt' w2 n2) as [n3 w3].
  destruct (Demo.Node._apply_physics params dt' w2 n2) as [n4 w4].
  split; apply HP.
Qed.

Lemma demo_physics_field {A : Type} (field : Node -> A) params :
  (forall v n, field (set_x v n) = field n) ->
  (forall v n, field (set_y v n) = field n) ->
  (forall v n, field (set_vx v n) = field n) ->
  (forall v n, field (set_vy v n) = field n) ->
  forall dt w n, field (Demo.Node._apply_physics params dt w n).1 = field n.
Proof.
  intros Hx Hy Hvx Hvy dt w n. unfold Demo.Node._apply_physics.
  assert (H1 : field (integrate params dt n) = field n).
  { unfold integrate. rewrite Hvy, Hvx, Hy, Hx.
    repeat case_decide; by rewrite ?Hvy, ?Hvx. }
  rewrite <- H1. generalize (integrate params dt n). intros n1.
  assert (H2 : field (Demo.Node.bound_x params w n1).1 = field n1).
  { unfold Demo.Node.bound_x. case_decide; [|done].
    destruct (World.random w) as [r w1].
    case_decide; cbn [fst]; by rewrite ?Hvx, ?Hx. }
  destruct (Demo.Node.bound_x params w n1) as [n2 w2]. cbn [fst] in H2.
  rewrite <- H2.
  unfold Demo.Node.bound_y. case_decide; [|done].
  destruct (World.random w2) as [r w3].
  case_decide; cbn [fst]; by rewrite ?Hvy, ?Hy.
Qed.

(** The fields that only the oscillation and the last two stages write. *)
Lemma demo_update_frame {A : Type} (field : Node -> A) params :
  (forall v n, field (set_x v n) = field n) ->
  (forall v n, field (set_y v n) = field n) ->
  (forall v n, field (set_vx v n) = field n) ->
  (forall v n, field (set_vy v n) = field n) ->
  (forall dt n, field (_update_intelligence_tensors params dt n) = field n) ->
  (forall n, field (resize n) = field n) ->
  forall dt m w n,
    field (Demo.Node.update params dt m w n).1
    = field (oscillate (dt * get params "time_dilation" 1) n).
Proof.
  intros Hx Hy Hvx Hvy Htens Hres dt m w n. unfold Demo.Node.update.
  set (dt' := dt * _). generalize (oscillate dt' n). intros n1.
  assert (Hm : field (match m with
                      | Some m0 =>
                          if MouseInfluence.truthy m0
                          then _apply_mouse_interaction params m0 dt' w n1
                          else (n1, w)
                      | None => (n1, w)
                      end).1 = field n1).
  { destruct m as [m0|]; [|done]. destruct (MouseInfluence.truthy m0); [|done].
    by apply mouse_field. }
  destruct (match m with Some _ => _ | None => _ end) as [n2 w2].
  cbn [fst] in Hm.
  pose proof (demo_physics_field field params Hx Hy Hvx Hvy dt' w2 n2) as Hp.
  destruct (Demo.Node._apply_physics params dt' w2 n2) as [n3 w3].
  cbn [fst] in *. by rewrite Hres, Htens, Hp, Hm.
Qed.

Lemma physics_keeps_value params dt w n :
  let n' := (_apply_physics params dt w n).1 in
  consciousness_re n' = consciousness_re n
  /\ consciousness_im n' = consciousness_im n
  /\ base_radius n' = base_radius n.
Proof.
  cbn zeta.
  rewrite (physics_field consciousness_re), (physics_field consciousness_im),
    (physics_field base_radius); done.
Qed.

(** X6.  After [update], in the engine and in the demo, the radius is
    [base_radius + |attention * frequency| * 0.1], never below
    [base_radius]; the depth lies in [[0, 1]], the self-awareness is
    at most [1] and the thought intensity is not negative. *)
Theorem update_sets_radius_and_bounds params dt mouse_influence w n :
  let after (n' : Node) :=
    radius n' = base_radius n + Rabs (attention n * frequency n) * 0.1
    /\ base_radius n <= radius n'
    /\ 0 <= consciousness_depth n' <= 1
    /\ self_awareness n' <= 1
    /\ 0 <= thought_intensity n' in
  after (ConsciousnessNode.update params dt mouse_influence w n).1
  /\ after (Demo.Node.update params dt mouse_influence w n).1.
Proof.
  cbn zeta.
  pose proof (update_finish
    (fun n' =>
       radius n'
       = base_radius n' + sqrt (consciousness_re n' ^ 2 + consciousness_im n' ^ 2) * 0.1
       /\ 0 <= consciousness_depth n' <= 1
       /\ self_awareness n' <= 1
       /\ 0 <= thought_intensity n')
    params dt mouse_influence w n
    ltac:(intros dt' n1; by destruct (finish_spec params dt' n1) as (-> & ? & ? & ?)))
    as [(Hr & Hd & Hs & Ht) (Hr' & Hd' & Hs' & Ht')].
  assert (Hval : forall a f tau b,
            b + sqrt ((a * f * cos tau) ^ 2 + (a * f * sin tau) ^ 2) * 0.1
            = b + Rabs (a * f) * 0.1) by (intros; by rewrite magnitude_abs).
  pose proof (Rabs_pos (attention n * frequency n)).
  split.
  - rewrite Hr.
    rewrite (update_frame base_radius), (update_frame consciousness_re),
      (update_frame consciousness_im); try done;
      try (by apply mouse_field); try (by apply physics_field).
    cbn -[pow]. rewrite Hval. repeat split; try tauto; lra.
  - rewrite Hr'.
    rewrite (demo_update_frame base_radius), (demo_update_frame consciousness_re),
      (demo_update_frame consciousness_im); try done.
    cbn -[pow]. rewrite Hval. repeat split; try tauto; lra.
Qed.

(** ** The pointer *)

Lemma pointer_out_of_reach params m dt w n :
  200 * get params "field_strength" 1
  <= sqrt ((default 0 (MouseInfluence.x m) - x n) ^ 2
           + (default 0 (MouseInfluence.y m) - y n) ^ 2) ->
  _apply_mouse_interaction params m dt w n = (n, w).
Proof.
  intros H. unfold _apply_mouse_interaction.
  destruct (negb _); [done|]. rewrite decide_False by lra. done.
Qed.

(** X7.  [_apply_mouse_interaction] changes nothing, and reads neither the
    clock nor a random draw, when the pointer is not active, when
    [field_strength] is not positive, when the node is not closer than
    [200 * field_strength], or when the mode is not one of ["push"],
    ["pull"], ["vortex"], ["wave"]. *)
Theorem pointer_is_ignored params m dt w n :
  let d :=
    sqrt ((default 0 (MouseInfluence.x m) - x n) ^ 2
          + (default 0 (MouseInfluence.y m) - y n) ^ 2) in
  default false (MouseInfluence.active m) = false
  \/ get params "field_strength" 1 <= 0
  \/ 200 * get params "field_strength" 1 <= d
  \/ default "push"%string (MouseInfluence.mode m) ∉ pointer_modes ->
  _apply_mouse_interaction params m dt w n = (n, w).
Proof.
  intros d H. unfold _apply_mouse_interaction. fold d.
  destruct H as [->|H]; [done|].
  destruct (negb _); [done|].
  assert (Hd : 0 <= d) by apply sqrt_pos.
  destruct H as [H|[H|H]]; [rewrite decide_False by lra; done..|].
  case_decide; [|done].
  unfold pointer_modes in H. rewrite !elem_of_cons, elem_of_nil in H.
  repeat match goal with
         | |- context [String.eqb ?a ?b] =>
             destruct (String.eqb_spec a b) as [Heq|_]; [exfalso; tauto|]
         end.
  done.
Qed.

(** A pointer in the unknown mode ["string"] leaves [lone_node] as it is. *)
Lemma pointer_is_ignored_witness :
  let m := MouseInfluence.mk (Some 10) (Some 0) (Some "string"%string) (Some true) in
  (default "push"%string (MouseInfluence.mode m) ∉ pointer_modes)
  /\ _apply_mouse_interaction default_params m 0.016 still_world lone_node
     = (lone_node, still_world).
Proof.
  assert (H : "string"%string ∉ pointer_modes).
  { unfold pointer_modes. rewrite !elem_of_cons, elem_of_nil.
    intros [?|[?|[?|[?|[]]]]]; done. }
  split; [exact H|].
  apply (pointer_is_ignored default_params
           (MouseInfluence.mk (Some 10) (Some 0) (Some "string"%string) (Some true))
           0.016 still_world lone_node).
  right. right. right. exact H.
Defined.

(** X8.  [_apply_mouse_interaction] writes the velocity and nothing else,
    draws no random number, and reads the clock in mode ["wave"] only. *)
Theorem pointer_touches_velocity_only params m dt w n :
  let n' := (_apply_mouse_interaction params m dt w n).1 in
  let w' := (_apply_mouse_interaction params m dt w n).2 in
  n' = set_vy (vy n') (set_vx (vx n') n)
  /\ World.drawn w' = World.drawn w
  /\ (default "push"%string (MouseInfluence.mode m) <> "wave"%string -> w' = w).
Proof.
  cbn zeta. unfold _apply_mouse_interaction, World.time_time.
  destruct n. destruct w.
  destruct (negb _); [done|]. case_decide; [|done].
  destruct (String.eqb _ "push"); [done|].
  destruct (String.eqb _ "pull"); [done|].
  destruct (String.eqb _ "vortex"); [done|].
  destruct (String.eqb_spec (default "push"%string (MouseInfluence.mode m)) "wave");
    done.
Qed.

Lemma quarter_turn (a : R) :
  cos (a + PI / 2) = - sin a /\ sin (a + PI / 2) = cos a.
Proof. rewrite cos_plus, sin_plus, cos_PI2, sin_PI2. lra. Qed.

Lemma pointer_push_off params m dt w n :
  _apply_mouse_interaction params m dt w n = (n, w) ->
  pointer_push params m dt w n = (0, 0).
Proof. intros H. unfold pointer_push. rewrite H. cbn. f_equal; lra. Qed.

(** X9.  The velocity that an active pointer adds to a node: mode ["pull"]
    adds the opposite of what mode ["push"] adds, mode ["vortex"] adds a
    velocity at a right angle to the line from the node to the pointer, and
    for a time step that is not negative mode ["push"] never pushes
    towards the pointer. *)
Theorem pointer_directions params px py dt w n :
  let push := pointer_push params (pointer_on px py "push") dt w n in
  let pull := pointer_push params (pointer_on px py "pull") dt w n in
  let vortex := pointer_push params (pointer_on px py "vortex") dt w n in
  pull = (- push.1, - push.2)
  /\ vortex.1 * (px - x n) + vortex.2 * (py - y n) = 0
  /\ (0 <= dt -> push.1 * (px - x n) + push.2 * (py - y n) <= 0).
Proof.
  cbn zeta.
  set (dx := px - x n). set (dy := py - y n).
  set (d := sqrt (dx ^ 2 + dy ^ 2)).
  set (fs := get params "field_strength" 1).
  destruct (Rlt_dec d (200 * fs)) as [Hnear|Hfar].
  - pose proof (pointer_delta params px py "push" dt w n Hnear) as (Hpush & _).
    pose proof (pointer_delta params px py "pull" dt w n Hnear) as (_ & Hpull & _).
    pose proof (pointer_delta params px py "vortex" dt w n Hnear)
      as (_ & _ & Hvor & _).
    destruct (Hpush eq_refl) as [Hp1 Hp2]. destruct (Hpull eq_refl) as [Hl1 Hl2].
    destruct (Hvor eq_refl) as [Hv1 Hv2]. clear Hpush Hpull Hvor.
    unfold pointer_push. cbn [fst snd].
    rewrite Hp1, Hp2, Hl1, Hl2, Hv1, Hv2. fold dx dy d fs.
    destruct (quarter_turn (Py.arctan2 dy dx)) as [-> ->].
    assert (Hd : 0 <= d) by apply sqrt_pos.
    assert (Hfs : 0 < fs) by nra.
    set (force := (200 * fs - d) / (200 * fs) * fs).
    assert (Hforce : 0 <= force).
    { subst force. apply Rmult_le_pos; [|lra].
      apply Rmult_le_pos; [lra|]. apply Rlt_le, Rinv_0_lt_compat. lra. }
    clearbody force.
    split; [f_equal; lra|].
    destruct (Req_dec dx 0) as [Hx|Hx]; [destruct (Req_dec dy 0) as [Hy|Hy]|].
    + rewrite Hx, Hy. split; [lra|]. intros _. lra.
    + rewrite (cos_arctan2 dy dx), (sin_arctan2 dy dx) by tauto. fold d.
      assert (0 < d) by (apply hypot_pos; tauto).
      split; [field; lra|]. intros Hdt.
      replace (_ + _) with (- (force * 0.4 * dt * 60 * ((dx * dx + dy * dy) / d)))
        by (field; lra).
      assert (0 <= (dx * dx + dy * dy) / d).
      { apply Rmult_le_pos; [nra|]. apply Rlt_le, Rinv_0_lt_compat. lra. }
      assert (0 <= force * 0.4 * dt * 60) by nra.
      nra.
    + rewrite (cos_arctan2 dy dx), (sin_arctan2 dy dx) by tauto. fold d.
      assert (0 < d) by (apply hypot_pos; tauto).
      split; [field; lra|]. intros Hdt.
      replace (_ + _) with (- (force * 0.4 * dt * 60 * ((dx * dx + dy * dy) / d)))
        by (field; lra).
      assert (0 <= (dx * dx + dy * dy) / d).
      { apply Rmult_le_pos; [nra|]. apply Rlt_le, Rinv_0_lt_compat. lra. }
      assert (0 <= force * 0.4 * dt * 60) by nra.
      nra.
  - assert (Hoff : forall mode,
              pointer_push params (pointer_on px py mode) dt w n = (0, 0)).
    { intros mode. apply pointer_push_off, pointer_out_of_reach.
      cbn -[pow]. fold dx dy d fs. lra. }
    rewrite !Hoff. cbn. split; [f_equal; lra|]. split; [lra|]. intros _. lra.
Qed.

(** ** The demo's node update against the engine's *)

Lemma mouse_keeps_draws params m dt w n :
  World.floats (_apply_mouse_interaction params m dt w n).2 = World.floats w
  /\ World.drawn (_apply_mouse_interaction params m dt w n).2 = World.drawn w.
Proof.
  unfold _apply_mouse_interaction, World.time_time.
  destruct (negb _); [done|]. case_decide; [|done].
  repeat (destruct (String.eqb _ _); [done|]). done.
Qed.

Lemma bound_x_agrees params w n :
  0.05 <= World.floats w (World.drawn w) ->
  Demo.Node.bound_x params w n = bound_x params w n.
Proof.
  intros Hr. unfold Demo.Node.bound_x, bound_x, World.random.
  case_decide; [|done]. rewrite !decide_False by lra.
  unfold world_bounds_x. by rewrite clamp_is_clip by lra.
Qed.

Lemma bound_y_agrees params w n :
  0.05 <= World.floats w (World.drawn w) ->
  Demo.Node.bound_y params w n = bound_y params w n.
Proof.
  intros Hr. unfold Demo.Node.bound_y, bound_y, World.random.
  case_decide; [|done]. rewrite !decide_False by lra.
  unfold world_bounds_y. by rewrite clamp_is_clip by lra.
Qed.

Lemma bound_x_keeps_draws params w n :
  World.floats (bound_x params w n).2 = World.floats w.
Proof.
  unfold bound_x, World.random. case_decide; [|done]. by case_decide.
Qed.

(** X10.  When no random draw is below [0.05], so that no boundary test
    tunnels, the demo's [update] returns the node and the world that the
    engine's returns: the two differ in the tunnelling branch only. *)
Theorem demo_update_agrees_unless_tunnelling params dt mouse_influence w n :
  (forall k, 0.05 <= World.floats w k) ->
  Demo.Node.update params dt mouse_influence w n
  = ConsciousnessNode.update params dt mouse_influence w n.
Proof.
  intros Hr. unfold Demo.Node.update, ConsciousnessNode.update.
  set (dt' := dt * _). generalize (oscillate dt' n). intros n1.
  assert (Hm : World.floats
                 (match mouse_influence with
                  | Some m =>
                      if MouseInfluence.truthy m
                      then _apply_mouse_interaction params m dt' w n1
                      else (n1, w)
                  | None => (n1, w)
                  end).2 = World.floats w).
  { destruct mouse_influence as [m|]; [|done].
    destruct (MouseInfluence.truthy m); [|done]. apply mouse_keeps_draws. }
  destruct (match mouse_influence with Some _ => _ | None => _ end) as [n2 w2].
  cbn [snd] in Hm.
  assert (Hp : Demo.Node._apply_physics params dt' w2 n2
               = _apply_physics params dt' w2 n2).
  { unfold Demo.Node._apply_physics, _apply_physics.
    rewrite bound_x_agrees by (rewrite Hm; apply Hr).
    pose proof (bound_x_keeps_draws params w2 (integrate params dt' n2)) as Hb.
    destruct (bound_x params w2 (integrate params dt' n2)) as [n3 w3].
    cbn [snd] in Hb. apply bound_y_agrees. rewrite Hb, Hm. apply Hr. }
  by rewrite Hp.
Qed.

(** On [runaway_node], which leaves the world and is reflected, the two
    updates agree. *)
Lemma demo_update_agrees_witness :
  (forall k, 0.05 <= World.floats still_world k)
  /\ Demo.Node.update default_params 0.016 None still_world runaway_node
     = ConsciousnessNode.update default_params 0.016 None still_world
         runaway_node.
Proof.
  assert (H : forall k : nat, 0.05 <= World.floats still_world k)
    by (intros k; cbn; lra).
  split; [exact H|].
  exact (demo_update_agrees_unless_tunnelling default_params 0.016 None
           still_world runaway_node H).
Defined.

(** ** Quantum collapse *)

Lemma quantum_collapse_heap x0 y0 self l :
  heap (quantum_collapse x0 y0 self) l
  = Nat.iter (count_occ Nat.eq_dec (nodes self) l) (collapse_node x0 y0)
      (heap self l).
Proof. unfold quantum_collapse. cbn. apply fold_upd_iter. Qed.

Lemma quantum_collapse_member x0 y0 self l :
  NoDup (nodes self) -> In l (nodes self) ->
  heap (quantum_collapse x0 y0 self) l = collapse_node x0 y0 (heap self l).
Proof.
  intros Hnd%NoDup_ListNoDup Hin.
  by rewrite quantum_collapse_heap, (NoDup_count _ _ Hnd Hin).
Qed.

Lemma collapse_node_spec x0 y0 n :
  let dx := x n - x0 in
  let dy := y n - y0 in
  let d := sqrt (dx ^ 2 + dy ^ 2) in
  let n' := collapse_node x0 y0 n in
  x n' = x n /\ y n' = y n
  /\ (200 <= d -> n' = n)
  /\ (d < 200 ->
      consciousness_re n' = 0 /\ consciousness_im n' = 0
      /\ phase n' = Py.float_mod (phase n + PI) (2 * PI)
      /\ vx n' - vx n = (200 - d) / 200 * 5 * (if decide (d > 0) then dx / d else 0)
      /\ vy n' - vy n = (200 - d) / 200 * 5 * (if decide (d > 0) then dy / d else 0)).
Proof.
  intros dx dy d n'. subst n'. unfold collapse_node. fold dx dy d.
  case_decide as Hnear.
  - split; [by case_decide|]. split; [by case_decide|]. split; [lra|].
    intros _. case_decide as Hpos; cbn -[pow]; [|repeat split; lra].
    assert (Hne : dx <> 0 \/ dy <> 0).
    { destruct (Req_dec dx 0) as [Hx|]; [|by left].
      destruct (Req_dec dy 0) as [Hy|]; [|by right].
      exfalso. subst d. rewrite Hx, Hy in Hpos.
      replace (0 ^ 2 + 0 ^ 2) with 0 in Hpos by lra. rewrite sqrt_0 in Hpos. lra. }
    rewrite (cos_arctan2 dy dx Hne), (sin_arctan2 dy dx Hne). fold d.
    repeat split; lra.
  - repeat split; done.
Qed.

(** X11.  [quantum_collapse] at [(x0, y0)] moves no node.  A node of the
    collection at distance [200] or more is left as it is; a closer one
    loses its complex value and, unless it sits on the centre, gains the
    velocity [(200 - d) / 200 * 5] along the line from the centre to the
    node, outwards. *)
Theorem quantum_collapse_pushes_outwards x0 y0 self l :
  NoDup (nodes self) -> In l (nodes self) ->
  let n := heap self l in
  let n' := heap (quantum_collapse x0 y0 self) l in
  let dx := x n - x0 in
  let dy := y n - y0 in
  let d := sqrt (dx ^ 2 + dy ^ 2) in
  x n' = x n /\ y n' = y n
  /\ (200 <= d -> n' = n)
  /\ (d < 200 ->
      consciousness_re n' = 0 /\ consciousness_im n' = 0
      /\ vx n' - vx n = (200 - d) / 200 * 5 * (if decide (d > 0) then dx / d else 0)
      /\ vy n' - vy n = (200 - d) / 200 * 5 * (if decide (d > 0) then dy / d else 0)).
Proof.
  intros Hnd Hin. cbn zeta. rewrite quantum_collapse_member by done.
  destruct (collapse_node_spec x0 y0 (heap self l)) as (Hx & Hy & Hfar & Hnear).
  cbn zeta in *. split; [done|]. split; [done|]. split; [done|].
  intros Hd. by destruct (Hnear Hd) as (? & ? & _ & ? & ?).
Qed.

(** The node of [lone_lattice] keeps its abscissa through a collapse. *)
Lemma quantum_collapse_pushes_outwards_witness :
  NoDup (nodes lone_lattice) /\ In 0%nat (nodes lone_lattice)
  /\ x (heap (quantum_collapse 30 40 lone_lattice) 0%nat)
     = x (heap lone_lattice 0%nat).
Proof.
  assert (Hnd : NoDup (nodes lone_lattice)) by apply NoDup_singleton.
  assert (Hin : In 0%nat (nodes lone_lattice)) by (by left).
  split; [exact Hnd|]. split; [exact Hin|].
  exact (proj1 (quantum_collapse_pushes_outwards 30 40 lone_lattice 0%nat
                  Hnd Hin)).
Defined.

(** ** Modulation does not accumulate *)

Lemma universe_update_cases u t h l :
  Universe.update u t h l = h l \/ Universe.update u t h l = tuned u t (h l).
Proof.
  rewrite universe_update_iter.
  destruct (count_occ Nat.eq_dec (Universe.nodes u) l) as [|k]; [by left|].
  right. apply iter_idem, tuned_idem.
Qed.

Lemma tuned_spec u t n :
  let n' := tuned u t n in
  n' = set_frequency (frequency n') n
  /\ (frequency n' = frequency n
      \/ frequency n'
         = base_frequency n
           * (1 + Universe.resonance_coeff u * 0.2 * sin (t * 0.05))).
Proof.
  cbn zeta. unfold tuned.
  destruct (Universe._contains_node u n); [|by destruct n; split; [|left]].
  split; [by destruct n|]. by right.
Qed.

(** X12.  [Universe.update] does not accumulate: a second pass with the same
    [time_factor] changes nothing.  A pass writes the frequency only, and
    the frequency that it writes is computed from [base_frequency], not
    from the frequency that the node had. *)
Theorem universe_update_does_not_accumulate u t h :
  Universe.update u t (Universe.update u t h) = Universe.update u t h
  /\ forall l,
       let n' := Universe.update u t h l in
       n' = set_frequency (frequency n') (h l)
       /\ (frequency n' = frequency (h l)
           \/ frequency n'
              = base_frequency (h l)
                * (1 + Universe.resonance_coeff u * 0.2 * sin (t * 0.05))).
Proof.
  split.
  - apply functional_extensionality. intros l.
    rewrite (universe_update_iter u t (Universe.update u t h)).
    rewrite (universe_update_iter u t h).
    destruct (count_occ Nat.eq_dec (Universe.nodes u) l) as [|k]; [done|].
    rewrite !iter_idem by apply tuned_idem. apply tuned_idem.
  - intros l. cbn zeta.
    destruct (universe_update_cases u t h l) as [-> | ->].
    + split; [by destruct (h l)|by left].
    + apply tuned_spec.
Qed.

(** ** The statistics *)

Lemma totals_attention (lambdas : list R) (h : Heap) (ls : list loc)
    (acc : R * R * R * R) :
  (fold_left
     (fun '(re, im, att, ph) node =>
        let n := h node in
        let lambda_weight := default 0 (index lambdas (universe_id n)) in
        (re + consciousness_re n * lambda_weight,
         im + consciousness_im n * lambda_weight,
         att + attention n,
         ph + phase n))
     ls acc).1.2
  = acc.1.2 + sum (map (fun l => attention (h l)) ls).
Proof.
  revert acc. induction ls as [|a ls IH]; intros [[[re im] att] ph].
  - cbn. unfold sum. cbn. lra.
  - cbn [fold_left map]. rewrite IH, sum_cons. cbn. lra.
Qed.

Lemma float_mod_within (a b : R) : 0 < b -> 0 <= Py.float_mod a b <= b.
Proof.
  intros Hb. unfold Py.float_mod.
  destruct (base_Int_part (a / b)) as [Hlo Hhi].
  assert (Ha : a = b * (a / b)) by (field; lra).
  set (k := IZR (Int_part (a / b))) in *.
  split.
  - assert (b * k <= b * (a / b)) by (apply Rmult_le_compat_l; lra). lra.
  - assert (b * (a / b - k) <= b * 1) by (apply Rmult_le_compat_l; lra). lra.
Qed.

Lemma INR_length_pos {A : Type} (l : list A) : l <> [] -> 0 < INR (length l).
Proof.
  destruct l as [|a l]; [done|]. intros _. apply lt_0_INR. cbn. lia.
Qed.

Lemma stats_spec self :
  let st := _calculate_global_consciousness self in
  Stats.node_count st = Z.of_nat (length (nodes self))
  /\ Stats.cluster_count st = Z.of_nat (length (clusters self))
  /\ Stats.time st = time self
  /\ 0 <= Stats.consciousness_magnitude st
  /\ 0 <= Stats.global_resonance st
  /\ 0 <= Stats.average_phase_degrees st <= 360
  /\ (nodes self = [] ->
      Stats.consciousness_magnitude st = 0 /\ Stats.global_resonance st = 0
      /\ Stats.average_attention st = 0 /\ Stats.average_phase_degrees st = 0)
  /\ (nodes self <> [] ->
      Stats.average_attention st
      = total_attention self / INR (length (nodes self))
      /\ Stats.global_resonance st
         = Stats.consciousness_magnitude st / INR (length (nodes self))).
Proof.
  cbn zeta. unfold _calculate_global_consciousness, total_attention.
  pose proof (totals_attention (lambdas self) (heap self) (nodes self)
                (0, 0, 0, 0)) as Hatt.
  destruct (nodes self) as [|a ls] eqn:Hn.
  - cbn [fold_left]. rewrite bool_decide_eq_false_2 by (intros H; by apply H).
    cbn [Stats.node_count Stats.cluster_count Stats.time
         Stats.consciousness_magnitude Stats.global_resonance
         Stats.average_attention Stats.average_phase_degrees].
    replace (0 ^ 2 + 0 ^ 2) with 0 by lra. rewrite sqrt_0.
    repeat split; try done; lra.
  - destruct (fold_left _ (a :: ls) (0, 0, 0, 0)) as [[[re im] att] ph].
    cbn [fst snd] in Hatt. rewrite Rplus_0_l in Hatt.
    rewrite bool_decide_eq_true_2 by done.
    cbn [Stats.node_count Stats.cluster_count Stats.time
         Stats.consciousness_magnitude Stats.global_resonance
         Stats.average_attention Stats.average_phase_degrees].
    pose proof (sqrt_pos (re ^ 2 + im ^ 2)) as Hm.
    pose proof (INR_length_pos (a :: ls) ltac:(done)) as Hlen.
    split; [done|]. split; [done|]. split; [done|]. split; [done|].
    split; [apply Rmult_le_pos; [done|apply Rlt_le, Rinv_0_lt_compat; done]|].
    split; [apply float_mod_within; lra|].
    split; [done|]. intros _. by rewrite Hatt.
Qed.

Lemma lone_lattice_wf : wf lone_lattice.
Proof.
  split; [apply NoDup_singleton|]. intros l [<-|[]]. cbn. lia.
Qed.

Lemma lone_lattice_sized : sized lone_lattice.
Proof. by split. Qed.

Lemma lone_lattice_consistent : consistent lone_lattice.
Proof.
  split; [exact lone_lattice_wf|]. split; [exact lone_lattice_sized|].
  split.
  - intros l [<-|[]]. cbn. rewrite heap_set_eq. cbn. split; [lia|done].
  - intros [|k] u; [|done]. intros [= <-]. cbn.
    rewrite decide_True by (by rewrite heap_set_eq). done.
Qed.

(** X13.  The statistics of a well-structured lattice: the two counts and the
    time are those of the lattice, the magnitude and the resonance are not
    negative, the average phase lies in [[0, 360]]; all four averages are
    [0] for an empty lattice (no division takes place), and otherwise the
    average attention and the resonance are the totals divided by the
    number of nodes. *)
Theorem statistics_are_well_defined self :
  consistent self ->
  let st := _calculate_global_consciousness self in
  Stats.node_count st = Z.of_nat (length (nodes self))
  /\ Stats.cluster_count st = Z.of_nat (length (clusters self))
  /\ Stats.time st = time self
  /\ 0 <= Stats.consciousness_magnitude st
  /\ 0 <= Stats.global_resonance st
  /\ 0 <= Stats.average_phase_degrees st <= 360
  /\ (nodes self = [] ->
      Stats.consciousness_magnitude st = 0 /\ Stats.global_resonance st = 0
      /\ Stats.average_attention st = 0 /\ Stats.average_phase_degrees st = 0)
  /\ (nodes self <> [] ->
      Stats.average_attention st
      = total_attention self / INR (length (nodes self))
      /\ Stats.global_resonance st
         = Stats.consciousness_magnitude st / INR (length (nodes self))).
Proof. intros _. apply stats_spec. Qed.

(** The statistics of [lone_lattice] count one node. *)
Lemma statistics_witness :
  consistent lone_lattice
  /\ Stats.node_count (_calculate_global_consciousness lone_lattice) = 1%Z.
Proof.
  split; [exact lone_lattice_consistent|].
  exact (proj1 (statistics_are_well_defined lone_lattice
                  lone_lattice_consistent)).
Defined.

(** ** The universe weights *)

Lemma normalised_sum (samples : list R) :
  sum samples <> 0 -> sum (map (fun s => s / sum samples) samples) = 1.
Proof.
  intros Ht. rewrite (sum_map_div (fun s => s)), map_id. by field.
Qed.

Lemma gamma_draws_length alpha acc w :
  length (fold_left
            (fun '(samples, w) a =>
               let '(s, w) := World.gamma a 1 w in (samples ++ [s], w))
            alpha (acc, w)).1
  = (length acc + length alpha)%nat.
Proof.
  revert acc w. induction alpha as [|a alpha IH]; intros acc w0; cbn; [lia|].
  rewrite IH, length_app. cbn. lia.
Qed.

Lemma sample_dirichlet_spec alpha w lambdas w' :
  _sample_dirichlet alpha w = Some (lambdas, w') ->
  length lambdas = length alpha /\ (alpha <> [] -> sum lambdas = 1).
Proof.
  unfold _sample_dirichlet.
  pose proof (gamma_draws_length alpha [] w) as Hlen.
  destruct (fold_left _ _ _) as [samples w1]. cbn in Hlen.
  case_bool_decide as Hz; [done|]. intros [= <- _].
  split; [by rewrite length_map|]. intros Hne.
  apply normalised_sum. intros Ht. apply Hz. split; [|done].
  destruct samples; [|done]. by destruct alpha.
Qed.

Lemma demo_draws_length alpha acc w samples w' :
  for_each alpha
    (fun '(samples, w) a =>
       if decide (a = 0) then None else
       let '(u, w) := World.random w in
       Some (samples ++ [Py.float_pow u (1 / a)], w))
    (acc, w) = Some (samples, w') ->
  length samples = (length acc + length alpha)%nat.
Proof.
  revert acc w. induction alpha as [|a alpha IH]; intros acc w0; cbn.
  - intros [= <- _]. lia.
  - case_decide; [done|]. cbn. intros Hr%IH. rewrite length_app in Hr.
    cbn in Hr. lia.
Qed.

Lemma demo_sample_dirichlet_spec alpha w lambdas w' :
  Demo.Lattice._sample_dirichlet alpha w = Some (lambdas, w') ->
  length lambdas = length alpha /\ (alpha <> [] -> sum lambdas = 1).
Proof.
  unfold Demo.Lattice._sample_dirichlet.
  destruct (for_each _ _ _) as [[samples w1]|] eqn:Hf; [|done]. cbn.
  apply demo_draws_length in Hf as Hlen. cbn in Hlen.
  case_bool_decide as Hz; [done|]. intros [= <- _].
  split; [by rewrite length_map|]. intros Hne.
  apply normalised_sum. intros Ht. apply Hz. split; [|done].
  destruct samples; [|done]. by destruct alpha.
Qed.

(** X14.  Whenever [_sample_dirichlet] returns, in the engine or in the demo,
    for a list [alpha] that is not empty, it returns one weight per entry
    of [alpha] and the weights add up to [1]. *)
Theorem sampled_weights_sum_to_one alpha w lambdas w' :
  alpha <> [] ->
  _sample_dirichlet alpha w = Some (lambdas, w')
  \/ Demo.Lattice._sample_dirichlet alpha w = Some (lambdas, w') ->
  length lambdas = length alpha /\ sum lambdas = 1.
Proof.
  intros Hne [H|H].
  - apply sample_dirichlet_spec in H as [Hl Hs]. eauto.
  - apply demo_sample_dirichlet_spec in H as [Hl Hs]. eauto.
Qed.

Lemma still_sample :
  _sample_dirichlet [1; 1] still_world
  = Some ([0.5 / (0 + 0.5 + 0.5); 0.5 / (0 + 0.5 + 0.5)],
          World.advance (World.advance still_world)).
Proof.
  unfold _sample_dirichlet. cbn [fold_left World.gamma World.random].
  cbn -[sum]. unfold sum. cbn [fold_left].
  rewrite bool_decide_eq_false_2; [done|]. intros [_ H]. lra.
Qed.

(** Two equal draws give two weights that add up to [1]. *)
Lemma sampled_weights_witness :
  ([1; 1] : list R) <> []
  /\ exists lambdas w',
       _sample_dirichlet [1; 1] still_world = Some (lambdas, w')
       /\ length lambdas = length ([1; 1] : list R) /\ sum lambdas = 1.
Proof.
  split; [done|]. eexists _, _. split; [exact still_sample|].
  exact (sampled_weights_sum_to_one [1; 1] still_world _ _ ltac:(done)
           (or_introl still_sample)).
Defined.

(** ** The structure of the lattice *)

Lemma for_each_inv_lookup {A St : Type} (P : nat -> St -> Prop) (l : list A)
    (body : St -> A -> option St) (s s' : St) :
  P 0%nat s ->
  (forall k s a s', l !! k = Some a -> P k s -> body s a = Some s' -> P (S k) s') ->
  for_each l body s = Some s' -> P (length l) s'.
Proof.
  intros H0 Hstep.
  enough (forall pre post k s,
            l = pre ++ post -> k = length pre -> P k s ->
            for_each post body s = Some s' -> P (length l) s') as H
    by (exact (H [] l 0%nat s eq_refl eq_refl H0)).
  clear s H0. intros pre post. revert pre.
  induction post as [|a post IH]; intros pre k s Hl Hk HP; cbn.
  - intros [= <-]. rewrite Hl, length_app, <- Hk. cbn. by rewrite Nat.add_0_r.
  - destruct (body s a) as [s1|] eqn:Hb; [|done]. cbn. intros Hr.
    apply (IH (pre ++ [a]) (S k) s1).
    + by rewrite <- app_assoc.
    + rewrite length_app. cbn. lia.
    + eapply Hstep; [|done..]. rewrite Hl, Hk.
      by rewrite lookup_app_r, Nat.sub_diag.
    + done.
Qed.

Lemma filter_heap_ext (h h' : Heap) (k : nat) (ls : list loc) :
  (forall l, In l ls -> universe_id (h' l) = universe_id (h l)) ->
  filter (fun l => universe_id (h' l) = Z.of_nat k) ls
  = filter (fun l => universe_id (h l) = Z.of_nat k) ls.
Proof.
  induction ls as [|a ls IH]; intros H; [done|].
  rewrite !filter_cons, IH by (intros l Hin; apply H; by right).
  rewrite (H a) by (by left). done.
Qed.

(** A change of the store that keeps the id and the weight of every node
    keeps the structure. *)
Lemma consistent_heap self self' :
  consistent self ->
  nodes self' = nodes self -> universes self' = universes self ->
  lambdas self' = lambdas self -> universe_count self' = universe_count self ->
  next_loc self' = next_loc self ->
  (forall l, universe_id (heap self' l) = universe_id (heap self l)
             /\ resonance_coeff (heap self' l) = resonance_coeff (heap self l)) ->
  consistent self'.
Proof.
  intros ([Hnd Hlt] & [Hl Hu] & Hid & Hls) Hn Hus Hlam Hc Hx Hh.
  split; [split; rewrite Hn, ?Hx; done|].
  split; [split; rewrite ?Hlam, ?Hus, Hc; done|].
  split.
  - intros l Hin. rewrite Hn in Hin. destruct (Hh l) as [-> ->].
    rewrite Hlam, Hc. by apply Hid.
  - intros k u Hk. rewrite Hus in Hk. destruct (Hls k u Hk) as (? & ? & ?).
    rewrite Hlam, Hn. split; [done|]. split; [done|].
    rewrite (filter_heap_ext (heap self) (heap self'));
      [done|]. intros l _. apply Hh.
Qed.

Lemma normalize_field {A : Type} (field : Node -> A) self :
  (forall v n, field (set_attention v n) = field n) ->
  forall l, field (heap (_normalize_attention_field self) l) = field (heap self l).
Proof.
  intros Hf l. unfold _normalize_attention_field, measure.
  assert (Hm : forall ls h acc l,
            field ((fold_left measure_step ls (h, acc)).1 l) = field (h l)).
  { clear l. induction ls as [|a ls IH]; intros h acc l; [done|].
    cbn [fold_left]. unfold measure_step at 2.
    rewrite IH. unfold heap_upd, heap_set, weigh.
    case_decide; subst; by rewrite ?Hf. }
  specialize (Hm (nodes self) (heap self) 0 l).
  destruct (fold_left _ _ _) as [h1 total]. cbn [fst] in Hm.
  case_decide; cbn [heap set_heap]; [|done].
  unfold rescale. by rewrite fold_upd_field.
Qed.

Lemma normalize_consistent self :
  consistent self -> consistent (_normalize_attention_field self).
Proof.
  intros H. destruct (normalize_shape self) as (? & ? & ? & ? & ? & ?).
  apply (consistent_heap self); try done.
  intros l. split; by rewrite normalize_field.
Qed.

(** Creating a node: what [_initialize_nodes] and [add_node] do with the
    new object. *)
Lemma enlist_consistent self n uid s2 s3 :
  consistent self ->
  universe_id n = uid -> (0 <= uid < universe_count self)%Z ->
  index (lambdas self) uid = Some (resonance_coeff n) ->
  nodes s2 = nodes self ++ [next_loc self] ->
  heap s2 = heap_set (heap self) (next_loc self) n ->
  next_loc s2 = S (next_loc self) ->
  universes s2 = universes self -> lambdas s2 = lambdas self ->
  universe_count s2 = universe_count self ->
  join_universe (next_loc self) uid s2 = Some s3 ->
  consistent s3.
Proof.
  intros (Hwf & [Hl Hu] & Hid & Hls) Huid Hr Hlam Hn Hh Hx Hus Hla Hc Hj.
  assert (Hold : forall l, In l (nodes self) -> heap s2 l = heap self l).
  { intros l Hin. rewrite Hh, heap_set_ne; [done|].
    destruct Hwf as [_ Hlt]. apply Hlt in Hin. lia. }
  unfold join_universe in Hj.
  rewrite Hus, position_in_range in Hj by lia. cbn in Hj.
  injection Hj as <-. unfold consistent, wf, sized.
  cbn [nodes heap universes lambdas universe_count next_loc set_universes].
  destruct (wf_append self (next_loc self) Hwf eq_refl) as [Hnd' Hlt'].
  split; [split; rewrite Hn, ?Hx; done|].
  split; [split; rewrite ?Hla, ?length_alter, Hc; done|].
  split.
  - intros l. rewrite Hn, Hla, Hc. intros [Hin|[<-|[]]]%in_app_or.
    + rewrite (Hold l Hin). by apply Hid.
    + rewrite Hh, heap_set_eq, Huid. done.
  - intros k u. rewrite Hla, Hn, filter_app.
    rewrite (filter_heap_ext (heap self) (heap s2))
      by (intros l Hin; by rewrite Hold).
    rewrite filter_cons, filter_nil, Hh, heap_set_eq, Huid.
    destruct (decide (k = Z.to_nat uid)) as [->|Hne].
    + rewrite list_lookup_alter_eq.
      destruct (universes self !! Z.to_nat uid) as [u0|] eqn:Hk; [|done].
      cbn. intros [= <-]. destruct (Hls _ _ Hk) as (? & ? & ->). cbn.
      rewrite decide_True by lia. done.
    + rewrite list_lookup_alter_ne by done. intros Hk.
      destruct (Hls _ _ Hk) as (? & ? & ->).
      rewrite decide_False by lia. by rewrite app_nil_r.
Qed.

Lemma spawn_consistent self w self' w' :
  consistent self -> spawn self w = Some (self', w') -> consistent self'.
Proof.
  intros Hc. unfold spawn. cbn.
  destruct (World.randint _ _ _) as [[uid w1]|] eqn:Hr; [|done]. cbn.
  apply randint_range in Hr.
  destruct (index _ _) as [lam|] eqn:Hlam; [|done]. cbn.
  match goal with
  | |- context [join_universe ?l ?u ?s] =>
      destruct (join_universe l u s) as [s'|] eqn:Hj; [|done]
  end.
  cbn. intros [= <- _].
  eapply (enlist_consistent self); [exact Hc| | | | | | | | | |exact Hj].
  5: reflexivity.
  all: first [done | reflexivity | exact Hlam].
Qed.

Lemma add_node_consistent x0 y0 w self l self' w' :
  consistent self -> add_node x0 y0 w self = Some (l, self', w') ->
  consistent self'.
Proof.
  intros Hc. unfold add_node.
  destruct (World.randint _ _ _) as [[uid w1]|] eqn:Hr; [|done]. cbn.
  apply randint_range in Hr.
  destruct (index _ _) as [lam|] eqn:Hlam; [|done]. cbn.
  match goal with
  | |- context [join_universe ?l ?u ?s] =>
      destruct (join_universe l u s) as [s'|] eqn:Hj; [|done]
  end.
  cbn. intros [= _ <- _]. apply normalize_consistent.
  eapply (enlist_consistent self); [exact Hc| | | | | | | | | |exact Hj].
  5: reflexivity.
  all: first [done | reflexivity | exact Hlam].
Qed.

Lemma initialize_universes_consistent self w self' w' :
  length (lambdas self) = Z.to_nat (universe_count self) ->
  next_loc self = 0%nat ->
  _initialize_universes self w = Some (self', w') ->
  consistent (set_nodes [] self').
Proof.
  intros Hlen Hx0. unfold _initialize_universes. intros H.
  apply (for_each_inv_lookup
    (fun k (sw : ConsciousnessLattice.t * World.t) =>
       length (universes sw.1) = k /\ lambdas sw.1 = lambdas self
       /\ universe_count sw.1 = universe_count self
       /\ next_loc sw.1 = next_loc self
       /\ forall j u, universes sw.1 !! j = Some u ->
            Universe.id u = Z.of_nat j
            /\ lambdas self !! j = Some (Universe.resonance_coeff u)
            /\ Universe.nodes u = [])) in H.
  - rewrite length_seqZ in H. destruct H as (Hk & Hl & Hu & Hx & Hus).
    cbn in *.
    split; [split; cbn; [apply NoDup_nil_2|done]|].
    split; [split; cbn; by rewrite ?Hl, ?Hk, Hu|].
    split; [done|]. intros k u Hku. cbn in Hku.
    destruct (Hus k u Hku) as (? & ? & ?). cbn. by rewrite Hl.
  - done.
  - intros k [s1 w1] i [s2 w2] Hi (Hk & Hl & Hu & Hx & Hus). cbn in *.
    apply lookup_seqZ in Hi as [-> Hi].
    destruct (index _ _) as [lam|] eqn:Hlam; [|done]. cbn.
    intros [= <- <-]. cbn. rewrite length_app. cbn.
    split; [lia|]. split; [done|]. split; [done|]. split; [done|].
    intros j u. rewrite lookup_app.
    destruct (universes s1 !! j) as [u'|] eqn:Hj.
    { intros [= <-]. by apply Hus. }
    apply lookup_ge_None in Hj.
    destruct (j - length (universes s1))%nat as [|?] eqn:Hd; [|done].
    cbn. intros [= <-]. cbn.
    assert (j = k) as -> by lia.
    split; [lia|]. split; [|done].
    revert Hlam. unfold index. rewrite Hl, position_in_range by lia. cbn.
    by replace (Z.to_nat (0 + Z.of_nat k)) with k by lia.
Qed.

Lemma initialize_nodes_consistent self w self' w' :
  consistent (set_nodes [] self) ->
  _initialize_nodes self w = Some (self', w') -> consistent self'.
Proof.
  intros Hc. unfold _initialize_nodes. intros H.
  apply (for_each_inv (fun _ (sw : ConsciousnessLattice.t * World.t) =>
                         consistent sw.1)) in H; [done|done|].
  intros _ [s1 w1] i [s2 w2] _ Hs1 Hsp. cbn [fst] in *.
  by eapply spawn_consistent.
Qed.

Lemma init_consistent g u w self w' :
  __init__ g u w = Some (self, w') -> consistent self.
Proof.
  unfold __init__.
  destruct (_sample_dirichlet _ _) as [[lams w1]|] eqn:Hs; [|done]. cbn.
  apply sample_length in Hs. rewrite length_replicate in Hs.
  destruct (_initialize_universes _ _) as [[s2 w2]|] eqn:H2; [|done]. cbn.
  destruct (_initialize_nodes _ _) as [[s3 w3]|] eqn:H3; [|done]. cbn.
  intros [= <- _].
  apply initialize_universes_consistent in H2; [|done..].
  apply initialize_nodes_consistent in H3; [|done].
  apply normalize_consistent in H3.
  by apply (consistent_heap (_normalize_attention_field s3)).
Qed.

(** ** Removing a node *)

Lemma remove_first_none {A : Type} (same : A -> bool) (l : list A) :
  (forall a, In a l -> same a = false) -> remove_first same l = l.
Proof.
  induction l as [|a l IH]; intros H; [done|]. cbn.
  rewrite (H a) by (by left). f_equal. apply IH. intros b Hb. apply H. by right.
Qed.

Lemma remove_first_In {A : Type} (same : A -> bool) (l : list A) (a : A) :
  In a (remove_first same l) -> In a l.
Proof.
  intros H. apply list_elem_of_In. eapply elem_of_sublist.
  - by apply list_elem_of_In.
  - apply remove_first_sublist.
Qed.

Lemma remove_first_length {A : Type} (same : A -> bool) (l : list A) :
  length (remove_first same l)
  = if existsb same l then pred (length l) else length l.
Proof.
  induction l as [|a l IH]; [done|]. cbn.
  destruct (same a); cbn; [done|]. rewrite IH.
  destruct (existsb same l) eqn:He; [|done].
  destruct l; [done|]. done.
Qed.

Lemma filter_remove_first (Q : loc -> Prop) `{!forall l, Decision (Q l)}
    (same : loc -> bool) (ls : list loc) :
  (forall a, In a ls -> same a = true -> Q a) ->
  filter Q (remove_first same ls) = remove_first same (filter Q ls).
Proof.
  induction ls as [|a ls IH]; intros Hq; [done|]. cbn [remove_first].
  destruct (same a) eqn:Ha.
  - rewrite filter_cons, decide_True by (apply Hq; [by left|done]).
    cbn. by rewrite Ha.
  - rewrite !filter_cons, IH by (intros b Hb; apply Hq; by right).
    case_decide; [|done]. cbn. by rewrite Ha.
Qed.

Lemma filter_remove_first_out (Q : loc -> Prop) `{!forall l, Decision (Q l)}
    (same : loc -> bool) (ls : list loc) :
  (forall a, In a ls -> same a = true -> ~ Q a) ->
  filter Q (remove_first same ls) = filter Q ls.
Proof.
  induction ls as [|a ls IH]; intros Hq; [done|]. cbn [remove_first].
  destruct (same a) eqn:Ha.
  - rewrite filter_cons, decide_False by (apply Hq; [by left|done]). done.
  - rewrite !filter_cons, IH by (intros b Hb; apply Hq; by right). done.
Qed.

(** [if node in l: l.remove(node)] drops the first element that is the
    node or equals it, if there is one. *)
Lemma discard_spec (h : Heap) (ls : list loc) (node : loc) :
  (if contains h ls node then remove h ls node else ls)
  = remove_first (fun l' => bool_decide (l' = node \/ h l' = h node)) ls.
Proof.
  unfold contains, remove. case_bool_decide as He; [done|].
  symmetry. apply remove_first_none. intros a Ha.
  apply bool_decide_eq_false_2. intros Hs. apply He.
  apply Exists_exists. exists a. split; [by apply list_elem_of_In|done].
Qed.

Lemma alter_fixed {A : Type} (f : A -> A) (k : nat) (l : list A) :
  (forall a, l !! k = Some a -> f a = a) -> alter f k l = l.
Proof.
  intros H. apply list_eq. intros j.
  destruct (decide (k = j)) as [<-|Hne].
  - rewrite list_lookup_alter_eq. destruct (l !! k) eqn:Hk; [|done].
    cbn. by rewrite H.
  - by rewrite list_lookup_alter_ne.
Qed.

Lemma remove_node_consistent node self :
  consistent self -> consistent (remove_node node self).
Proof.
  intros (Hwf & [Hl Hu] & Hid & Hls). unfold remove_node.
  apply normalize_consistent.
  set (h := heap self). set (uid := universe_id (h node)).
  set (same := fun l' => bool_decide (l' = node \/ h l' = h node)).
  set (F := fun universe : Universe.t =>
              if contains h (Universe.nodes universe) node
              then Universe.set_nodes (remove h (Universe.nodes universe) node)
                     universe
              else universe).
  assert (HF : forall u, Universe.id (F u) = Universe.id u
               /\ Universe.resonance_coeff (F u) = Universe.resonance_coeff u
               /\ Universe.nodes (F u) = remove_first same (Universe.nodes u)).
  { intros u. subst F. cbn beta.
    pose proof (discard_spec h (Universe.nodes u) node) as Hd. fold same in Hd.
    rewrite <- Hd. by destruct (contains h (Universe.nodes u) node). }
  assert (Hsame : forall a, In a (nodes self) -> same a = true ->
            universe_id (h a) = uid
            /\ (0 <= uid < Z.of_nat (length (universes self)))%Z).
  { intros a Ha Hs. apply bool_decide_eq_true_1 in Hs.
    assert (universe_id (h a) = uid) as <- by (by destruct Hs as [-> | ->]).
    split; [done|]. destruct (Hid a Ha) as [Hr _]. rewrite Hu.
    change (heap self a) with (h a) in Hr. lia. }
  assert (Hs1 : exists s1,
            (if contains h (nodes self) node
             then set_nodes (remove h (nodes self) node) self else self) = s1
            /\ nodes s1 = remove_first same (nodes self)
            /\ s1 = set_nodes (nodes s1) self).
  { eexists. split; [reflexivity|]. split.
    - pose proof (discard_spec h (nodes self) node) as Hd. fold same in Hd.
      rewrite <- Hd. by destruct (contains h (nodes self) node).
    - destruct (contains h (nodes self) node); [done|]. by destruct self. }
  destruct Hs1 as (s1 & -> & Hn1 & Hs1).
  assert (Hbase : forall us,
            length us = length (universes self) ->
            (forall k u', us !! k = Some u' ->
               exists u, universes self !! k = Some u
                 /\ Universe.id u' = Universe.id u
                 /\ Universe.resonance_coeff u' = Universe.resonance_coeff u
                 /\ Universe.nodes u'
                    = filter (fun l => universe_id (h l) = Z.of_nat k)
                        (nodes s1)) ->
            consistent (set_universes us s1)).
  { intros us Hlen Hus. rewrite Hs1. destruct Hwf as [Hnd Hlt].
    split; [split; cbn; rewrite Hn1|].
    - eapply sublist_NoDup; first [apply remove_first_sublist|done].
    - intros l Hin%remove_first_In. by apply Hlt.
    - split; [split; cbn; by rewrite ?Hlen|]. split; cbn.
      + rewrite Hn1. intros l Hin%remove_first_In. by apply Hid.
      + intros k u' Hk. destruct (Hus k u' Hk) as (u & Hku & -> & -> & ->).
        destruct (Hls k u Hku) as (? & ? & _). done. }
  assert (Hkeep : forall k u, universes self !! k = Some u ->
            (forall a, In a (nodes self) -> same a = true ->
               universe_id (h a) <> Z.of_nat k) ->
            Universe.nodes u
            = filter (fun l => universe_id (h l) = Z.of_nat k) (nodes s1)).
  { intros k u Hk Hout. rewrite Hn1, filter_remove_first_out by done.
    by destruct (Hls k u Hk) as (_ & _ & ->). }
  assert (Hdrop : forall k u, universes self !! k = Some u ->
            (forall a, In a (nodes self) -> same a = true ->
               universe_id (h a) = Z.of_nat k) ->
            Universe.nodes (F u)
            = filter (fun l => universe_id (h l) = Z.of_nat k) (nodes s1)).
  { intros k u Hk Hin. destruct (HF u) as (_ & _ & ->).
    rewrite Hn1, filter_remove_first by done.
    by destruct (Hls k u Hk) as (_ & _ & ->). }
  assert (Haltered : forall k0,
            (forall a, In a (nodes self) -> same a = true ->
               universe_id (h a) = Z.of_nat k0) ->
            consistent (set_universes (alter F k0 (universes self)) s1)).
  { intros k0 Hk0. apply Hbase; [apply length_alter|]. intros k u'.
    destruct (decide (k0 = k)) as [<-|Hne].
    - rewrite list_lookup_alter_eq.
      destruct (universes self !! k0) as [u|] eqn:Hk; [|done].
      cbn. intros [= <-]. exists u. destruct (HF u) as (-> & -> & _).
      do 3 (split; [done|]). by apply Hdrop.
    - rewrite list_lookup_alter_ne by done. intros Hk. exists u'.
      do 3 (split; [done|]). apply Hkeep; [done|].
      intros a Ha Hs. rewrite (Hk0 a Ha Hs). lia. }
  assert (Hplain : (forall a, In a (nodes self) -> same a = false) ->
            consistent s1).
  { intros Hno.
    replace s1 with (set_universes (universes self) s1)
      by (rewrite Hs1; by destruct self).
    apply Hbase; [done|]. intros k u Hk. exists u.
    do 3 (split; [done|]). apply Hkeep; [done|].
    intros a Ha Hs. rewrite (Hno a Ha) in Hs. done. }
  assert (Hus1 : universes s1 = universes self) by (by rewrite Hs1).
  rewrite Hus1.
  destruct (existsb same (nodes self)) eqn:He.
  - apply existsb_exists in He as (a & Ha & Hs).
    destruct (Hsame a Ha Hs) as [_ Hr].
    rewrite decide_True by lia. rewrite position_in_range by done.
    apply Haltered. intros b Hb Hsb. destruct (Hsame b Hb Hsb) as [-> _]. lia.
  - assert (Hno : forall a, In a (nodes self) -> same a = false).
    { intros a Ha. destruct (same a) eqn:Hs; [|done].
      assert (existsb same (nodes self) = true)
        by (apply existsb_exists; eauto). congruence. }
    case_decide; [|by apply Hplain].
    destruct (position _ _) as [k0|]; [|by apply Hplain].
    apply Haltered. intros a Ha Hs. rewrite (Hno a Ha) in Hs. done.
Qed.

(** ** The structure is kept *)

Lemma step_consistent dt m w self :
  consistent self -> consistent (ConsciousnessLattice.update dt m w self).1.2.
Proof.
  intros Hc.
  destruct (step_keeps dt m w self)
    as (? & ? & ? & _ & _ & ? & _ & Hp & _ & _ & _ & ?).
  apply (consistent_heap self); try done.
  intros l. specialize (Hp l). unfold permanent in Hp.
  by injection Hp as _ _ _ -> -> _ _ _ _ _ _ _.
Qed.

Lemma collapse_consistent x0 y0 self :
  consistent self -> consistent (quantum_collapse x0 y0 self).
Proof.
  intros Hc. apply (consistent_heap self); try done.
  intros l. unfold quantum_collapse. cbn [heap set_heap].
  split; apply fold_upd_field; intros n; unfold collapse_node; node_cases.
Qed.

(** X15.  The structure [consistent] is built by the constructor and kept by
    every method of the lattice: [add_node], [remove_node], [update],
    [quantum_collapse], [update_params] and [set_mode].  So at all times
    every node carries the id and the weight of an existing universe, and
    each universe lists exactly the nodes of the collection that carry its
    id, in the order of the collection. *)
Theorem structure_is_kept :
  (forall g u w self w', __init__ g u w = Some (self, w') -> consistent self)
  /\ (forall x0 y0 w self l self' w',
        consistent self -> add_node x0 y0 w self = Some (l, self', w') ->
        consistent self')
  /\ (forall node self, consistent self -> consistent (remove_node node self))
  /\ (forall dt mouse_influence w self,
        configured (params self) -> consistent self ->
        consistent (ConsciousnessLattice.update dt mouse_influence w self).1.2)
  /\ (forall x0 y0 self,
        consistent self -> consistent (quantum_collapse x0 y0 self))
  /\ (forall new_params self,
        consistent self -> consistent (update_params new_params self))
  /\ (forall mode self, consistent self -> consistent (set_mode mode self)).
Proof.
  split; [apply init_consistent|]. split; [apply add_node_consistent|].
  split; [apply remove_node_consistent|].
  split; [intros ? ? ? ? _; apply step_consistent|].
  split; [apply collapse_consistent|].
  split; intros ? self Hc; by apply (consistent_heap self).
Qed.

(** ** The exported state *)

Lemma count_one (c U : nat) :
  (c < U)%nat ->
  foldr Z.add 0%Z (map (fun k => if decide (c = k) then 1%Z else 0%Z) (seq 0 U))
  = 1%Z.
Proof.
  assert (Hzero : forall U, (U <= c)%nat ->
            foldr Z.add 0%Z
              (map (fun k => if decide (c = k) then 1%Z else 0%Z) (seq 0 U))
            = 0%Z).
  { clear U. induction U as [|U IH]; intros HU; [done|].
    rewrite seq_S, map_app, foldr_app. cbn.
    rewrite decide_False by lia. cbn. apply IH. lia. }
  assert (Hacc : forall (l : list Z) (a : Z),
            foldr Z.add a l = (a + foldr Z.add 0 l)%Z).
  { induction l as [|b l IH]; intros a; cbn; [lia|]. rewrite IH. lia. }
  induction U as [|U IH]; intros HU; [lia|].
  rewrite seq_S, map_app, foldr_app. cbn. rewrite Hacc.
  destruct (decide (c = U)) as [->|Hne].
  - rewrite Hzero by lia. lia.
  - rewrite IH by lia. lia.
Qed.

Lemma foldr_add_plus {A : Type} (f g : A -> Z) (l : list A) :
  foldr Z.add 0%Z (map (fun a => (f a + g a)%Z) l)
  = (foldr Z.add 0 (map f l) + foldr Z.add 0 (map g l))%Z.
Proof. induction l as [|a l IH]; cbn; [done|]. rewrite IH. lia. Qed.

(** Sorting a list into [U] bins by a key below [U] loses nothing. *)
Lemma census (key : loc -> Z) (ls : list loc) (U : nat) :
  (forall l, In l ls -> (0 <= key l < Z.of_nat U)%Z) ->
  foldr Z.add 0%Z
    (map (fun k => Z.of_nat (length (filter (fun l => key l = Z.of_nat k) ls)))
       (seq 0 U))
  = Z.of_nat (length ls).
Proof.
  induction ls as [|a ls IH]; intros Hk.
  - cbn. induction (seq 0 U) as [|k ks IHk]; cbn; [done|]. by rewrite IHk.
  - rewrite (map_ext _
      (fun k => ((if decide (Z.to_nat (key a) = k) then 1 else 0)
                 + Z.of_nat (length (filter (fun l => key l = Z.of_nat k) ls)))%Z)).
    2:{ intros k. rewrite filter_cons.
        destruct (Hk a (or_introl eq_refl)).
        repeat case_decide; cbn [length]; lia. }
    rewrite foldr_add_plus, IH by (intros l Hl; apply Hk; by right).
    rewrite count_one; [cbn [length]; lia|].
    destruct (Hk a (or_introl eq_refl)). lia.
Qed.

Lemma universe_counts self :
  consistent self ->
  map UniverseDict.node_count (map Universe.to_dict (universes self))
  = map (fun k =>
           Z.of_nat (length (filter
                      (fun l => universe_id (heap self l) = Z.of_nat k)
                      (nodes self))))
      (seq 0 (length (universes self))).
Proof.
  intros (_ & _ & _ & Hls). apply list_eq. intros k.
  rewrite !list_lookup_fmap.
  destruct (universes self !! k) as [u|] eqn:Hk.
  - rewrite lookup_seq_lt by (by eapply lookup_lt_Some). cbn.
    by destruct (Hls k u Hk) as (_ & _ & ->).
  - apply lookup_ge_None in Hk. by rewrite lookup_seq_ge.
Qed.

(** X16.  The state exported from a well-structured lattice is coherent: the
    statistics count the exported nodes, the node counts of the universes
    add up to that count, there is one weight per universe, the [k]-th
    universe carries the id [k] and the [k]-th weight, and the
    [universe_id] of every node is the position of an exported universe. *)
Theorem exported_state_is_coherent self :
  consistent self ->
  let st := get_state_for_transmission self in
  Stats.node_count (State.global_stats st)
  = Z.of_nat (length (State.nodes st))
  /\ foldr Z.add 0%Z (map UniverseDict.node_count (State.universes st))
     = Stats.node_count (State.global_stats st)
  /\ length (State.universes st) = length (State.lambdas st)
  /\ (forall k ud,
        State.universes st !! k = Some ud ->
        UniverseDict.id ud = Z.of_nat k
        /\ State.lambdas st !! k = Some (UniverseDict.resonance_coeff ud))
  /\ (forall nd,
        In nd (State.nodes st) ->
        (0 <= NodeDict.universe_id nd
         < Z.of_nat (length (State.universes st)))%Z).
Proof.
  intros Hc. pose proof Hc as (_ & [Hl Hu] & Hid & Hls). cbn zeta.
  unfold get_state_for_transmission.
  cbn [State.nodes State.universes State.global_stats State.lambdas].
  rewrite !length_map.
  destruct (stats_spec self) as [Hcount _]. cbn zeta in Hcount. rewrite Hcount.
  split; [done|]. split.
  - rewrite universe_counts by done.
    rewrite census; [done|]. intros l Hin. destruct (Hid l Hin) as [? _].
    rewrite Hu. lia.
  - split; [by rewrite Hl, Hu|]. split.
    + intros k ud. rewrite list_lookup_fmap.
      destruct (universes self !! k) as [u|] eqn:Hk; [|done].
      cbn. intros [= <-]. cbn. by destruct (Hls k u Hk) as (? & ? & _).
    + intros nd (l & <- & Hin)%in_map_iff. cbn.
      destruct (Hid l Hin) as [? _]. rewrite Hu. lia.
Qed.

(** The state exported from [lone_lattice] counts its node. *)
Lemma exported_state_witness :
  consistent lone_lattice
  /\ Stats.node_count
       (State.global_stats (get_state_for_transmission lone_lattice))
     = Z.of_nat (length (State.nodes (get_state_for_transmission lone_lattice))).
Proof.
  split; [exact lone_lattice_consistent|].
  exact (proj1 (exported_state_is_coherent lone_lattice
                  lone_lattice_consistent)).
Defined.

(** ** A lattice without universes *)

Lemma seqZ_nonpos (u : Z) : (u <= 0)%Z -> seqZ 0 u = [].
Proof. intros H. unfold seqZ. by replace (Z.to_nat u) with 0%nat by lia. Qed.

Lemma seqZ_pos (g : Z) : (0 < g)%Z -> exists rest, seqZ 0 g = 0%Z :: rest.
Proof.
  intros H. unfold seqZ. destruct (Z.to_nat g) as [|n] eqn:E; [lia|].
  cbn. eauto.
Qed.

Lemma spawn_fails self w :
  (universe_count self <= 0)%Z -> spawn self w = None.
Proof.
  intros Hu. unfold spawn, World.randint. cbn.
  by rewrite decide_False by lia.
Qed.

Lemma initialize_nodes_fails self w :
  (0 < grid_size self)%Z -> (universe_count self <= 0)%Z ->
  _initialize_nodes self w = None.
Proof.
  intros Hg Hu. unfold _initialize_nodes.
  destruct (seqZ_pos _ Hg) as [rest ->]. cbn [for_each].
  by rewrite spawn_fails.
Qed.

Lemma initialize_universes_none self w :
  (universe_count self <= 0)%Z ->
  _initialize_universes self w = Some (set_universes [] self, w).
Proof. intros Hu. unfold _initialize_universes. by rewrite seqZ_nonpos. Qed.

(** X17.  Without a universe there is no node.  [add_node] raises on a
    lattice whose [universe_count] is not positive, in the engine and in
    the demo, and so does the constructor when asked for at least one node
    and no universe; asked for no node and no universe, the engine's
    constructor returns an empty lattice. *)
Theorem no_universe_no_node :
  (forall x0 y0 w self,
     (universe_count self <= 0)%Z ->
     add_node x0 y0 w self = None
     /\ Demo.Lattice.add_node x0 y0 w self = None)
  /\ (forall g u w,
        (0 < g)%Z -> (u <= 0)%Z ->
        __init__ g u w = None /\ Demo.Lattice.__init__ g u w = None)
  /\ (forall g u w,
        (g <= 0)%Z -> (u <= 0)%Z ->
        exists self w',
          __init__ g u w = Some (self, w')
          /\ nodes self = [] /\ universes self = [] /\ lambdas self = []).
Proof.
  split; [|split].
  - intros x0 y0 w self Hu.
    unfold add_node, Demo.Lattice.add_node, World.randint.
    by rewrite decide_False by lia.
  - intros g u w Hg Hu. unfold __init__, Demo.Lattice.__init__.
    replace (Z.to_nat u) with 0%nat by lia. cbn [replicate].
    assert (Hs : _sample_dirichlet [] w = Some ([], w)).
    { unfold _sample_dirichlet. by cbn. }
    assert (Hd : Demo.Lattice._sample_dirichlet [] w = Some ([], w)).
    { unfold Demo.Lattice._sample_dirichlet. by cbn. }
    rewrite Hs, Hd. cbn [mbind option_bind].
    rewrite initialize_universes_none by done. cbn [mbind option_bind].
    by rewrite initialize_nodes_fails.
  - intros g u w Hg Hu. unfold __init__.
    replace (Z.to_nat u) with 0%nat by lia. cbn [replicate].
    assert (Hs : _sample_dirichlet [] w = Some ([], w)).
    { unfold _sample_dirichlet. by cbn. }
    rewrite Hs. cbn [mbind option_bind].
    rewrite initialize_universes_none by done. cbn [mbind option_bind].
    unfold _initialize_nodes. rewrite seqZ_nonpos by done.
    cbn [for_each mbind option_bind grid_size set_universes].
    eexists _, _. split; [reflexivity|].
    destruct (normalize_shape
                (set_nodes []
                   (set_universes []
                      (ConsciousnessLattice.mk g u 0 [] [] [] [] []
                         default_params 0 None empty_heap 0%nat))))
      as (Hn & _ & Hus & Hl & _).
    cbn [nodes universes lambdas set_last_update_time]. by rewrite Hn, Hus, Hl.
Qed.

(** ** Parameter updates compose *)

(** X18.  Parameter updates compose: two updates in a row are the update by
    the second map completed by the first, an update repeated changes
    nothing more, and the empty update changes nothing. *)
Theorem update_params_composes (p q : Params) self :
  update_params q (update_params p self) = update_params (q ∪ p) self
  /\ update_params p (update_params p self) = update_params p self
  /\ update_params ∅ self = self.
Proof.
  unfold update_params. destruct self. unfold set_params.
  cbn [ConsciousnessLattice.params grid_size universe_count time nodes
       universes clusters mouse_influence_queue lambdas last_update_time
       current_mode heap next_loc].
  split; [|split]; f_equal.
  - apply (assoc_L (∪)).
  - by rewrite (assoc_L (∪)), (idemp_L (∪)).
  - apply (left_id_L ∅ (∪)).
Qed.

(** ** The configuration keeps its keys *)

Lemma add_node_params x0 y0 w self l self' w' :
  add_node x0 y0 w self = Some (l, self', w') -> params self' = params self.
Proof.
  unfold add_node.
  destruct (World.randint _ _ _) as [[uid w1]|]; [|done]. cbn.
  destruct (index _ _) as [lam|]; [|done]. cbn.
  match goal with
  | |- context [join_universe ?l ?u ?s] =>
      destruct (join_universe l u s) as [s'|] eqn:Hj; [|done]
  end.
  cbn. intros [= _ <- _].
  destruct (normalize_shape s') as (_ & _ & _ & _ & _ & ->).
  unfold join_universe in Hj. cbn in Hj.
  destruct (position _ _); [|done]. by injection Hj as <-.
Qed.

Lemma remove_node_params node self :
  params (remove_node node self) = params self.
Proof.
  unfold remove_node.
  match goal with
  | |- context [_normalize_attention_field ?s] =>
      destruct (normalize_shape s) as (_ & _ & _ & _ & _ & ->)
  end.
  set (s1 := if contains _ _ _ then _ else self).
  assert (H1 : params s1 = params self) by (subst s1; by destruct (contains _ _ _)).
  clearbody s1. case_decide; [|done].
  destruct (position _ _); done.
Qed.

(** X19.  The configuration never loses a key: the constructor installs
    [default_params], with its five keys; [update_params] keeps every key
    that is present; no other method writes the configuration. *)
Theorem configuration_keeps_its_keys :
  (forall g u w self w',
     __init__ g u w = Some (self, w') ->
     params self = default_params /\ configured (params self))
  /\ (forall new_params self,
        configured (params self) ->
        configured (params (update_params new_params self)))
  /\ (forall x0 y0 w self l self' w',
        add_node x0 y0 w self = Some (l, self', w') ->
        params self' = params self)
  /\ (forall node self, params (remove_node node self) = params self)
  /\ (forall dt mouse_influence w self,
        params (ConsciousnessLattice.update dt mouse_influence w self).1.2
        = params self)
  /\ (forall x0 y0 self, params (quantum_collapse x0 y0 self) = params self)
  /\ (forall mode self, params (set_mode mode self) = params self).
Proof.
  split; [|split; [|split; [|split; [|split; [|split]]]]].
  - intros g u w self w' Hi. apply init_total in Hi as (_ & _ & -> & _).
    split; [done|]. exact default_configured.
  - intros new_params self Hc. unfold configured in *.
    cbn. rewrite dom_union_L. etrans; [exact Hc|]. apply union_subseteq_r.
  - apply add_node_params.
  - apply remove_node_params.
  - intros dt mouse_influence w self.
    by destruct (step_keeps dt mouse_influence w self) as (_ & _ & _ & ? & _).
  - done.
  - done.
Qed.

(** ** Visualisation modes *)

Lemma mode_call_value mode : UniverseMode_call (UniverseMode_value mode) = Some mode.
Proof. by destruct mode. Qed.

Lemma mode_value_call s mode :
  UniverseMode_call s = Some mode -> UniverseMode_value mode = s.
Proof.
  unfold UniverseMode_call, UniverseMode_members.
  cbn [find UniverseMode_value].
  repeat match goal with
         | |- context [String.eqb ?a s] =>
             destruct (String.eqb_spec a s) as [Heq|_];
             [intros [= <-]; exact Heq|]
         end.
  done.
Qed.

Lemma spawn_mode self w self' w' :
  spawn self w = Some (self', w') -> current_mode self' = current_mode self.
Proof.
  unfold spawn. cbn.
  destruct (World.randint _ _ _) as [[uid w1]|]; [|done]. cbn.
  destruct (index _ _) as [lam|]; [|done]. cbn.
  unfold join_universe. cbn.
  destruct (position _ _); [|done]. cbn. by intros [= <- _].
Qed.

Lemma init_mode g u w self w' :
  __init__ g u w = Some (self, w') -> current_mode self = None.
Proof.
  unfold __init__.
  destruct (_sample_dirichlet _ _) as [[lams w1]|]; [|done]. cbn.
  destruct (_initialize_universes _ _) as [[s2 w2]|] eqn:H2; [|done]. cbn.
  destruct (_initialize_nodes _ _) as [[s3 w3]|] eqn:H3; [|done]. cbn.
  intros [= <- _]. cbn.
  assert (Hn : forall s, current_mode (_normalize_attention_field s)
                         = current_mode s).
  { intros s. unfold _normalize_attention_field.
    destruct (measure _ _). by case_decide. }
  change (current_mode (_normalize_attention_field s3) = None). rewrite Hn.
  unfold _initialize_nodes in H3.
  apply (for_each_inv (fun _ (sw : ConsciousnessLattice.t * World.t) =>
                         current_mode sw.1 = current_mode s2)) in H3;
    [|done|].
  2:{ intros _ [sa wa] i [sb wb] _ Ha Hsp. cbn [fst] in *.
      by rewrite (spawn_mode _ _ _ _ Hsp). }
  cbn [fst] in H3. rewrite H3.
  unfold _initialize_universes in H2.
  apply (for_each_inv (fun _ (sw : ConsciousnessLattice.t * World.t) =>
                         current_mode sw.1 = None)) in H2; [done|done|].
  intros _ [sa wa] i [sb wb] _ Ha. cbn.
  destruct (index _ _); [|done]. cbn. by intros [= <- _].
Qed.

(** X20.  Modes and their names: [UniverseMode(mode.value)] is [mode], and a
    name that [UniverseMode] accepts is the value of the mode it returns.
    [POST /api/mode/{mode}] with such a name sets the mode, answers with the
    name, and the exported state then shows that name; with any other name
    it answers 400 and leaves the lattice as it was.  A new lattice exports
    the mode ["consciousness"]. *)
Theorem mode_round_trip :
  (forall mode, UniverseMode_call (UniverseMode_value mode) = Some mode)
  /\ (forall s mode,
        UniverseMode_call s = Some mode -> UniverseMode_value mode = s)
  /\ (forall s lattice,
        match UniverseMode_call s with
        | Some mode =>
            Server.set_mode s lattice
            = (Server.Body ("updated"%string, s), set_mode mode lattice)
            /\ State.mode (Server.export_state (Server.set_mode s lattice).2)
               = s
        | None =>
            Server.set_mode s lattice
            = (Server.HTTPException 400 ("Invalid mode: " ++ s), lattice)
        end)
  /\ (forall g u w self w',
        __init__ g u w = Some (self, w') ->
        State.mode (get_state_for_transmission self) = "consciousness"%string).
Proof.
  split; [apply mode_call_value|]. split; [apply mode_value_call|]. split.
  - intros s lattice. unfold Server.set_mode.
    destruct (UniverseMode_call s) as [mode|] eqn:Hm; [|done].
    split; [done|]. cbn. by apply mode_value_call.
  - intros g u w self w' Hi. cbn. by rewrite (init_mode _ _ _ _ _ Hi).
Qed.

(** ** The share of each node *)

Lemma share_le {A : Type} (d : A -> R) (l : list A) (a : A) :
  (forall b, 0 < d b) -> In a l -> d a <= sum (map d l).
Proof.
  intros Hd. induction l as [|b l IH]; [done|].
  cbn [map]. rewrite sum_cons.
  assert (Hs : 0 <= sum (map d l)).
  { destruct l as [|c l']; [unfold sum; cbn; lra|].
    apply Rlt_le, sum_map_pos; done. }
  intros [->|Hin]; [lra|]. specialize (IH Hin). specialize (Hd b). lra.
Qed.

Lemma normalize_share self l :
  NoDup (nodes self) -> In l (nodes self) ->
  attention (heap (_normalize_attention_field self) l)
  = calculate_attention_density (heap self l)
    / sum (map (fun l' => calculate_attention_density (heap self l'))
             (nodes self)).
Proof.
  intros Hnd%NoDup_ListNoDup Hin. unfold _normalize_attention_field, measure.
  destruct (measure_spec (nodes self) (heap self) 0) as [Hh Ht].
  destruct (fold_left _ (nodes self) (heap self, 0)) as [h1 total].
  cbn in Hh, Ht. rewrite Rplus_0_l in Ht.
  assert (Hpos : 0 < total).
  { rewrite Ht. apply sum_map_pos; [intros; apply density_pos|].
    by destruct (nodes self). }
  rewrite decide_True by lra. cbn [heap set_heap]. unfold rescale.
  rewrite fold_upd_iter, (NoDup_count _ _ Hnd Hin). cbn.
  rewrite Hh, (NoDup_count _ _ Hnd Hin), Ht. reflexivity.
Qed.

(** X21.  After [_normalize_attention_field] on distinct nodes inside the
    world, the attention of a node is its share of the total density: its
    own density divided by the sum of the densities of all nodes.  It is
    positive and at most [1]. *)
Theorem normalised_attention_is_a_share self l :
  NoDup (nodes self) ->
  (forall l', In l' (nodes self) -> in_world (heap self l')) ->
  In l (nodes self) ->
  let a := attention (heap (_normalize_attention_field self) l) in
  a = calculate_attention_density (heap self l)
      / sum (map (fun l' => calculate_attention_density (heap self l'))
               (nodes self))
  /\ 0 < a <= 1.
Proof.
  intros Hnd _ Hin. cbn zeta. rewrite normalize_share by done.
  split; [done|].
  set (d := fun l' => calculate_attention_density (heap self l')).
  change (calculate_attention_density (heap self l)) with (d l).
  assert (Hd : forall b, 0 < d b) by (intros; apply density_pos).
  pose proof (share_le d (nodes self) l Hd Hin).
  pose proof (Hd l). split.
  - apply Rdiv_lt_0_compat; lra.
  - apply (Rmult_le_reg_r (sum (map d (nodes self)))); [lra|].
    replace (d l / sum (map d (nodes self)) * sum (map d (nodes self)))
      with (d l) by (field; lra). lra.
Qed.

(** The node of [lone_lattice] carries a positive attention, at most [1]. *)
Lemma normalised_attention_witness :
  NoDup (nodes lone_lattice)
  /\ (forall l', In l' (nodes lone_lattice) -> in_world (heap lone_lattice l'))
  /\ In 0%nat (nodes lone_lattice)
  /\ 0 < attention (heap (_normalize_attention_field lone_lattice) 0%nat) <= 1.
Proof.
  assert (Hnd : NoDup (nodes lone_lattice)) by apply NoDup_singleton.
  assert (Hin : In 0%nat (nodes lone_lattice)) by (by left).
  assert (Hw : forall l', In l' (nodes lone_lattice) ->
                 in_world (heap lone_lattice l')).
  { intros l' [<-|[]]. unfold in_world. cbn. rewrite heap_set_eq. cbn. lra. }
  split; [exact Hnd|]. split; [exact Hw|]. split; [exact Hin|].
  exact (proj2 (normalised_attention_is_a_share lone_lattice 0%nat Hnd Hw Hin)).
Defined.

(** ** Adding a node, then removing it *)

Lemma add_node_spec x0 y0 w self l self' w' :
  add_node x0 y0 w self = Some (l, self', w') ->
  l = next_loc self
  /\ nodes self' = nodes self ++ [l]
  /\ (exists k w1,
        World.randint 0 (universe_count self) w = Some (Z.of_nat k, w1)
        /\ universe_id (heap self' l) = Z.of_nat k
        /\ universes self'
           = alter (fun u => Universe.set_nodes (Universe.nodes u ++ [l]) u) k
               (universes self))
  /\ x (heap self' l) = x0 /\ y (heap self' l) = y0
  /\ vx (heap self' l) = 0 /\ vy (heap self' l) = 0
  /\ cluster_id (heap self' l) = (-1)%Z
  /\ base_frequency (heap self' l) = 40
  /\ (forall a, a <> l ->
        x (heap self' a) = x (heap self a) /\ y (heap self' a) = y (heap self a)).
Proof.
  unfold add_node.
  destruct (World.randint _ _ _) as [[uid w1]|] eqn:Hr; [|done]. cbn.
  pose proof (randint_range _ _ _ _ _ Hr) as Hrange.
  destruct (index _ _) as [lam|] eqn:Hlam; [|done]. cbn.
  unfold join_universe. cbn.
  destruct (position _ _) as [k|] eqn:Hk; [|done]. cbn.
  assert (k = Z.to_nat uid) as ->.
  { unfold position in Hk. revert Hk. case_decide; [by intros [= <-]|]. case_decide; [lia|done]. }
  clear Hk.
  intros [= <- <- <-].
  match goal with
  | |- context [_normalize_attention_field ?s] =>
      destruct (normalize_shape s) as (Hn & _ & Hus & _);
      pose proof (normalize_field x s ltac:(done)) as Hx;
      pose proof (normalize_field y s ltac:(done)) as Hy;
      pose proof (normalize_field vx s ltac:(done)) as Hvx;
      pose proof (normalize_field vy s ltac:(done)) as Hvy;
      pose proof (normalize_field cluster_id s ltac:(done)) as Hc;
      pose proof (normalize_field base_frequency s ltac:(done)) as Hb;
      pose proof (normalize_field universe_id s ltac:(done)) as Hu
  end.
  cbn in Hn, Hus, Hx, Hy, Hvx, Hvy, Hc, Hb, Hu.
  split; [done|]. split; [done|]. split.
  - exists (Z.to_nat uid), w1.
    rewrite Z2Nat.id by lia. split; [done|]. split; [|done].
    by rewrite Hu, heap_set_eq.
  - rewrite Hx, Hy, Hvx, Hvy, Hc, Hb, !heap_set_eq.
    do 6 (split; [done|]). intros a Ha. by rewrite Hx, Hy, !heap_set_ne.
Qed.

Lemma remove_first_app_none {A : Type} (same : A -> bool) (l1 l2 : list A) :
  (forall a, In a l1 -> same a = false) ->
  remove_first same (l1 ++ l2) = l1 ++ remove_first same l2.
Proof.
  induction l1 as [|a l1 IH]; intros H; [done|]. cbn.
  rewrite (H a) by (by left). f_equal. apply IH. intros b Hb. apply H. by right.
Qed.

(** X22.  [add_node] followed by [remove_node] of the node just added restores
    the list of nodes and the lists of the universes, on a well-structured
    lattice that has no node at the same position (a node equal to the new
    one in every field would be removed in its place). *)
Theorem add_then_remove_restores_the_lists x0 y0 w self l self' w' :
  consistent self ->
  (forall a, In a (nodes self) ->
     x (heap self a) <> x0 \/ y (heap self a) <> y0) ->
  add_node x0 y0 w self = Some (l, self', w') ->
  nodes (remove_node l self') = nodes self
  /\ universes (remove_node l self') = universes self.
Proof.
  intros Hc Hfree Ha.
  pose proof (add_node_spec _ _ _ _ _ _ _ Ha)
    as (Hl & Hn & (k & w1 & Hr & Hu & Hus) & Hx & Hy & _ & _ & _ & _ & Hold).
  pose proof Hc as ([Hnd Hlt] & [Hlen Hulen] & Hid & Hls).
  apply randint_range in Hr.
  assert (Hfresh : forall a, In a (nodes self) -> a <> l).
  { intros a Hin%Hlt. lia. }
  set (same := fun l' => bool_decide (l' = l \/ heap self' l' = heap self' l)).
  assert (Hno : forall a, In a (nodes self) -> same a = false).
  { intros a Hin. apply bool_decide_eq_false_2. intros [->|Heq].
    - by apply (Hfresh l).
    - destruct (Hold a (Hfresh a Hin)) as [Hxa Hya].
      destruct (Hfree a Hin) as [Hd|Hd]; apply Hd.
      + by rewrite <- Hxa, Heq, Hx.
      + by rewrite <- Hya, Heq.
  }
  assert (Hyes : same l = true) by (apply bool_decide_eq_true_2; by left).
  unfold remove_node.
  match goal with
  | |- context [_normalize_attention_field ?s] =>
      destruct (normalize_shape s) as (-> & _ & -> & _)
  end.
  pose proof (discard_spec (heap self') (nodes self') l) as Hd1.
  fold same in Hd1.
  set (s1 := if contains (heap self') (nodes self') l
             then set_nodes (remove (heap self') (nodes self') l) self'
             else self').
  assert (Hn1 : nodes s1 = nodes self).
  { transitivity (if contains (heap self') (nodes self') l
                  then remove (heap self') (nodes self') l else nodes self').
    { subst s1. by destruct (contains (heap self') (nodes self') l). }
    rewrite Hd1, Hn, remove_first_app_none by done. cbn. rewrite Hyes.
    apply app_nil_r. }
  assert (Hus1 : universes s1 = universes self').
  { subst s1. by destruct (contains (heap self') (nodes self') l). }
  clearbody s1. rewrite Hus1, Hu, Hus, length_alter.
  rewrite decide_True by lia. rewrite position_in_range by lia.
  rewrite Nat2Z.id. cbn [universes nodes set_universes].
  split; [done|].
  rewrite list_alter_alter_eq. apply alter_fixed. intros u Hk.
  cbn [compose Universe.nodes Universe.set_nodes].
  pose proof (discard_spec (heap self') (Universe.nodes u ++ [l]) l) as Hd2.
  fold same in Hd2.
  assert (Hsub : forall a, In a (Universe.nodes u) -> same a = false).
  { intros a Hin. apply Hno. destruct (Hls k u Hk) as (_ & _ & Hf).
    rewrite Hf in Hin.
    apply list_elem_of_In, list_elem_of_filter in Hin as [_ Hin].
    by apply list_elem_of_In. }
  rewrite remove_first_app_none in Hd2 by done. cbn in Hd2.
  rewrite Hyes, app_nil_r in Hd2.
  destruct (contains (heap self') (Universe.nodes u ++ [l]) l).
  - rewrite Hd2. by destruct u.
  - exfalso. apply (f_equal length) in Hd2.
    rewrite length_app in Hd2. cbn in Hd2. lia.
Qed.

(** Adding a node to [lone_lattice] at [(30, 40)] and removing it
    restores the list of nodes. *)
Lemma add_then_remove_witness :
  consistent lone_lattice
  /\ (forall a, In a (nodes lone_lattice) ->
        x (heap lone_lattice a) <> 30 \/ y (heap lone_lattice a) <> 40)
  /\ exists l self' w',
       add_node 30 40 still_world lone_lattice = Some (l, self', w')
       /\ nodes (remove_node l self') = nodes lone_lattice.
Proof.
  pose proof lone_lattice_consistent as Hc.
  assert (Hfree : forall a, In a (nodes lone_lattice) ->
            x (heap lone_lattice a) <> 30 \/ y (heap lone_lattice a) <> 40).
  { intros a [<-|[]]. cbn. rewrite heap_set_eq. cbn. left. lra. }
  split; [exact Hc|]. split; [exact Hfree|].
  destruct (add_node_returns 30 40 still_world lone_lattice ltac:(done)
              lone_lattice_sized) as [[[l self'] w'] Ha].
  exists l, self', w'. split; [exact Ha|].
  exact (proj1 (add_then_remove_restores_the_lists 30 40 still_world
                  lone_lattice l self' w' Hc Hfree Ha)).
Defined.

(** ** What [remove_node] takes out *)

(** X23.  [remove_node] takes at most one entry out of the list of nodes: the
    first one that is the node or equals it field by field.  The list
    keeps its order; it is unchanged when no entry equals the node, and
    one shorter when the node is listed. *)
Theorem remove_node_drops_at_most_one node self :
  let same := fun l' => bool_decide (l' = node \/ heap self l' = heap self node) in
  nodes (remove_node node self) = remove_first same (nodes self)
  /\ length (nodes (remove_node node self))
     = (if contains (heap self) (nodes self) node
        then pred (length (nodes self)) else length (nodes self))
  /\ (contains (heap self) (nodes self) node = false ->
      nodes (remove_node node self) = nodes self)
  /\ (In node (nodes self) ->
      S (length (nodes (remove_node node self))) = length (nodes self)).
Proof.
  cbn zeta.
  assert (Hn : nodes (remove_node node self)
               = remove_first
                   (fun l' => bool_decide (l' = node \/ heap self l' = heap self node))
                   (nodes self)).
  { unfold remove_node.
    match goal with
    | |- context [_normalize_attention_field ?s] =>
        destruct (normalize_shape s) as (-> & _)
    end.
    rewrite <- discard_spec.
    destruct (contains (heap self) (nodes self) node);
      case_decide; try destruct (position _ _); done. }
  assert (Hex : contains (heap self) (nodes self) node
                = existsb
                    (fun l' => bool_decide (l' = node \/ heap self l' = heap self node))
                    (nodes self)).
  { unfold contains.
    destruct (existsb _ (nodes self)) eqn:He.
    - apply bool_decide_eq_true_2.
      apply existsb_exists in He as (a & Ha & Hs). apply Exists_exists.
      exists a. split; [by apply list_elem_of_In|].
      by apply bool_decide_eq_true_1 in Hs.
    - apply bool_decide_eq_false_2. intros (a & Ha & Hs)%Exists_exists.
      assert (existsb
                (fun l' => bool_decide (l' = node \/ heap self l' = heap self node))
                (nodes self) = true).
      { apply existsb_exists. exists a.
        split; [by apply list_elem_of_In|by apply bool_decide_eq_true_2]. }
      congruence. }
  split; [done|]. rewrite Hn, remove_first_length, Hex.
  split; [done|]. split.
  - intros He. apply remove_first_none. intros a Ha.
    destruct (bool_decide _) eqn:Hs; [|done].
    assert (existsb
              (fun l' => bool_decide (l' = node \/ heap self l' = heap self node))
              (nodes self) = true) by (apply existsb_exists; eauto).
    congruence.
  - intros Hin.
    assert (existsb
              (fun l' => bool_decide (l' = node \/ heap self l' = heap self node))
              (nodes self) = true) as ->.
    { apply existsb_exists. exists node. split; [done|].
      apply bool_decide_eq_true_2. by left. }
    destruct (nodes self); [done|]. done.
Qed.

(** ** The clusters that detection records *)


Lemma grow_clusters (self : ConsciousnessLattice.t) ns h cs pr i node :
  ns = nodes self ->
  In (i, node) (enumerate ns) ->
  (forall l, x (h l) = x (heap self l) /\ y (h l) = y (heap self l)) ->
  Forall (cluster_ok self) cs ->
  map Cluster.id cs = map Z.of_nat (seq 0 (length cs)) ->
  let s' := grow ns (h, cs, pr) i node in
  (forall l, x (s'.1.1 l) = x (heap self l) /\ y (s'.1.1 l) = y (heap self l))
  /\ Forall (cluster_ok self) s'.1.2
  /\ map Cluster.id s'.1.2 = map Z.of_nat (seq 0 (length s'.1.2)).
Proof.
  intros -> Hin%enumerate_elem Hxy Hok Hids. cbn zeta. unfold grow.
  case_decide; [done|].
  pose proof (traverse_members (length (nodes self) * 2) h (nodes self)
                ([node], [i], {[i]} ∪ pr)) as Hm.
  destruct (traverse _ _ _ _) as [[cn q] pr2].
  assert (Hcn : Forall (fun l => In l (nodes self)) cn)
    by (apply Hm, Forall_singleton, Hin).
  clear Hm.
  case_decide as Hlen; [|done]. cbn [fst snd]. split; [|split].
  - intros l. split.
    + rewrite (fold_upd_field x) by done. apply Hxy.
    + rewrite (fold_upd_field y) by done. apply Hxy.
  - apply Forall_app. split; [done|]. apply Forall_singleton.
    split; [done|]. split; [done|].
    cbn [Cluster.center_x Cluster.center_y Cluster.nodes
         Cluster.recursion_depth Cluster.complexity_score].
    split; [|split; [|done]]; do 2 f_equal; apply map_ext; intros l;
      apply Hxy.
  - rewrite map_app, length_app, Nat.add_1_r, seq_S, map_app, Hids. done.
Qed.

Lemma detect_clusters self h :
  (forall l, x (h l) = x (heap self l) /\ y (h l) = y (heap self l)) ->
  let cs := (detect (nodes self) h).1.2 in
  Forall (cluster_ok self) cs
  /\ map Cluster.id cs = map Z.of_nat (seq 0 (length cs)).
Proof.
  intros Hxy. cbn zeta. unfold detect.
  pose proof (fold_left_ind_in
    (fun s : Heap * list Cluster.t * gset nat =>
       (forall l, x (s.1.1 l) = x (heap self l) /\ y (s.1.1 l) = y (heap self l))
       /\ Forall (cluster_ok self) s.1.2
       /\ map Cluster.id s.1.2 = map Z.of_nat (seq 0 (length s.1.2)))
    (fun s '(i, node) => grow (nodes self) s i node)
    (enumerate (nodes self)) (h, [], ∅)) as H.
  apply H; [by split|].
  intros [[h1 cs] pr] [i node] Hin (Hxy1 & Hok & Hids).
  by apply (grow_clusters self).
Qed.

(** X24.  Every cluster that [_update_clusters] records has at least three
    members, all of them nodes of the collection, its centre at the mean
    of their positions and both scores at zero; the ids of the recorded
    clusters are their positions in the list; the list of nodes is
    unchanged. *)
Theorem recorded_clusters_are_well_formed self :
  let cs := clusters (_update_clusters self) in
  Forall (cluster_ok (_update_clusters self)) cs
  /\ map Cluster.id cs = map Z.of_nat (seq 0 (length cs))
  /\ nodes (_update_clusters self) = nodes self.
Proof.
  cbn zeta. rewrite update_clusters_eq.
  cbn [clusters set_clusters set_heap nodes].
  set (h0 := reset (nodes self) (heap self)).
  destruct (detect_clusters (set_heap h0 self) h0) as [Hok Hids]; [done|].
  cbn [nodes set_heap] in Hok, Hids. split; [|done].
  eapply Forall_impl; [exact Hok|].
  intros c (H3 & Hsub & Hcx & Hcy & Hr & Hs). cbn [heap set_heap] in *.
  split; [done|]. split; [done|]. cbn [heap set_clusters set_heap].
  split; [|split; [|done]].
  - rewrite Hcx. do 2 f_equal. apply map_ext. intros l.
    by rewrite (detect_field x).
  - rewrite Hcy. do 2 f_equal. apply map_ext. intros l.
    by rewrite (detect_field y).
Qed.

(** ** Labels and members *)









(** ** The two cluster detections agree *)

















(** ** The reply to [POST /api/nodes] *)

Lemma add_node_attention x0 y0 w self l self' w' :
  wf self -> add_node x0 y0 w self = Some (l, self', w') ->
  0 < attention (heap self' l) <= 1.
Proof.
  intros Hwf. unfold add_node.
  destruct (World.randint _ _ _) as [[uid w1]|]; [|done]. cbn.
  destruct (index _ _) as [lam|]; [|done]. cbn.
  match goal with
  | |- context [join_universe ?l ?u ?s] =>
      destruct (join_universe l u s) as [s'|] eqn:Hj; [|done]
  end.
  cbn. intros [= <- <- _].
  apply join_universe_shape in Hj as (Hn & _). cbn in Hn.
  destruct (wf_append self (next_loc self) Hwf eq_refl) as [Hnd _].
  rewrite <- Hn in Hnd.
  assert (Hin : In (next_loc self) (nodes s')).
  { rewrite Hn. apply in_or_app. right. by left. }
  rewrite normalize_share by done.
  set (d := fun l' => calculate_attention_density (heap s' l')).
  change (calculate_attention_density (heap s' (next_loc self)))
    with (d (next_loc self)).
  assert (Hd : forall b, 0 < d b) by (intros; apply density_pos).
  pose proof (share_le d (nodes s') _ Hd Hin).
  pose proof (Hd (next_loc self)). split.
  - apply Rdiv_lt_0_compat; lra.
  - apply (Rmult_le_reg_r (sum (map d (nodes s')))); [lra|].
    replace (d (next_loc self) / sum (map d (nodes s')) * sum (map d (nodes s')))
      with (d (next_loc self)) by (field; lra). lra.
Qed.

(** X29.  The reply to [POST /api/nodes] on a lattice of distinct nodes:
    whenever the call returns, the status is ["created"], the node
    described is the one appended to the collection, at the requested
    position, unlabelled, and its attention, already normalised, lies in
    [[0, 1]]. *)
Theorem created_node_reply x0 y0 w lattice status nd lattice' w' :
  wf lattice ->
  Server.create_node x0 y0 w lattice = Some (status, nd, lattice', w') ->
  status = "created"%string
  /\ nd = to_dict (heap lattice' (next_loc lattice))
  /\ NodeDict.x nd = x0 /\ NodeDict.y nd = y0
  /\ NodeDict.cluster_id nd = (-1)%Z
  /\ 0 <= NodeDict.attention nd <= 1
  /\ nodes lattice' = nodes lattice ++ [next_loc lattice].
Proof.
  intros Hwf. unfold Server.create_node.
  destruct (add_node x0 y0 w lattice) as [[[l s'] w1]|] eqn:Ha; [|done].
  cbn. intros [= <- <- <- <-].
  pose proof (add_node_spec _ _ _ _ _ _ _ Ha)
    as (-> & Hn & _ & Hx & Hy & _ & _ & Hc & _).
  pose proof (add_node_attention _ _ _ _ _ _ _ Hwf Ha) as Hatt.
  cbn [NodeDict.x NodeDict.y NodeDict.cluster_id NodeDict.attention to_dict].
  repeat split; try done; lra.
Qed.

(** Creating a node at [(30, 40)] in [lone_lattice] answers with that
    position. *)
Lemma created_node_reply_witness :
  wf lone_lattice
  /\ exists status nd lattice' w',
       Server.create_node 30 40 still_world lone_lattice
       = Some (status, nd, lattice', w')
       /\ NodeDict.x nd = 30 /\ NodeDict.y nd = 40.
Proof.
  split; [exact lone_lattice_wf|].
  destruct (add_node_returns 30 40 still_world lone_lattice ltac:(done)
              lone_lattice_sized) as [[[l self'] w'] Ha].
  assert (Hc : Server.create_node 30 40 still_world lone_lattice
               = Some ("created"%string, to_dict (heap self' l), self', w')).
  { unfold Server.create_node. by rewrite Ha. }
  eexists _, _, _, _. split; [exact Hc|].
  pose proof (created_node_reply 30 40 still_world lone_lattice _ _ _ _
                lone_lattice_wf Hc) as (_ & _ & Hx & Hy & _).
  by split.
Defined.

(** ** What the constructor draws *)

Lemma newborn_attention v n : newborn (set_attention v n) <-> newborn n.
Proof. by destruct n. Qed.

Lemma normalize_newborn self l :
  newborn (heap (_normalize_attention_field self) l) <-> newborn (heap self l).
Proof.
  rewrite <- (newborn_attention 0 (heap (_normalize_attention_field self) l)).
  rewrite (normalize_field (set_attention 0)) by done.
  apply newborn_attention.
Qed.

Lemma alter_Forall {A : Type} (P : A -> Prop) (f : A -> A) (k : nat)
    (l : list A) :
  (forall a, P a -> P (f a)) -> Forall P l -> Forall P (alter f k l).
Proof.
  intros Hf Hl. apply Forall_lookup. intros j a.
  destruct (decide (k = j)) as [<-|Hne].
  - rewrite list_lookup_alter_eq.
    destruct (l !! k) as [b|] eqn:Hk; [|done]. cbn. intros [= <-].
    apply Hf. by eapply Forall_lookup_1.
  - rewrite list_lookup_alter_ne by done. intros Hj.
    by eapply Forall_lookup_1.
Qed.

Lemma spawn_newborn self w self' w' :
  unit_draws w -> wf self ->
  (forall l, In l (nodes self) -> newborn (heap self l)) ->
  Forall universe_drawn (universes self) ->
  spawn self w = Some (self', w') ->
  unit_draws w'
  /\ (forall l, In l (nodes self') -> newborn (heap self' l))
  /\ Forall universe_drawn (universes self').
Proof.
  intros Hw [Hnd Hlt] Hold Hus. unfold spawn, World.uniform, World.random.
  cbn.
  destruct (World.randint _ _ _) as [[uid w1]|] eqn:Hr; [|done]. cbn.
  assert (Hw1 : World.floats w1 = World.floats w
                /\ World.drawn w1 = S (S (S (World.drawn w)))).
  { unfold World.randint in Hr. case_decide; [|done]. by injection Hr as _ <-. }
  destruct Hw1 as [Hf1 Hd1].
  destruct (index _ _) as [lam|]; [|done]. cbn.
  unfold join_universe. cbn.
  destruct (position _ _) as [k|]; [|done]. cbn.
  intros [= <- <-]. cbn.
  assert (Hu : forall k, (World.drawn w1 <= k)%nat -> 0 <= World.floats w1 k < 1).
  { intros j Hj. rewrite Hf1. apply Hw. lia. }
  split; [|split].
  - intros j Hj. cbn in Hj. apply Hu. lia.
  - intros l [Hin|[<-|[]]]%in_app_or.
    + rewrite heap_set_ne; [by apply Hold|]. apply Hlt in Hin. lia.
    + rewrite heap_set_eq. unfold newborn, unit_pair. cbn.
      pose proof PI_RGT_0.
      pose proof (Hw (World.drawn w) ltac:(lia)).
      pose proof (Hw (S (World.drawn w)) ltac:(lia)).
      pose proof (Hu (World.drawn w1) ltac:(lia)).
      pose proof (Hu (S (World.drawn w1)) ltac:(lia)).
      repeat split; try done; try (apply Hu; lia); nra.
  - apply alter_Forall; [|done]. by intros [].
Qed.

Lemma initialize_nodes_newborn self w self' w' :
  unit_draws w -> consistent (set_nodes [] self) ->
  Forall universe_drawn (universes self) ->
  _initialize_nodes self w = Some (self', w') ->
  (forall l, In l (nodes self') -> newborn (heap self' l))
  /\ Forall universe_drawn (universes self').
Proof.
  intros Hw Hc Hus. unfold _initialize_nodes. intros H.
  apply (for_each_inv
    (fun _ (sw : ConsciousnessLattice.t * World.t) =>
       consistent sw.1 /\ unit_draws sw.2
       /\ (forall l, In l (nodes sw.1) -> newborn (heap sw.1 l))
       /\ Forall universe_drawn (universes sw.1))) in H.
  - by destruct H as (_ & _ & ? & ?).
  - done.
  - intros _ [s1 w1] i [s2 w2] _ (Hc1 & Hw1 & Hn1 & Hu1) Hsp. cbn [fst snd] in *.
    split; [by eapply spawn_consistent|].
    destruct Hc1 as (Hwf & _). by eapply spawn_newborn.
Qed.

Lemma initialize_universes_drawn self w self' w' :
  unit_draws w ->
  _initialize_universes self w = Some (self', w') ->
  Forall universe_drawn (universes self') /\ unit_draws w'.
Proof.
  intros Hw. unfold _initialize_universes. intros H.
  apply (for_each_inv
    (fun _ (sw : ConsciousnessLattice.t * World.t) =>
       Forall universe_drawn (universes sw.1) /\ unit_draws sw.2)) in H;
    [done|done|].
  intros _ [s1 w1] i [s2 w2] _ [Hus Hw1]. cbn [fst snd] in *.
  unfold World.uniform, World.random. cbn.
  destruct (index _ _) as [lam|]; [|done]. cbn. intros [= <- <-]. cbn.
  split; [|intros j Hj; cbn in Hj; apply Hw1; lia].
  apply Forall_app. split; [done|]. apply Forall_singleton.
  unfold universe_drawn. cbn.
  pose proof (Hw1 (World.drawn w1) ltac:(lia)).
  pose proof (Hw1 (S (World.drawn w1)) ltac:(lia)).
  pose proof (Hw1 (S (S (World.drawn w1))) ltac:(lia)).
  repeat split; lra.
Qed.

Lemma sample_keeps_draws alpha w lambdas w' :
  _sample_dirichlet alpha w = Some (lambdas, w') ->
  World.floats w' = World.floats w
  /\ World.drawn w' = (World.drawn w + length alpha)%nat.
Proof.
  unfold _sample_dirichlet.
  assert (H : forall acc w0,
            let w1 :=
              (fold_left
                 (fun '(samples, w) a =>
                    let '(s, w) := World.gamma a 1 w in (samples ++ [s], w))
                 alpha (acc, w0)).2 in
            World.floats w1 = World.floats w0
            /\ World.drawn w1 = (World.drawn w0 + length alpha)%nat).
  { induction alpha as [|a alpha IH]; intros acc w0; [by cbn; rewrite Nat.add_0_r|].
    cbn [fold_left]. unfold World.gamma at 2 4, World.random.
    destruct (IH (acc ++ [World.floats w0 (World.drawn w0)]) (World.advance w0))
      as [-> ->]. cbn. split; [done|lia]. }
  specialize (H [] w). cbn zeta in H.
  destruct (fold_left _ _ _) as [samples w1].
  case_bool_decide; [done|]. by intros [= _ <-].
Qed.

(** X30.  What the constructor draws, when every draw that follows the gamma
    samples of the weights lies in [[0, 1)]: each node is placed inside the
    world, at rest, with radius [3], a frequency in [[35, 45]] around the
    base frequency [40], a phase in [[0, 2 * PI]], no cluster, no complex
    value yet, and tensors in the unit square; each universe has its centre
    within [400] of the origin on both axes and a radius in [[150, 250]]. *)
Theorem constructor_draws_within_ranges g u w self w' :
  (forall k, (World.drawn w + Z.to_nat u <= k)%nat ->
     0 <= World.floats w k < 1) ->
  __init__ g u w = Some (self, w') ->
  (forall l, In l (nodes self) -> newborn (heap self l))
  /\ Forall universe_drawn (universes self).
Proof.
  intros Hw. unfold __init__.
  destruct (_sample_dirichlet _ _) as [[lams w1]|] eqn:Hs; [|done]. cbn.
  apply sample_keeps_draws in Hs as Hw1. destruct Hw1 as [Hf1 Hd1].
  rewrite length_replicate in Hd1.
  apply sample_length in Hs. rewrite length_replicate in Hs.
  destruct (_initialize_universes _ _) as [[s2 w2]|] eqn:H2; [|done]. cbn.
  destruct (_initialize_nodes _ _) as [[s3 w3]|] eqn:H3; [|done]. cbn.
  intros [= <- _].
  assert (Hu1 : unit_draws w1).
  { intros k Hk. rewrite Hf1. apply Hw. lia. }
  destruct (initialize_universes_drawn _ _ _ _ Hu1 H2) as [Hus Hu2].
  apply initialize_universes_consistent in H2; [|done..].
  destruct (initialize_nodes_newborn _ _ _ _ Hu2 H2 Hus H3) as [Hn3 Hus3].
  destruct (normalize_shape s3) as (Hn & _ & Hu & _).
  cbn [nodes universes heap set_last_update_time].
  rewrite Hn, Hu. split; [|done].
  intros l Hl. apply normalize_newborn. by apply Hn3.
Qed.

(** The lattice built from [still_world] with two nodes and one
    universe. *)
Lemma constructor_draws_witness :
  (forall k, (World.drawn still_world + Z.to_nat 1 <= k)%nat ->
     0 <= World.floats still_world k < 1)
  /\ exists self w',
       __init__ 2 1 still_world = Some (self, w')
       /\ (forall l, In l (nodes self) -> newborn (heap self l))
       /\ Forall universe_drawn (universes self).
Proof.
  assert (Hw : forall k, (World.drawn still_world + Z.to_nat 1 <= k)%nat ->
                 0 <= World.floats still_world k < 1)
    by (intros k _; cbn; lra).
  split; [exact Hw|].
  destruct (init_returns 2 1 still_world) as [[self w'] Hi].
  { change (replicate (Z.to_nat 1) 1) with [1].
    unfold _sample_dirichlet. cbn [fold_left World.gamma World.random].
    cbn -[sum]. unfold sum. cbn [fold_left].
    rewrite bool_decide_eq_false_2; [eauto|]. intros [_ H]. lra. }
  { lia. }
  exists self, w'. split; [exact Hi|].
  exact (constructor_draws_within_ranges 2 1 still_world self w' Hw Hi).
Defined.
